(** * Cortex backend: the transcript-to-note pipeline of [backend/main.py]

    A shallow embedding of the pure and state-passing parts of the
    backend, and the properties of the pipeline stated over it.

    Conventions.
    - A Python [str] is a list of Unicode code points ([ord] of each
      character), so slicing, [find] and [len] count characters the way
      Python does.
    - Integers are [Z]; [str.find] and [str.rfind] answer [-1] when the
      pattern is absent, as in Python, and the guards of the source
      ([start >= 0 and end > start], [separator_idx > 0]) are kept as
      written.
    - A function that can raise returns a [result]; the file system, the
      HTTP exchange and the settings are passed explicitly. *)

From Stdlib Require Import ZArith List Lia Bool Ascii String.
From Stdlib Require Import Permutation Sorted.
Import ListNotations.
Open Scope Z_scope.
Set Warnings "-register-all".

(* ===================================================================== *)
(** * Python strings *)
(* ===================================================================== *)

Module Py.

Definition char := Z.
Definition str := list char.

(** A string literal of the source, as code points. *)
Definition lit (s : string) : str :=
  map (fun a => Z.of_N (N_of_ascii a)) (list_ascii_of_string s).

Definition len (s : str) : Z := Z.of_nat (List.length s).

Fixpoint str_eqb (a b : str) : bool :=
  match a, b with
  | [], [] => true
  | x :: a', y :: b' => (x =? y) && str_eqb a' b'
  | _, _ => false
  end.

(** [s.startswith(p)] *)
Fixpoint startswith (p s : str) : bool :=
  match p, s with
  | [], _ => true
  | _ :: _, [] => false
  | x :: p', y :: s' => (x =? y) && startswith p' s'
  end.

(** Slicing.  An index of a slice is clamped the way Python clamps it:
    a negative index counts from the end, and everything is cut to
    [0 .. len s]. *)
Definition clamp (n i : Z) : Z :=
  if i <? 0 then Z.max 0 (i + n) else Z.min i n.

(** [s[a:b]] *)
Definition slice (s : str) (a b : Z) : str :=
  let a' := clamp (len s) a in
  let b' := clamp (len s) b in
  firstn (Z.to_nat (b' - a')) (skipn (Z.to_nat a') s).

(** [s[:b]] *)
Definition slice_to (s : str) (b : Z) : str := slice s 0 b.

(** [s[a:]] *)
Definition slice_from (s : str) (a : Z) : str := slice s a (len s).

(** [s.find(sub)]: the lowest index at which [sub] occurs, or [-1]. *)
Fixpoint find_at (sub s : str) (i : Z) : Z :=
  if startswith sub s then i
  else match s with
       | [] => -1
       | _ :: t => find_at sub t (i + 1)
       end.

Definition find (s sub : str) : Z := find_at sub s 0.

(** [s.rfind(sub)]: the highest index at which [sub] occurs, or [-1]. *)
Fixpoint rfind (s sub : str) : Z :=
  match s with
  | [] => if startswith sub [] then 0 else -1
  | _ :: t =>
      let r := rfind t sub in
      if 0 <=? r then r + 1
      else if startswith sub s then 0 else -1
  end.

(** [s.replace(old, new)] for a non-empty [old]: occurrences are replaced
    from the left and do not overlap.  [skip] counts the characters of an
    occurrence already replaced that are still to be dropped. *)
Fixpoint replace_at (old new s : str) (skip : nat) : str :=
  match s with
  | [] => []
  | c :: t =>
      match skip with
      | S k => replace_at old new t k
      | O =>
          if startswith old s
          then new ++ replace_at old new t (List.length old - 1)%nat
          else c :: replace_at old new t O
      end
  end.

Definition replace (s old new : str) : str := replace_at old new s O.

(** [c.isspace()]: the code points Python counts as whitespace. *)
Definition isspace (c : char) : bool :=
  ((9 <=? c) && (c <=? 13)) || ((28 <=? c) && (c <=? 32))
  || (c =? 133) || (c =? 160) || (c =? 5760)
  || ((8192 <=? c) && (c <=? 8202))
  || (c =? 8232) || (c =? 8233) || (c =? 8239) || (c =? 8287)
  || (c =? 12288).

Fixpoint lstrip (s : str) : str :=
  match s with
  | c :: t => if isspace c then lstrip t else s
  | [] => []
  end.

Definition rstrip (s : str) : str := rev (lstrip (rev s)).

(** [s.strip()] *)
Definition strip (s : str) : str := rstrip (lstrip s).

(** [s.lower()].  The case mapping is the one of Basic Latin and of the
    Latin-1 Supplement; other code points are left as they are. *)
Definition lower_char (c : char) : char :=
  if ((65 <=? c) && (c <=? 90))
     || ((192 <=? c) && (c <=? 222) && negb (c =? 215))
  then c + 32 else c.

Definition lower (s : str) : str := map lower_char s.

End Py.

(* ===================================================================== *)
(** * Python values and dictionaries *)
(* ===================================================================== *)

Abbreviation str := Py.str.
Abbreviation lit := Py.lit.

(** The values [json.loads] can build.  A float keeps the text it was read
    from: no property below looks inside one. *)
Inductive value : Type :=
| VNone
| VBool (b : bool)
| VInt (n : Z)
| VFloat (lexeme : str)
| VStr (s : str)
| VList (l : list value)
| VDict (d : list (str * value)).

(** A [dict] with string keys: the bindings in insertion order, one per
    key. *)
Definition dict := list (str * value).

Fixpoint dict_lookup (d : dict) (k : str) : option value :=
  match d with
  | [] => None
  | (k', v) :: t => if Py.str_eqb k' k then Some v else dict_lookup t k
  end.

(** [k in d] *)
Definition dict_has (d : dict) (k : str) : bool :=
  match dict_lookup d k with Some _ => true | None => false end.

(** [d.get(k, default)] *)
Definition dict_get (d : dict) (k : str) (default : value) : value :=
  match dict_lookup d k with Some v => v | None => default end.

(** [d[k] = v]: a key already present keeps its place and takes the new
    value. *)
Fixpoint dict_set (d : dict) (k : str) (v : value) : dict :=
  match d with
  | [] => [(k, v)]
  | (k', v') :: t =>
      if Py.str_eqb k' k then (k', v) :: t else (k', v') :: dict_set t k v
  end.

(** A dict display [{k1: v1, k2: v2, ...}]. *)
Definition dict_of (kvs : list (str * value)) : dict :=
  fold_left (fun d kv => dict_set d (fst kv) (snd kv)) kvs [].

(* ===================================================================== *)
(** * [json.loads] and [json.dumps] *)
(* ===================================================================== *)

(** The decoder follows Python's [json] module: [JSONDecoder.decode] with
    its default settings (strict strings, [NaN] and [Infinity] accepted).
    [None] stands for [JSONDecodeError]. *)
Module Json.

(** The outcome of scanning one construct at the head of the input. *)
Inductive scan (A : Type) : Type :=
| Scanned (a : A) (rest : str)
| Invalid
| Exhausted.
Arguments Scanned {A} a rest.
Arguments Invalid {A}.
Arguments Exhausted {A}.

(** The whitespace of JSON: space, tab, line feed, carriage return. *)
Definition is_ws (c : Z) : bool :=
  (c =? 32) || (c =? 9) || (c =? 10) || (c =? 13).

Fixpoint skip_ws (s : str) : str :=
  match s with
  | c :: t => if is_ws c then skip_ws t else s
  | [] => []
  end.

Definition is_digit (c : Z) : bool := (48 <=? c) && (c <=? 57).

(** The value of a hexadecimal digit, upper or lower case. *)
Definition hex_val (c : Z) : option Z :=
  if is_digit c then Some (c - 48)
  else if (97 <=? c) && (c <=? 102) then Some (c - 87)
  else if (65 <=? c) && (c <=? 70) then Some (c - 55)
  else None.

Definition hex4 (a b c d : Z) : option Z :=
  match hex_val a, hex_val b, hex_val c, hex_val d with
  | Some x, Some y, Some z, Some w => Some (((x * 16 + y) * 16 + z) * 16 + w)
  | _, _, _, _ => None
  end.

Definition is_high_surrogate (u : Z) : bool := (55296 <=? u) && (u <=? 56319).
Definition is_low_surrogate (u : Z) : bool := (56320 <=? u) && (u <=? 57343).
Definition join_surrogates (hi lo : Z) : Z :=
  65536 + (hi - 55296) * 1024 + (lo - 56320).

(** The character a one-letter escape stands for: the letters of
    [BACKSLASH] in [json.decoder]. *)
Definition unescape (e : Z) : option Z :=
  if e =? 34 then Some 34            (* quote *)
  else if e =? 92 then Some 92       (* backslash *)
  else if e =? 47 then Some 47       (* slash *)
  else if e =? 98 then Some 8        (* backspace *)
  else if e =? 102 then Some 12      (* form feed *)
  else if e =? 110 then Some 10      (* line feed *)
  else if e =? 114 then Some 13      (* carriage return *)
  else if e =? 116 then Some 9       (* tab *)
  else None.

(** [scanstring]: the body of a string, after its opening quote, up to
    the closing quote.  [acc] holds the decoded characters, last first. *)
Fixpoint scanstring (s : str) (acc : str) : option (str * str) :=
  match s with
  | [] => None
  | c :: t =>
      if c =? 34 then Some (rev acc, t)
      else if c =? 92 then
        match t with
        | [] => None
        | e :: t1 =>
            if e =? 117 then
              match t1 with
              | h1 :: h2 :: h3 :: h4 :: t2 =>
                  match hex4 h1 h2 h3 h4 with
                  | None => None
                  | Some u =>
                      match t2 with
                      | b :: e' :: g1 :: g2 :: g3 :: g4 :: t3 =>
                          if is_high_surrogate u && (b =? 92) && (e' =? 117)
                          then match hex4 g1 g2 g3 g4 with
                               | None => None
                               | Some u2 =>
                                   if is_low_surrogate u2
                                   then scanstring t3 (join_surrogates u u2 :: acc)
                                   else scanstring t2 (u :: acc)
                               end
                          else scanstring t2 (u :: acc)
                      | _ => scanstring t2 (u :: acc)
                      end
                  end
              | _ => None
              end
            else match unescape e with
                 | Some c' => scanstring t1 (c' :: acc)
                 | None => None
                 end
        end
      else if c <? 32 then None
      else scanstring t (c :: acc)
  end.

(** ** Numbers

    An optional minus sign; an integer part that is a single zero or a
    non-zero digit followed by digits; an optional fraction (a point and
    at least one digit); an optional exponent (e or E, an optional sign,
    at least one digit). *)

Fixpoint span_digits (s : str) : str * str :=
  match s with
  | c :: t =>
      if is_digit c
      then let (ds, r) := span_digits t in (c :: ds, r)
      else ([], s)
  | [] => ([], [])
  end.

Definition digits_val (ds : str) : Z :=
  fold_left (fun n c => n * 10 + (c - 48)) ds 0.

Definition scan_int (s : str) : option (str * str) :=
  match s with
  | c :: t =>
      if c =? 48 then Some ([c], t)
      else if is_digit c
           then let (ds, r) := span_digits t in Some (c :: ds, r)
           else None
  | [] => None
  end.

Definition scan_frac (s : str) : str * str :=
  match s with
  | p :: t =>
      if p =? 46
      then match span_digits t with
           | ([], _) => ([], s)
           | (ds, r) => (p :: ds, r)
           end
      else ([], s)
  | [] => ([], s)
  end.

Definition scan_exp (s : str) : str * str :=
  match s with
  | e :: t =>
      if (e =? 101) || (e =? 69)
      then let (sign, t1) :=
             match t with
             | g :: t' => if (g =? 45) || (g =? 43) then ([g], t') else ([], t)
             | [] => ([], t)
             end in
           match span_digits t1 with
           | ([], _) => ([], s)
           | (ds, r) => (e :: sign ++ ds, r)
           end
      else ([], s)
  | [] => ([], s)
  end.

Definition scan_number (s : str) : option (value * str) :=
  let (sign, s1) :=
    match s with
    | c :: t => if c =? 45 then ([c], t) else ([], s)
    | [] => ([], s)
    end in
  match scan_int s1 with
  | None => None
  | Some (ip, r1) =>
      let (fp, r2) := scan_frac r1 in
      let (ep, r3) := scan_exp r2 in
      match fp, ep with
      | [], [] =>
          Some (VInt (match sign with
                      | [] => digits_val ip
                      | _ => - digits_val ip
                      end), r3)
      | _, _ => Some (VFloat (sign ++ ip ++ fp ++ ep), r3)
      end
  end.

(** A constant of the scanner: [null], [true], [false], [NaN],
    [Infinity], [-Infinity]. *)
Definition scan_constant (s : str) : option (value * str) :=
  if Py.startswith (lit "null") s then Some (VNone, skipn 4 s)
  else if Py.startswith (lit "true") s then Some (VBool true, skipn 4 s)
  else if Py.startswith (lit "false") s then Some (VBool false, skipn 5 s)
  else if Py.startswith (lit "NaN") s then Some (VFloat (lit "NaN"), skipn 3 s)
  else if Py.startswith (lit "Infinity") s
       then Some (VFloat (lit "Infinity"), skipn 8 s)
  else if Py.startswith (lit "-Infinity") s
       then Some (VFloat (lit "-Infinity"), skipn 9 s)
  else None.

(** ** Values, objects and arrays

    [scan_once] is the scanner's entry for one value; [scan_members] reads
    the members of an object from the position where a key is expected,
    [scan_items] the elements of an array from the position where a value
    is expected.  Every call uses one unit of [fuel]; [json_loads] gives
    more than the text can use (see [scan_fuel_enough]). *)
Fixpoint scan_once (fuel : nat) (s : str) : scan value :=
  match fuel with
  | O => Exhausted
  | S f =>
      match s with
      | [] => Invalid
      | c :: t =>
          if c =? 34 then
            match scanstring t [] with
            | Some (x, r) => Scanned (VStr x) r
            | None => Invalid
            end
          else if c =? 123 then
            match skip_ws t with
            | c1 :: t1 =>
                if c1 =? 125 then Scanned (VDict []) t1
                else scan_members f (c1 :: t1) []
            | [] => Invalid
            end
          else if c =? 91 then
            match skip_ws t with
            | c1 :: t1 =>
                if c1 =? 93 then Scanned (VList []) t1
                else scan_items f (c1 :: t1) []
            | [] => Invalid
            end
          else
            match scan_constant s with
            | Some (v, r) => Scanned v r
            | None =>
                match scan_number s with
                | Some (v, r) => Scanned v r
                | None => Invalid
                end
            end
      end
  end

with scan_members (fuel : nat) (s : str) (acc : dict) : scan value :=
  match fuel with
  | O => Exhausted
  | S f =>
      match s with
      | [] => Invalid
      | q :: t =>
          if q =? 34 then
            match scanstring t [] with
            | None => Invalid
            | Some (k, r1) =>
                match skip_ws r1 with
                | [] => Invalid
                | colon :: r2 =>
                    if colon =? 58 then
                      match scan_once f (skip_ws r2) with
                      | Scanned v r3 =>
                          let acc' := dict_set acc k v in
                          match skip_ws r3 with
                          | [] => Invalid
                          | d :: r4 =>
                              if d =? 125 then Scanned (VDict acc') r4
                              else if d =? 44
                                   then scan_members f (skip_ws r4) acc'
                                   else Invalid
                          end
                      | Invalid => Invalid
                      | Exhausted => Exhausted
                      end
                    else Invalid
                end
            end
          else Invalid
      end
  end

with scan_items (fuel : nat) (s : str) (acc : list value) : scan value :=
  match fuel with
  | O => Exhausted
  | S f =>
      match scan_once f s with
      | Scanned v r =>
          match skip_ws r with
          | [] => Invalid
          | d :: r1 =>
              if d =? 93 then Scanned (VList (rev (v :: acc))) r1
              else if d =? 44 then scan_items f (skip_ws r1) (v :: acc)
              else Invalid
          end
      | Invalid => Invalid
      | Exhausted => Exhausted
      end
  end.

(** [json.loads(s)]: whitespace, one value, whitespace, end of text. *)
Definition json_loads (s : str) : option value :=
  let s0 := skip_ws s in
  match scan_once (S (2 * List.length s0)) s0 with
  | Scanned v r =>
      match skip_ws r with
      | [] => Some v
      | _ :: _ => None
      end
  | Invalid => None
  | Exhausted => None
  end.

(** ** [json.dumps]

    The encoder with its default settings: [ensure_ascii] is on, the item
    separator is a comma and a space, the key separator a colon and a
    space.  The backend serialises only dictionaries from strings to
    strings. *)

Definition hex_digit (n : Z) : Z := if n <? 10 then 48 + n else 87 + n.

(** The four lower-case hexadecimal digits of [n], as in the format
    [{0:04x}]. *)
Definition hex4_text (n : Z) : str :=
  [hex_digit (n / 4096 mod 16); hex_digit (n / 256 mod 16);
   hex_digit (n / 16 mod 16); hex_digit (n mod 16)].

(** One character of [encode_basestring_ascii]. *)
Definition escape_char (c : Z) : str :=
  if c =? 34 then [92; 34]
  else if c =? 92 then [92; 92]
  else if c =? 10 then [92; 110]
  else if c =? 13 then [92; 114]
  else if c =? 9 then [92; 116]
  else if c =? 12 then [92; 102]
  else if c =? 8 then [92; 98]
  else if (32 <=? c) && (c <=? 126) then [c]
  else if c <? 65536 then 92 :: 117 :: hex4_text c
  else
    let n := c - 65536 in
    let s1 := Z.lor 55296 (Z.land (Z.shiftr n 10) 1023) in
    let s2 := Z.lor 56320 (Z.land n 1023) in
    (92 :: 117 :: hex4_text s1) ++ (92 :: 117 :: hex4_text s2).

Definition encode_string (s : str) : str :=
  34 :: flat_map escape_char s ++ [34].

Fixpoint join (sep : str) (parts : list str) : str :=
  match parts with
  | [] => []
  | [p] => p
  | p :: rest => p ++ sep ++ join sep rest
  end.

(** One item of a dictionary: the key, a colon and a space, the value. *)
Definition item_text (kv : str * str) : str :=
  encode_string (fst kv) ++ lit ": " ++ encode_string (snd kv).

Definition json_dumps (d : list (str * str)) : str :=
  [123] ++ join (lit ", ") (map item_text d) ++ [125].

End Json.

(* ===================================================================== *)
(** * [datetime.fromisoformat] and [strftime] *)
(* ===================================================================== *)

(** The texts [datetime.fromisoformat] accepts are those of its
    documentation: [YYYY-MM-DD[*HH[:MM[:SS[.fff[fff]]]][+HH:MM[:SS[.ffffff]]]]],
    where [*] is any one character.  [None] stands for [ValueError]. *)
Module Datetime.

Record datetime : Type := mk_datetime {
  year : Z; month : Z; day : Z;
  hour : Z; minute : Z; second : Z; microsecond : Z;
  (** the UTC offset in microseconds, for an aware value *)
  tzinfo : option Z
}.

Definition is_digit (c : Z) : bool := (48 <=? c) && (c <=? 57).

(** A run of decimal digits, nothing else. *)
Definition parse_digits (s : str) : option Z :=
  match s with
  | [] => None
  | _ :: _ =>
      if forallb is_digit s
      then Some (fold_left (fun n c => n * 10 + (c - 48)) s 0)
      else None
  end.

Definition is_leap (y : Z) : bool :=
  (y mod 4 =? 0) && (negb (y mod 100 =? 0) || (y mod 400 =? 0)).

Definition days_in_month (y m : Z) : Z :=
  if m =? 2 then (if is_leap y then 29 else 28)
  else if (m =? 4) || (m =? 6) || (m =? 9) || (m =? 11) then 30
  else 31.

(** [YYYY-MM-DD], exactly ten characters. *)
Definition parse_isoformat_date (dstr : str) : option (Z * Z * Z) :=
  match dstr with
  | [y1; y2; y3; y4; s1; m1; m2; s2; d1; d2] =>
      if (s1 =? 45) && (s2 =? 45) then
        match parse_digits [y1; y2; y3; y4],
              parse_digits [m1; m2], parse_digits [d1; d2] with
        | Some y, Some m, Some d => Some (y, m, d)
        | _, _, _ => None
        end
      else None
  | _ => None
  end.

(** The fraction after the point: three or six digits, in microseconds. *)
Definition parse_fraction (f : str) : option Z :=
  match parse_digits f with
  | Some n =>
      if (List.length f =? 3)%nat then Some (n * 1000)
      else if (List.length f =? 6)%nat then Some n
      else None
  | None => None
  end.

(** [HH[:MM[:SS[.fff[fff]]]]] *)
Definition parse_hh_mm_ss_ff (tstr : str) : option (Z * Z * Z * Z) :=
  match tstr with
  | h1 :: h2 :: r =>
      match parse_digits [h1; h2] with
      | None => None
      | Some h =>
          match r with
          | [] => Some (h, 0, 0, 0)
          | c1 :: m1 :: m2 :: r1 =>
              match (if c1 =? 58 then parse_digits [m1; m2] else None) with
              | None => None
              | Some m =>
                  match r1 with
                  | [] => Some (h, m, 0, 0)
                  | c2 :: s1 :: s2 :: r2 =>
                      match (if c2 =? 58 then parse_digits [s1; s2] else None) with
                      | None => None
                      | Some s =>
                          match r2 with
                          | [] => Some (h, m, s, 0)
                          | p :: f =>
                              if p =? 46 then
                                match parse_fraction f with
                                | Some us => Some (h, m, s, us)
                                | None => None
                                end
                              else None
                          end
                      end
                  | _ => None
                  end
              end
          | _ => None
          end
      end
  | _ => None
  end.

(** The time text is cut at its first [+] or [-]: the clock before it, the
    sign and the offset from there. *)
Fixpoint split_offset (tstr : str) : str * option (Z * str) :=
  match tstr with
  | [] => ([], None)
  | c :: t =>
      if (c =? 43) || (c =? 45) then ([], Some (c, t))
      else let (clock, off) := split_offset t in (c :: clock, off)
  end.

Definition parse_offset (sign : Z) (tzstr : str) : option Z :=
  let n := List.length tzstr in
  if (n =? 5)%nat || (n =? 8)%nat || (n =? 15)%nat then
    match parse_hh_mm_ss_ff tzstr with
    | Some (h, m, s, us) =>
        let off := ((h * 3600 + m * 60 + s) * 1000000 + us) in
        if off <? 86400 * 1000000
        then Some (if sign =? 45 then - off else off)
        else None
    | None => None
    end
  else None.

Definition parse_isoformat_time (tstr : str)
  : option (Z * Z * Z * Z * option Z) :=
  let (clock, off) := split_offset tstr in
  match parse_hh_mm_ss_ff clock with
  | None => None
  | Some (h, m, s, us) =>
      match off with
      | None => Some (h, m, s, us, None)
      | Some (sign, tzstr) =>
          match parse_offset sign tzstr with
          | Some o => Some (h, m, s, us, Some o)
          | None => None
          end
      end
  end.

(** The range checks of the [datetime] constructor. *)
Definition check_fields (y mo d h mi s us : Z) : bool :=
  (1 <=? y) && (y <=? 9999) && (1 <=? mo) && (mo <=? 12)
  && (1 <=? d) && (d <=? days_in_month y mo)
  && (h <=? 23) && (mi <=? 59) && (s <=? 59) && (us <=? 999999).

Definition fromisoformat (date_string : str) : option datetime :=
  match parse_isoformat_date (firstn 10 date_string) with
  | None => None
  | Some (y, mo, d) =>
      let after := skipn 10 date_string in
      match
        (match after with
         | [] => Some (0, 0, 0, 0, None)
         | _ :: tstr => parse_isoformat_time tstr
         end)
      with
      | None => None
      | Some (h, mi, s, us, tz) =>
          if check_fields y mo d h mi s us
          then Some (mk_datetime y mo d h mi s us tz)
          else None
      end
  end.

(** ** [strftime] *)

Definition pad2 (n : Z) : str := [48 + n / 10 mod 10; 48 + n mod 10].

Definition pad4 (n : Z) : str :=
  [48 + n / 1000 mod 10; 48 + n / 100 mod 10; 48 + n / 10 mod 10; 48 + n mod 10].

Definition month_name (m : Z) : str :=
  nth (Z.to_nat (m - 1))
    (map lit ["January"; "February"; "March"; "April"; "May"; "June";
              "July"; "August"; "September"; "October"; "November";
              "December"]%string)
    [].

(** The hour on the twelve-hour clock. *)
Definition hour12 (h : Z) : Z := if h mod 12 =? 0 then 12 else h mod 12.

(** One directive of the format.  The directives the backend uses are
    [%Y %m %d %H %M %S %B %I %p]; any other is copied as it stands. *)
Definition directive (dt : datetime) (c : Z) : str :=
  if c =? 89 then pad4 (year dt)             (* Y *)
  else if c =? 109 then pad2 (month dt)      (* m *)
  else if c =? 100 then pad2 (day dt)        (* d *)
  else if c =? 72 then pad2 (hour dt)        (* H *)
  else if c =? 77 then pad2 (minute dt)      (* M *)
  else if c =? 83 then pad2 (second dt)      (* S *)
  else if c =? 66 then month_name (month dt) (* B *)
  else if c =? 73 then pad2 (hour12 (hour dt)) (* I *)
  else if c =? 112 then (if hour dt <? 12 then lit "AM" else lit "PM") (* p *)
  else if c =? 37 then [37]
  else [37; c].

Fixpoint strftime (dt : datetime) (fmt : str) : str :=
  match fmt with
  | [] => []
  | c :: t =>
      if c =? 37 then
        match t with
        | d :: t' => directive dt d ++ strftime dt t'
        | [] => [37]
        end
      else c :: strftime dt t
  end.

End Datetime.

(* ===================================================================== *)
(** * Paths and the file system *)
(* ===================================================================== *)

(** Paths are pure POSIX paths as [pathlib] keeps them: a root and the
    list of components, with empty components and single dots dropped.
    The file system is the set of directories and the files with their
    text.  Failures of the operating system itself (permissions, a full
    disk, a missing parent directory) are outside the model: creating a
    directory and writing a file succeed. *)
Module Fs.

Record path : Type := mk_path { root : str; parts : list str }.

(** [s.split(sep)] for a one-character separator. *)
Fixpoint split_on (sep : Z) (s : str) : list str :=
  match s with
  | [] => [[]]
  | c :: t =>
      if c =? sep then [] :: split_on sep t
      else match split_on sep t with
           | p :: ps => (c :: p) :: ps
           | [] => [[c]]
           end
  end.

Definition keep_part (p : str) : bool :=
  negb (Py.str_eqb p []) && negb (Py.str_eqb p [46]).

(** [Path(s)] *)
Definition Path (s : str) : path :=
  let r :=
    match s with
    | a :: b :: c :: _ =>
        if (a =? 47) && (b =? 47) && negb (c =? 47) then [47; 47]
        else if a =? 47 then [47] else []
    | [a; b] => if (a =? 47) && (b =? 47) then [47; 47]
                else if a =? 47 then [47] else []
    | [a] => if a =? 47 then [47] else []
    | [] => []
    end in
  mk_path r (filter keep_part (split_on 47 s)).

(** [p / s] *)
Definition joinpath (p : path) (s : str) : path :=
  let q := Path s in
  match root q with
  | [] => mk_path (root p) (parts p ++ parts q)
  | _ :: _ => q
  end.

(** [str(p)] *)
Definition path_str (p : path) : str :=
  match root p, parts p with
  | [], [] => [46]
  | r, ps => r ++ Json.join [47] ps
  end.

Fixpoint parts_eqb (a b : list str) : bool :=
  match a, b with
  | [], [] => true
  | x :: a', y :: b' => Py.str_eqb x y && parts_eqb a' b'
  | _, _ => false
  end.

Definition path_eqb (p q : path) : bool :=
  Py.str_eqb (root p) (root q) && parts_eqb (parts p) (parts q).

Record filesystem : Type := mk_fs {
  dirs : list path;
  files : list (path * str)
}.

(** The root and the current directory are always there. *)
Definition is_dir (fs : filesystem) (p : path) : bool :=
  match parts p with
  | [] => true
  | _ :: _ => existsb (path_eqb p) (dirs fs)
  end.

Definition is_file (fs : filesystem) (p : path) : bool :=
  existsb (fun e => path_eqb p (fst e)) (files fs).

(** [p.exists()] *)
Definition exists_ (fs : filesystem) (p : path) : bool :=
  is_dir fs p || is_file fs p.

Definition add_dir (fs : filesystem) (p : path) : filesystem :=
  if is_dir fs p then fs else mk_fs (dirs fs ++ [p]) (files fs).

(** The proper ancestors of a path, nearest last. *)
Fixpoint prefixes (ps : list str) : list (list str) :=
  match ps with
  | [] => []
  | x :: t => [] :: map (cons x) (prefixes t)
  end.

Definition ancestors (p : path) : list path :=
  map (mk_path (root p)) (tl (prefixes (parts p))).

(** [p.mkdir(exist_ok=True)] *)
Definition mkdir (fs : filesystem) (p : path) : filesystem := add_dir fs p.

(** [p.mkdir(parents=True)] on a path that does not exist. *)
Definition mkdir_parents (fs : filesystem) (p : path) : filesystem :=
  add_dir (fold_left add_dir (ancestors p) fs) p.

(** Reading a file's text. *)
Fixpoint read_text_in (fl : list (path * str)) (p : path) : option str :=
  match fl with
  | [] => None
  | (q, c) :: t => if path_eqb p q then Some c else read_text_in t p
  end.

Definition read_text (fs : filesystem) (p : path) : option str :=
  read_text_in (files fs) p.

(** Opening a file with mode [w] and writing [content]: the file is
    created, or its text replaced. *)
Fixpoint write_text_in (fl : list (path * str)) (p : path) (content : str)
  : list (path * str) :=
  match fl with
  | [] => [(p, content)]
  | (q, c) :: t =>
      if path_eqb p q then (q, content) :: t
      else (q, c) :: write_text_in t p content
  end.

Definition write_text (fs : filesystem) (p : path) (content : str)
  : filesystem :=
  mk_fs (dirs fs) (write_text_in (files fs) p content).

End Fs.

(* ===================================================================== *)
(** * The backend *)
(* ===================================================================== *)

(** ** Exceptions, settings and the outside world *)

Inductive exn : Type :=
| ValueError
| TypeError
| AttributeError
| KeyError
| IsADirectoryError
| ValidationError
| HTTPException (status_code : Z) (detail : str).

Inductive result (A : Type) : Type :=
| Ok (a : A)
| Raise (e : exn).
Arguments Ok {A} a.
Arguments Raise {A} e.

(** [class Settings] *)
Record Settings : Type := mk_settings {
  nano_gpt_api_key : str;
  nano_gpt_api_url : str;
  data_dir : str
}.

(** The request [call_ai] posts. *)
Record http_request : Type := mk_request {
  req_url : str;
  req_authorization : str;
  req_model : str;
  req_system : str;
  req_user : str;
  req_max_tokens : Z
}.

(** What posting a request gives: a response with its status and body, or
    an exception of the client (no connection, a timeout). *)
Inductive http_outcome : Type :=
| Response (status_code : Z) (text : str)
| ClientError.

(** What the backend takes from outside: the classifier's service, the
    next [uuid.uuid4()] as text, and [str(v)] for a value that is not a
    string (used where an f-string formats a field of the classifier's
    answer). *)
Record World : Type := mk_world {
  post : http_request -> http_outcome;
  uuid4 : str;
  py_str : value -> str
}.

(** The state the backend changes: the file system, and the requests
    sent to the classifier's service so far. *)
Record State : Type := mk_state {
  fs : Fs.filesystem;
  sent : list http_request
}.

(** Computations that read and change the state and may raise. *)
Definition M (A : Type) : Type := State -> result A * State.

Definition ret {A} (a : A) : M A := fun st => (Ok a, st).
Definition raise {A} (e : exn) : M A := fun st => (Raise e, st).
Definition bind {A B} (m : M A) (k : A -> M B) : M B :=
  fun st =>
    match m st with
    | (Ok a, st') => k a st'
    | (Raise e, st') => (Raise e, st')
    end.
Definition get_fs : M Fs.filesystem := fun st => (Ok (fs st), st).
Definition put_fs (f : Fs.filesystem) : M unit :=
  fun st => (Ok tt, mk_state f (sent st)).

Notation "x <- m ;; k" := (bind m (fun x => k))
  (at level 61, m at next level, right associativity).
Notation "m ;;; k" := (bind m (fun _ => k))
  (at level 61, right associativity).

(** ** Helpers of the embedding *)

(** A literal of the source that contains double quotes, written here
    with single quotes in their place. *)
Definition quoted (s : string) : str :=
  map (fun c => if c =? 39 then 34 else c) (lit s).

(** How an f-string formats a field: a string as it is, any other value
    through [str]. *)
Definition format_value (w : World) (v : value) : str :=
  match v with
  | VStr s => s
  | _ => py_str w v
  end.

(** [d[k]] on a dictionary. *)
Definition getitem (d : dict) (k : str) : result value :=
  match dict_lookup d k with
  | Some v => Ok v
  | None => Raise KeyError
  end.

(** [v[k]] and [v[0]] on a decoded JSON value, [None] when the subscript
    raises ([KeyError], [IndexError], [TypeError]). *)
Definition subscript_key (v : value) (k : str) : option value :=
  match v with
  | VDict d => dict_lookup d k
  | _ => None
  end.

Definition subscript_0 (v : value) : option value :=
  match v with
  | VList (x :: _) => Some x
  | VStr (c :: _) => Some (VStr [c])
  | _ => None
  end.

(** A field of a response model declared [str]: any other value is
    refused. *)
Definition validate_str (v : value) : result str :=
  match v with
  | VStr s => Ok s
  | _ => Raise ValidationError
  end.

Definition lift {A} (r : result A) : M A := fun st => (r, st).

(** ** [get_readme_content] *)

Definition get_readme_content (settings : Settings) : M str :=
  f <- get_fs ;;
  let readme_path := Fs.joinpath (Fs.Path (data_dir settings)) (lit "README.md") in
  if Fs.exists_ f readme_path
  then match Fs.read_text f readme_path with
       | Some c => ret c
       | None => raise IsADirectoryError
       end
  else ret [].

(** ** [call_ai] *)

Definition system_prompt (readme_content : str) : str :=
  lit "You are an AI assistant that helps organize voice notes into folders.

Based on the folder structure described below, analyze the transcript and decide:
1. Which folder it belongs in
2. A short title (max 50 chars)
3. A brief summary (max 100 chars)
4. A URL-safe slug for the filename (lowercase, hyphens, max 30 chars)

## Folder Structure:
" ++ readme_content ++ lit "

Respond with JSON only:
" ++ quoted "{'folder': 'folder_name', 'title': 'Short Title', 'summary': 'Brief summary', 'slug': 'url-safe-slug'}".

(** The mock response, when no API key is set. *)
Definition mock_response (transcript default_folder : str) : str :=
  Json.json_dumps
    [(lit "folder", default_folder);
     (lit "title",
       if 30 <? Py.len transcript
       then Py.slice_to transcript 30 ++ lit "..."
       else transcript);
     (lit "summary", Py.slice_to transcript 100);
     (lit "slug", lit "note")].

(** The response on a status other than 200 and on an exception. *)
Definition error_response (transcript default_folder : str) : str :=
  Json.json_dumps
    [(lit "folder", default_folder);
     (lit "title", Py.slice_to transcript 30);
     (lit "summary", Py.slice_to transcript 100);
     (lit "slug", lit "note")].

(** [client.post(...)]: the request is sent and recorded. *)
Definition http_post (w : World) (r : http_request) : M http_outcome :=
  fun st => (Ok (post w r), mk_state (fs st) (sent st ++ [r])).

(** [data["choices"][0]["message"]["content"]] *)
Definition message_content (data : value) : option value :=
  match subscript_key data (lit "choices") with
  | None => None
  | Some choices =>
      match subscript_0 choices with
      | None => None
      | Some choice =>
          match subscript_key choice (lit "message") with
          | None => None
          | Some message => subscript_key message (lit "content")
          end
      end
  end.

Definition call_ai (settings : Settings) (w : World)
    (transcript readme_content default_folder : str) : M value :=
  if Py.str_eqb (nano_gpt_api_key settings) []
  then ret (VStr (mock_response transcript default_folder))
  else
    let request :=
      mk_request (nano_gpt_api_url settings)
        (lit "Bearer " ++ nano_gpt_api_key settings)
        (lit "gpt-4o-mini")
        (system_prompt readme_content)
        (lit "Transcript: " ++ transcript)
        200 in
    outcome <- http_post w request ;;
    match outcome with
    | Response status_code text =>
        if status_code =? 200 then
          match Json.json_loads text with
          | Some data =>
              match message_content data with
              | Some content => ret content
              | None => ret (VStr (error_response transcript default_folder))
              end
          | None => ret (VStr (error_response transcript default_folder))
          end
        else ret (VStr (error_response transcript default_folder))
    | ClientError => ret (VStr (error_response transcript default_folder))
    end.

(** ** [parse_ai_response] *)

Definition default_result (default_folder : str) : dict :=
  dict_of
    [(lit "folder", VStr default_folder);
     (lit "title", VStr (lit "Untitled"));
     (lit "summary", VStr []);
     (lit "slug", VStr (lit "note"))].

(** [json.JSONDecodeError] is caught and leads to the default result; a
    decoded value that is not a dictionary has no [get], which would be an
    [AttributeError] the function does not catch. *)
Definition parse_ai_response (response default_folder : str) : result dict :=
  let start := Py.find response (lit "{") in
  let end_ := Py.rfind response (lit "}") + 1 in
  if (0 <=? start) && (start <? end_) then
    match Json.json_loads (Py.slice response start end_) with
    | Some (VDict data) =>
        Ok (dict_of
              [(lit "folder", dict_get data (lit "folder") (VStr default_folder));
               (lit "title", dict_get data (lit "title") (VStr (lit "Untitled")));
               (lit "summary", dict_get data (lit "summary") (VStr []));
               (lit "slug", dict_get data (lit "slug") (VStr (lit "note")))])
    | Some _ => Raise AttributeError
    | None => Ok (default_result default_folder)
    end
  else Ok (default_result default_folder).

(** ** The file name of a note and [create_note_content] *)

(** [datetime.fromisoformat(timestamp.replace("Z", "+00:00"))], as
    in [process_transcript] and in [create_note_content]. *)
Definition parse_timestamp (timestamp : str) : result Datetime.datetime :=
  match Datetime.fromisoformat (Py.replace timestamp (lit "Z") (lit "+00:00")) with
  | Some dt => Ok dt
  | None => Raise ValueError
  end.

(** The f-string of [process_transcript] that names the file. *)
Definition filename_text (w : World) (dt : Datetime.datetime) (slug : value)
  : str :=
  Datetime.strftime dt (lit "%Y-%m-%d_%H-%M-%S")
  ++ lit "_" ++ format_value w slug ++ lit ".md".

(** The two lines of [process_transcript] under [# Create filename]:
    the timestamp is parsed, then the name is formatted. *)
Definition note_filename (w : World) (timestamp : str) (slug : value)
  : result str :=
  match parse_timestamp timestamp with
  | Raise e => Raise e
  | Ok dt => Ok (filename_text w dt slug)
  end.

Definition create_note_content (w : World) (transcript timestamp : str)
    (title folder summary : value) : result str :=
  match parse_timestamp timestamp with
  | Raise e => Raise e
  | Ok dt =>
      let formatted_date := Datetime.strftime dt (lit "%B %d, %Y at %I:%M %p") in
      Ok (lit "# " ++ format_value w title ++ lit "

**Date:** " ++ formatted_date ++ lit "
**Folder:** " ++ format_value w folder ++ lit "

---

" ++ transcript ++ lit "

---

*Captured with Cortex*
")
  end.

(** ** [process_transcript] *)

Record ProcessRequest : Type := mk_process_request {
  transcript : str;
  folder : str;
  timestamp : str
}.

Record ProcessResponse : Type := mk_process_response {
  resp_id : str;
  resp_preview : str;
  resp_folder : str;
  resp_file_path : str;
  resp_title : str
}.

Definition process_transcript (settings : Settings) (w : World)
    (request : ProcessRequest) : M ProcessResponse :=
  readme_content <- get_readme_content settings ;;
  ai_response <- call_ai settings w (transcript request) readme_content
                   (folder request) ;;
  parsed <- lift (match ai_response with
                  | VStr r => parse_ai_response r (folder request)
                  | _ => Raise AttributeError
                  end) ;;
  let entry_id := Py.slice_to (uuid4 w) 8 in
  dt <- lift (parse_timestamp (timestamp request)) ;;
  slug <- lift (getitem parsed (lit "slug")) ;;
  let filename := filename_text w dt slug in
  parsed_folder <- lift (getitem parsed (lit "folder")) ;;
  folder_path <- lift (match parsed_folder with
                       | VStr f => Ok (Fs.joinpath (Fs.Path (data_dir settings)) f)
                       | _ => Raise TypeError
                       end) ;;
  f0 <- get_fs ;;
  put_fs (Fs.mkdir f0 folder_path) ;;;
  let file_path := Fs.joinpath folder_path filename in
  parsed_title <- lift (getitem parsed (lit "title")) ;;
  note_content <- lift (create_note_content w (transcript request)
                          (timestamp request) parsed_title parsed_folder
                          (dict_get parsed (lit "summary") (VStr []))) ;;
  f1 <- get_fs ;;
  put_fs (Fs.write_text f1 file_path note_content) ;;;
  let preview :=
    dict_get parsed (lit "summary")
      (VStr (Py.slice_to (transcript request) 100)) in
  preview_s <- lift (validate_str preview) ;;
  folder_s <- lift (validate_str parsed_folder) ;;
  title_s <- lift (validate_str parsed_title) ;;
  ret (mk_process_response entry_id preview_s folder_s
         (Fs.path_str file_path) title_s).

(** ** [create_folder] *)

Record CreateFolderRequest : Type := mk_create_folder_request {
  name : str;
  description : str
}.

Record FolderInfo : Type := mk_folder_info {
  info_name : str;
  info_count : Z;
  info_description : str
}.

Definition create_folder (settings : Settings) (request : CreateFolderRequest)
  : M FolderInfo :=
  let folder_name := Py.replace (Py.lower (name request)) (lit " ") (lit "-") in
  let folder_path := Fs.joinpath (Fs.Path (data_dir settings)) folder_name in
  f <- get_fs ;;
  if Fs.exists_ f folder_path
  then raise (HTTPException 400 (lit "Folder already exists"))
  else
    put_fs (Fs.mkdir_parents f folder_path) ;;;
    ret (mk_folder_info folder_name 0 (description request)).

(** ** The preview of an entry, in [list_entries] *)

(** What [list_entries] computes from the text of one note for the
    [preview] field of its entry. *)
Definition entry_preview (content : str) : str :=
  let separator_idx := Py.find content (lit "---") in
  let preview_text :=
    if 0 <? separator_idx then
      let after_sep := Py.strip (Py.slice_from content (separator_idx + 3)) in
      let second_sep := Py.find after_sep (lit "---") in
      if 0 <? second_sep
      then Py.strip (Py.slice_to after_sep second_sep)
      else Py.slice_to after_sep 100
    else Py.slice_to content 100 in
  Py.slice_to preview_text 100.

(** ** Predicates used in the statements *)

(** A run of whitespace. *)
Definition all_space (s : str) : Prop :=
  Forall (fun c => Py.isspace c = true) s.

(** A Unicode scalar value: a code point that is not a surrogate. *)
Definition is_scalar (c : Z) : bool :=
  (0 <=? c) && (c <? 1114112) && negb ((55296 <=? c) && (c <=? 57343)).

(** A text of Unicode scalar values, as a decoded request carries. *)
Definition scalar_text (s : str) : Prop :=
  Forall (fun c => is_scalar c = true) s.

(** The classifier's service failed: the client raised, the status is not
    200, or the body of a 200 response is not JSON of the expected shape
    (so [response.json()] or a subscript raises). *)
Definition classifier_failed (o : http_outcome) : Prop :=
  match o with
  | ClientError => True
  | Response status_code text =>
      status_code <> 200
      \/ match Json.json_loads text with
         | Some data => message_content data = None
         | None => True
         end
  end.

(** ** ISO-8601 timestamps, for the statements about the file name

    A complete date and time in the extended format,
    [YYYY-MM-DDTHH:MM:SS], with an optional fraction of a second (three
    or six digits) and an optional zone designator ([Z], or a signed
    [HH:MM]). *)

Inductive fraction : Type :=
| NoFraction
| Millis (n : Z)
| Micros (n : Z).

Inductive zone : Type :=
| NoZone
| Zulu
| Offset (negative : bool) (h m : Z).

Definition pad3 (n : Z) : str :=
  [48 + n / 100 mod 10; 48 + n / 10 mod 10; 48 + n mod 10].

Definition pad6 (n : Z) : str :=
  [48 + n / 100000 mod 10; 48 + n / 10000 mod 10; 48 + n / 1000 mod 10;
   48 + n / 100 mod 10; 48 + n / 10 mod 10; 48 + n mod 10].

Definition fraction_text (f : fraction) : str :=
  match f with
  | NoFraction => []
  | Millis n => 46 :: pad3 n
  | Micros n => 46 :: pad6 n
  end.

Definition zone_text (z : zone) : str :=
  match z with
  | NoZone => []
  | Zulu => [90]
  | Offset negative h m =>
      (if negative then 45 else 43)
        :: Datetime.pad2 h ++ 58 :: Datetime.pad2 m
  end.

(** The fraction in microseconds, and the offset from UTC in
    microseconds, that a timestamp states. *)
Definition fraction_micros (f : fraction) : Z :=
  match f with
  | NoFraction => 0
  | Millis n => n * 1000
  | Micros n => n
  end.

Definition zone_offset (z : zone) : option Z :=
  match z with
  | NoZone => None
  | Zulu => Some 0
  | Offset negative h m =>
      let off := (h * 3600 + m * 60) * 1000000 in
      Some (if negative then - off else off)
  end.

Definition iso_text (y mo d h mi s : Z) (f : fraction) (z : zone) : str :=
  Datetime.pad4 y ++ 45 :: Datetime.pad2 mo ++ 45 :: Datetime.pad2 d
  ++ 84 :: Datetime.pad2 h ++ 58 :: Datetime.pad2 mi ++ 58 :: Datetime.pad2 s
  ++ fraction_text f ++ zone_text z.

Definition valid_date_time (y mo d h mi s : Z) : bool :=
  (1 <=? y) && (y <=? 9999) && (1 <=? mo) && (mo <=? 12)
  && (1 <=? d) && (d <=? Datetime.days_in_month y mo)
  && (0 <=? h) && (h <=? 23) && (0 <=? mi) && (mi <=? 59)
  && (0 <=? s) && (s <=? 59).

Definition valid_fraction (f : fraction) : bool :=
  match f with
  | NoFraction => true
  | Millis n => (0 <=? n) && (n <=? 999)
  | Micros n => (0 <=? n) && (n <=? 999999)
  end.

Definition valid_zone (z : zone) : bool :=
  match z with
  | Offset _ h m => (0 <=? h) && (h <=? 23) && (0 <=? m) && (m <=? 59)
  | _ => true
  end.

(** The timestamp with a trailing [Z] mapped to [+00:00], and no other
    change: the step as the specification words it. *)
Definition map_trailing_z (timestamp : str) : str :=
  match rev timestamp with
  | c :: t => if c =? 90 then rev t ++ lit "+00:00" else timestamp
  | [] => timestamp
  end.

(** The preview of an entry as the specification words it: the text
    between the first and the second separator, and the first 100
    characters of the whole content when there are fewer than two
    separators. *)
Definition preview_as_specified (content : str) : str :=
  let first_sep := Py.find content (lit "---") in
  if first_sep <? 0 then Py.slice_to content 100
  else
    let rest := Py.slice_from content (first_sep + 3) in
    let second_sep := Py.find rest (lit "---") in
    if second_sep <? 0 then Py.slice_to content 100
    else Py.slice_to rest second_sep.

(** ** Sample surroundings

    Settings, a classifier service and a starting state for the scenarios
    the properties below are checked on. *)

Definition sample_settings (api_key : str) : Settings :=
  mk_settings api_key (lit "https://nano-gpt.com/api/v1/chat/completions")
    (lit "/data").

(** The body of a chat completion whose message content is [answer]. *)
Definition completion_body (answer : str) : str :=
  quoted "{'choices': [{'message': {'role': 'assistant', 'content': "
  ++ Json.encode_string answer ++ quoted "}}]}".

(** A service that answers every request with status 200 and [answer]. *)
Definition answering_world (answer : str) : World :=
  mk_world (fun _ => Response 200 (completion_body answer))
    (lit "3f2b8c1e-7d4a-4e0b-9a6f-1c2d3e4f5a6b")
    (fun _ => lit "None").

(** A service that cannot be reached. *)
Definition unreachable_world : World :=
  mk_world (fun _ => ClientError)
    (lit "3f2b8c1e-7d4a-4e0b-9a6f-1c2d3e4f5a6b")
    (fun _ => lit "None").

(** The data directory with the folders [ensure_directories] creates. *)
Definition sample_state : State :=
  mk_state
    (Fs.mk_fs
       (map Fs.Path
          [lit "/data"; lit "/data/inbox"; lit "/data/ideas";
           lit "/data/tasks"; lit "/data/journal"])
       [])
    [].

(* ===================================================================== *)
(** * Startup and listings *)
(* ===================================================================== *)

(** ** Helpers *)

(** A [for] loop whose body reads and changes the state. *)
Fixpoint for_each {A : Type} (l : list A) (body : A -> M unit) : M unit :=
  match l with
  | [] => ret tt
  | x :: t => body x ;;; for_each t body
  end.

(** [list.sort]: a stable sort.  [before y x] says that [y] has to come
    strictly before [x]; elements neither of which has to come before the
    other keep the order they had. *)
Fixpoint insert_sorted {A : Type} (before : A -> A -> bool) (x : A)
    (l : list A) : list A :=
  match l with
  | [] => [x]
  | y :: t =>
      if before y x then y :: insert_sorted before x t else x :: y :: t
  end.

Definition sort_by {A : Type} (before : A -> A -> bool) (l : list A) : list A :=
  fold_right (insert_sorted before) [] l.

(** [a < b] on strings: the order of the code points, a proper prefix
    first. *)
Fixpoint str_ltb (a b : str) : bool :=
  match a, b with
  | _, [] => false
  | [], _ :: _ => true
  | x :: a', y :: b' =>
      if x <? y then true else if y <? x then false else str_ltb a' b'
  end.

(** [s.endswith(suffix)] *)
Definition endswith (s suffix : str) : bool :=
  (List.length suffix <=? List.length s)%nat
  && Py.str_eqb (skipn (List.length s - List.length suffix) s) suffix.

(** [p.name] and [p.parent] *)
Definition path_name (p : Fs.path) : str := last (Fs.parts p) [].

Definition path_parent (p : Fs.path) : Fs.path :=
  Fs.mk_path (Fs.root p) (removelast (Fs.parts p)).

(** [p] is an entry of the directory [dir]. *)
Definition is_child (dir p : Fs.path) : bool :=
  match Fs.parts p with
  | [] => false
  | _ :: _ => Fs.path_eqb (path_parent p) dir
  end.

(** Every path the file system holds, files first.  The order stands for
    the order in which the operating system lists a directory. *)
Definition all_paths (f : Fs.filesystem) : list Fs.path :=
  map fst (Fs.files f) ++ Fs.dirs f.

(** [dir.glob("*.md")]: the entries of [dir] whose name ends in [.md]. *)
Definition glob_md (f : Fs.filesystem) (dir : Fs.path) : list Fs.path :=
  filter (fun p => is_child dir p && endswith (path_name p) (lit ".md"))
    (all_paths f).

(** ** [ensure_directories] and [create_default_readme] *)

Definition default_readme : str :=
  lit "# Cortex Brain Dump

This is your personal brain dump powered by Cortex. Voice recordings are transcribed
and automatically organized into folders based on their content.

## Folder Structure

### inbox/
Uncategorized thoughts that haven't been processed yet. The AI will try to move
items to more specific folders, but anything unclear ends up here for manual review.

### ideas/
Creative ideas, concepts, project proposals, and brainstorms. Things you want to
explore or develop further.

### tasks/
Action items, to-dos, reminders, and things you need to do. Format: each note
should represent a specific actionable item.

### journal/
Personal reflections, daily observations, emotions, and experiences. Stream of
consciousness entries that capture how you're feeling or what you're thinking about.

## Adding New Folders

You can create new folders through the app. When you do, add a description here
so the AI knows how to categorize new entries.

## Note Format

Each note is saved as a markdown file with the following structure:
- Filename: `YYYY-MM-DD_HH-MM-SS_<short-title>.md`
- Contains: timestamp, original transcript, and any AI-added metadata

## Tips

1. Speak naturally - the AI will figure out what you mean
2. Start with action words for tasks: " ++ [34] ++ lit "I need to..." ++ [34] ++ lit ", " ++ [34] ++ lit "Remind me to..." ++ [34] ++ lit "
3. Use phrases like " ++ [34] ++ lit "I have an idea..." ++ [34] ++ lit " for creative thoughts
4. For journal entries, just talk about how you feel or what happened
".

Definition create_default_readme (path : Fs.path) : M unit :=
  f <- get_fs ;;
  put_fs (Fs.write_text f path default_readme).

Definition default_folders : list str :=
  [lit "inbox"; lit "ideas"; lit "tasks"; lit "journal"].

Definition ensure_directories (settings : Settings) : M unit :=
  let data_path := Fs.Path (data_dir settings) in
  f <- get_fs ;;
  put_fs (Fs.mkdir_parents f data_path) ;;;
  for_each default_folders
    (fun folder_ =>
       f1 <- get_fs ;;
       put_fs (Fs.mkdir f1 (Fs.joinpath data_path folder_))) ;;;
  let readme_path := Fs.joinpath data_path (lit "README.md") in
  f2 <- get_fs ;;
  if negb (Fs.exists_ f2 readme_path)
  then create_default_readme readme_path
  else ret tt.

(** The directories [ensure_directories] makes: the data directory, the
    directories above it, and the default folders.  [mkdir] fails with
    [FileExistsError] where one of them is a regular file; the properties
    of [ensure_directories] are stated for file systems without such a
    file. *)
Definition startup_dirs (settings : Settings) : list Fs.path :=
  let data_path := Fs.Path (data_dir settings) in
  Fs.ancestors data_path
  ++ data_path :: map (Fs.joinpath data_path) default_folders.

Definition no_file_at (f : Fs.filesystem) (l : list Fs.path) : bool :=
  forallb (fun p => negb (Fs.is_file f p)) l.

(** ** [list_folders] *)

(** The sort key [(f.name != "inbox", f.name)]: [a] comes strictly before
    [b]. *)
Definition folder_before (a b : FolderInfo) : bool :=
  let ka := negb (Py.str_eqb (info_name a) (lit "inbox")) in
  let kb := negb (Py.str_eqb (info_name b) (lit "inbox")) in
  if Bool.eqb ka kb then str_ltb (info_name a) (info_name b)
  else negb ka.

Definition list_folders (settings : Settings) : M (list FolderInfo) :=
  let data_path := Fs.Path (data_dir settings) in
  f <- get_fs ;;
  let folders :=
    map (fun item =>
           mk_folder_info (path_name item)
             (Z.of_nat (List.length (glob_md f item))) [])
      (filter (fun item =>
                 is_child data_path item
                 && negb (Py.startswith (lit ".") (path_name item)))
         (Fs.dirs f)) in
  ret (sort_by folder_before folders).

(** ** [list_entries] *)

Record EntryInfo : Type := mk_entry_info {
  entry_id : str;
  entry_preview_text : str;
  entry_folder : str;
  entry_timestamp : str;
  entry_title : str
}.

(** What [stat] tells about a path: the modification time [st_mtime], and
    that time as [datetime.fromtimestamp(...).isoformat()] writes it. *)
Record FileTimes : Type := mk_file_times {
  st_mtime : Fs.path -> Z;
  mtime_isoformat : Fs.path -> str
}.

(** [s.lstrip(chars)] *)
Fixpoint lstrip_chars (chars s : str) : str :=
  match s with
  | c :: t => if existsb (Z.eqb c) chars then lstrip_chars chars t else s
  | [] => []
  end.

(** [p.stem]: the name without its last suffix. *)
Definition path_stem (p : Fs.path) : str :=
  let name_ := path_name p in
  let i := Py.rfind name_ (lit ".") in
  if (0 <? i) && (i <? Py.len name_ - 1) then Py.slice_to name_ i else name_.

(** The body of the loop of [list_entries], for a file that could be
    read. *)
Definition entry_of (times : FileTimes) (file_path : Fs.path) (content : str)
  : EntryInfo :=
  let lines := Fs.split_on 10 content in
  let title :=
    match lines with
    | line :: _ => Py.strip (lstrip_chars (lit "# ") line)
    | [] => lit "Untitled"
    end in
  let filename := path_stem file_path in
  let parts := Fs.split_on 95 filename in
  let timestamp_ :=
    match parts with
    | date_str :: time_part :: _ =>
        date_str ++ lit "T" ++ Py.replace time_part (lit "-") (lit ":")
    | _ => mtime_isoformat times file_path
    end in
  mk_entry_info (Py.slice_to filename 8) (entry_preview content)
    (path_name (path_parent file_path)) timestamp_ title.

(** [files[:limit]] *)
Definition take_limit {A : Type} (l : list A) (limit : Z) : list A :=
  firstn (Z.to_nat (Py.clamp (Z.of_nat (List.length l)) limit)) l.

(** [data_path.glob("*/*.md")]: the entries, with a name ending in [.md],
    of the directories that are entries of the data directory. *)
Definition glob_all_md (f : Fs.filesystem) (data_path : Fs.path)
  : list Fs.path :=
  filter (fun p =>
            is_child data_path (path_parent p) && Fs.is_dir f (path_parent p)
            && match Fs.parts p with [] => false | _ :: _ => true end
            && endswith (path_name p) (lit ".md"))
    (all_paths f).

(** The [files] of [list_entries], before they are sorted. *)
Definition entry_files (settings : Settings) (f : Fs.filesystem)
    (folder_ : option str) : list Fs.path :=
  let data_path := Fs.Path (data_dir settings) in
  match folder_ with
  | Some (c :: name_) =>
      let folder_path := Fs.joinpath data_path (c :: name_) in
      if Fs.exists_ f folder_path then glob_md f folder_path else []
  | _ => glob_all_md f data_path
  end.

Definition list_entries (settings : Settings) (times : FileTimes)
    (folder_ : option str) (limit : Z) : M (list EntryInfo) :=
  let data_path := Fs.Path (data_dir settings) in
  f <- get_fs ;;
  let files :=
    match folder_ with
    | Some (c :: name_) =>
        let folder_path := Fs.joinpath data_path (c :: name_) in
        if Fs.exists_ f folder_path then glob_md f folder_path else []
    | _ => glob_all_md f data_path
    end in
  let sorted :=
    sort_by (fun a b => st_mtime times b <? st_mtime times a) files in
  ret (flat_map
         (fun file_path =>
            match Fs.read_text f file_path with
            | Some content => [entry_of times file_path content]
            | None => []
            end)
         (take_limit sorted limit)).

(* ===================================================================== *)
(** * Properties *)
(* ===================================================================== *)

(** Case analysis on the scrutinee of the first [match] or [if] of the
    goal or of a hypothesis. *)
Ltac break_match :=
  match goal with
  | |- context [match ?x with _ => _ end] =>
      lazymatch x with
      | context [match _ with _ => _ end] => fail
      | _ => destruct x eqn:?
      end
  end.

Ltac break_match_in H :=
  match type of H with
  | context [match ?x with _ => _ end] =>
      lazymatch x with
      | context [match _ with _ => _ end] => fail
      | _ => destruct x eqn:?
      end
  end.

(** Boolean comparisons of hypotheses, as propositions. *)
Ltac zbool :=
  repeat match goal with
  | H : (_ <? _) = true |- _ => apply Z.ltb_lt in H
  | H : (_ <? _) = false |- _ => apply Z.ltb_ge in H
  | H : (_ <=? _) = true |- _ => apply Z.leb_le in H
  | H : (_ <=? _) = false |- _ => apply Z.leb_gt in H
  | H : (_ =? _) = true |- _ => apply Z.eqb_eq in H
  | H : (_ =? _) = false |- _ => apply Z.eqb_neq in H
  | H : (_ && _) = true |- _ => apply andb_true_iff in H; destruct H
  | H : (_ || _) = false |- _ => apply orb_false_iff in H; destruct H
  | H : negb _ = true |- _ => apply negb_true_iff in H
  | H : negb _ = false |- _ => apply negb_false_iff in H
  end.

(** ** Strings *)
Section StringFacts.

Lemma len_nonneg (s : str) : 0 <= Py.len s.
Proof. unfold Py.len. lia. Qed.

Lemma slice_to_firstn (s : str) (n : Z) :
  0 <= n -> Py.slice_to s n = firstn (Z.to_nat n) s.
Proof.
  intros Hn. unfold Py.slice_to, Py.slice, Py.clamp, Py.len.
  destruct (0 <? 0) eqn:E0; [lia|].
  destruct (n <? 0) eqn:En; [lia|].
  cbn [skipn Z.to_nat].
  replace (Z.min 0 (Z.of_nat (List.length s))) with 0 by lia.
  cbn [Z.to_nat skipn].
  destruct (Z.le_ge_cases n (Z.of_nat (List.length s))) as [Hle|Hge].
  - rewrite Z.min_l by lia. f_equal. lia.
  - rewrite Z.min_r by lia.
    rewrite Z.sub_0_r, Nat2Z.id.
    rewrite firstn_all. symmetry. apply firstn_all2. lia.
Qed.

Lemma slice_from_skipn (s : str) (a : Z) :
  0 <= a -> Py.slice_from s a = skipn (Z.to_nat a) s.
Proof.
  intros Ha. unfold Py.slice_from, Py.slice, Py.clamp, Py.len.
  destruct (a <? 0) eqn:Ea; [lia|].
  destruct (Z.of_nat (List.length s) <? 0) eqn:El; [zbool; lia|].
  rewrite Z.min_id.
  destruct (Z.le_ge_cases a (Z.of_nat (List.length s))) as [Hle|Hge].
  - rewrite Z.min_l by lia.
    apply firstn_all2. rewrite length_skipn. lia.
  - rewrite Z.min_r by lia. rewrite Nat2Z.id.
    rewrite (skipn_all2 s (n := Z.to_nat a)) by lia.
    rewrite skipn_all. now rewrite firstn_nil.
Qed.

Lemma slice_skipn_firstn (s : str) (a b : Z) :
  0 <= a <= b -> b <= Py.len s ->
  Py.slice s a b = firstn (Z.to_nat (b - a)) (skipn (Z.to_nat a) s).
Proof.
  intros Hab Hb. unfold Py.slice, Py.clamp.
  destruct (a <? 0) eqn:Ea; [lia|].
  destruct (b <? 0) eqn:Eb; [lia|].
  rewrite !Z.min_l by lia. reflexivity.
Qed.

(** What [find] answers: [-1], or the index of an occurrence. *)
Lemma find_at_spec (sub : str) : forall (s : str) (i : Z),
  0 <= i ->
  Py.find_at sub s i = -1 \/
  (i <= Py.find_at sub s i <= i + Py.len s /\
   Py.startswith sub (skipn (Z.to_nat (Py.find_at sub s i - i)) s) = true).
Proof.
  induction s as [|c t IH]; intros i Hi; cbn [Py.find_at].
  - destruct (Py.startswith sub []) eqn:E; [right|left; reflexivity].
    unfold Py.len. cbn. rewrite Z.sub_diag. cbn. split; [lia|assumption].
  - destruct (Py.startswith sub (c :: t)) eqn:E.
    + right. rewrite Z.sub_diag. cbn [Z.to_nat skipn].
      split; [pose proof (len_nonneg (c :: t)); lia|assumption].
    + destruct (IH (i + 1)) as [H|[H1 H2]]; [lia|left; assumption|right].
      unfold Py.len in *. cbn [List.length]. split; [lia|].
      replace (Z.to_nat (Py.find_at sub t (i + 1) - i))
        with (S (Z.to_nat (Py.find_at sub t (i + 1) - (i + 1)))) by lia.
      exact H2.
Qed.

Lemma find_spec (s sub : str) :
  Py.find s sub = -1 \/
  (0 <= Py.find s sub <= Py.len s /\
   Py.startswith sub (skipn (Z.to_nat (Py.find s sub)) s) = true).
Proof.
  unfold Py.find.
  destruct (find_at_spec sub s 0) as [H|[H1 H2]]; [lia|left; assumption|right].
  rewrite Z.sub_0_r in H2. split; [lia|assumption].
Qed.

Lemma rfind_bound (s : str) (c : Z) (sub : str) :
  -1 <= Py.rfind s (c :: sub) < Py.len s.
Proof.
  unfold Py.len. induction s as [|x t IH]; cbn [Py.rfind Py.startswith List.length].
  - lia.
  - destruct (0 <=? Py.rfind t (c :: sub)) eqn:E; [lia|].
    destruct ((c =? x) && Py.startswith sub t); lia.
Qed.

Lemma rfind_spec (s sub : str) :
  Py.rfind s sub = -1 \/
  (0 <= Py.rfind s sub <= Py.len s /\
   Py.startswith sub (skipn (Z.to_nat (Py.rfind s sub)) s) = true).
Proof.
  unfold Py.len. induction s as [|x t IH]; cbn [Py.rfind List.length].
  - destruct (Py.startswith sub []) eqn:E; [right|left; reflexivity].
    cbn. split; [lia|assumption].
  - destruct (0 <=? Py.rfind t sub) eqn:E.
    + right. zbool. destruct IH as [IH|[IH1 IH2]]; [lia|].
      split; [lia|].
      replace (Z.to_nat (Py.rfind t sub + 1)) with (S (Z.to_nat (Py.rfind t sub))) by lia.
      exact IH2.
    + destruct (Py.startswith sub (x :: t)) eqn:E'; [right|left; reflexivity].
      cbn [Z.to_nat skipn]. split; [lia|assumption].
Qed.

(** The first opening brace and the last closing brace are at different
    places. *)
Lemma brace_positions_differ (response : str) :
  0 <= Py.find response (lit "{") ->
  Py.find response (lit "{") <> Py.rfind response (lit "}").
Proof.
  intros H0 Heq.
  destruct (find_spec response (lit "{")) as [H|[_ H1]]; [lia|].
  destruct (rfind_spec response (lit "}")) as [H|[_ H2]]; [lia|].
  rewrite <- Heq in H2.
  destruct (skipn (Z.to_nat (Py.find response (lit "{"))) response) as [|c t];
    [discriminate|].
  change (lit "{") with [123] in H1. change (lit "}") with [125] in H2.
  cbn [Py.startswith] in H1, H2. zbool. lia.
Qed.

End StringFacts.

(** ** The decoder on a text that opens with a brace *)
Section ObjectFacts.

Lemma scan_members_dict : forall (fuel : nat) (s : str) (acc : dict) v r,
  Json.scan_members fuel s acc = Json.Scanned v r -> exists d, v = VDict d.
Proof.
  induction fuel as [|f IH]; intros s acc v r H; cbn in H; [discriminate|].
  repeat (break_match_in H; try discriminate).
  - inversion H; subst. eexists; reflexivity.
  - eapply IH; eassumption.
Qed.

Lemma scan_once_brace (fuel : nat) (t : str) v r :
  Json.scan_once fuel (123 :: t) = Json.Scanned v r -> exists d, v = VDict d.
Proof.
  destruct fuel as [|f]; cbn; [discriminate|].
  intros H. repeat (break_match_in H; try discriminate).
  - inversion H; subst. eexists; reflexivity.
  - eapply scan_members_dict; eassumption.
Qed.

Lemma json_loads_brace (t : str) v :
  Json.json_loads (123 :: t) = Some v -> exists d, v = VDict d.
Proof.
  unfold Json.json_loads. cbn [Json.skip_ws].
  replace (Json.is_ws 123) with false by reflexivity.
  intros H. repeat (break_match_in H; try discriminate).
  inversion H; subst. eapply scan_once_brace; eassumption.
Qed.

(** The text [parse_ai_response] hands to the decoder opens with the
    brace [find] found. *)
Lemma span_opens_with_brace (response : str) :
  let start := Py.find response (lit "{") in
  let end_ := Py.rfind response (lit "}") + 1 in
  0 <= start -> start < end_ ->
  exists t, Py.slice response start end_ = 123 :: t.
Proof.
  intros start end_ H0 Hlt.
  destruct (find_spec response (lit "{")) as [H|[H1 H2]]; [subst start; lia|].
  fold start in H1, H2.
  pose proof (rfind_bound response 125 []) as Hr.
  change (Py.rfind response [125]) with (Py.rfind response (lit "}")) in Hr.
  rewrite slice_skipn_firstn by (subst end_; lia).
  destruct (skipn (Z.to_nat start) response) as [|c t] eqn:E; [discriminate|].
  change (lit "{") with [123] in H2. cbn [Py.startswith] in H2.
  zbool. subst c.
  destruct (Z.to_nat (end_ - start)) eqn:En; [lia|].
  cbn [firstn]. eexists; reflexivity.
Qed.

End ObjectFacts.

(** ** The response interpreter: [parse_ai_response] *)
Section Interpreter.

Lemma default_result_fields (default_folder : str) :
  default_result default_folder =
  [(lit "folder", VStr default_folder); (lit "title", VStr (lit "Untitled"));
   (lit "summary", VStr []); (lit "slug", VStr (lit "note"))].
Proof. reflexivity. Qed.

Lemma dict_of_four (a b c d : value) :
  dict_of [(lit "folder", a); (lit "title", b); (lit "summary", c); (lit "slug", d)]
  = [(lit "folder", a); (lit "title", b); (lit "summary", c); (lit "slug", d)].
Proof. reflexivity. Qed.

(** What [parse_ai_response] returns when the decoder accepts the span. *)
Lemma parse_ai_response_decoded (response default_folder : str) (data : dict) :
  let start := Py.find response (lit "{") in
  let end_ := Py.rfind response (lit "}") + 1 in
  0 <= start -> start < end_ ->
  Json.json_loads (Py.slice response start end_) = Some (VDict data) ->
  parse_ai_response response default_folder =
  Ok [(lit "folder", dict_get data (lit "folder") (VStr default_folder));
      (lit "title", dict_get data (lit "title") (VStr (lit "Untitled")));
      (lit "summary", dict_get data (lit "summary") (VStr []));
      (lit "slug", dict_get data (lit "slug") (VStr (lit "note")))].
Proof.
  intros start end_ H0 Hlt Hj. unfold parse_ai_response.
  fold start. fold end_. clearbody start end_.
  replace ((0 <=? start) && (start <? end_)) with true
    by (symmetry; apply andb_true_iff; split; [apply Z.leb_le|apply Z.ltb_lt]; lia).
  rewrite Hj. now rewrite dict_of_four.
Qed.

(** Without a span the default result is returned. *)
Lemma parse_ai_response_no_span (response default_folder : str) :
  let start := Py.find response (lit "{") in
  let end_ := Py.rfind response (lit "}") + 1 in
  (0 <=? start) && (start <? end_) = false ->
  parse_ai_response response default_folder = Ok (default_result default_folder).
Proof.
  intros start end_ H. unfold parse_ai_response.
  fold start. fold end_. now rewrite H.
Qed.

(** A span the decoder rejects leads to the default result. *)
Lemma parse_ai_response_rejected (response default_folder : str) :
  Json.json_loads
    (Py.slice response (Py.find response (lit "{"))
       (Py.rfind response (lit "}") + 1)) = None ->
  parse_ai_response response default_folder = Ok (default_result default_folder).
Proof.
  intros H. unfold parse_ai_response. rewrite H.
  now destruct ((0 <=? Py.find response (lit "{"))
                && (Py.find response (lit "{") <? Py.rfind response (lit "}") + 1)).
Qed.



(** [parse_ai_response] always returns, and what it returns is a
    dictionary with exactly the four keys, in this order. *)
Lemma parse_ai_response_shape (response default_folder : str) :
  exists a b c d,
    parse_ai_response response default_folder =
    Ok [(lit "folder", a); (lit "title", b); (lit "summary", c); (lit "slug", d)].
Proof.
  pose (start := Py.find response (lit "{")).
  pose (end_ := Py.rfind response (lit "}") + 1).
  destruct ((0 <=? start) && (start <? end_)) eqn:E.
  - zbool.
    destruct (Json.json_loads (Py.slice response start end_)) as [v|] eqn:Hj.
    + destruct (span_opens_with_brace response) as [t Ht]; [assumption..|].
      fold start in Ht. fold end_ in Ht. rewrite Ht in Hj.
      destruct (json_loads_brace _ _ Hj) as [data ->]. rewrite <- Ht in Hj.
      do 4 eexists.
      exact (parse_ai_response_decoded response default_folder data H H0 Hj).
    + do 4 eexists. rewrite parse_ai_response_rejected by exact Hj.
      apply f_equal, default_result_fields.
  - do 4 eexists. rewrite parse_ai_response_no_span by exact E.
    apply f_equal, default_result_fields.
Qed.


(** C4.  When the span decodes, it decodes to an object, and each of the
    four fields is taken from it on its own: a field the object has is
    passed on unchanged, a missing one gets its default (the default
    folder, Untitled, the empty summary, note).  An answer that wraps an
    object holding only the folder tasks and the slug buy-milk in prose
    gives folder tasks, title Untitled, an empty summary and slug
    buy-milk. *)
Theorem parse_ai_response_partial_object :
  (forall (response default_folder : str) (v : value),
      let start := Py.find response (lit "{") in
      let end_ := Py.rfind response (lit "}") + 1 in
      0 <= start -> start < end_ ->
      Json.json_loads (Py.slice response start end_) = Some v ->
      exists data parsed,
        v = VDict data
        /\ parse_ai_response response default_folder = Ok parsed
        /\ dict_lookup parsed (lit "folder") =
             Some (match dict_lookup data (lit "folder") with
                   | Some x => x
                   | None => VStr default_folder
                   end)
        /\ dict_lookup parsed (lit "title") =
             Some (match dict_lookup data (lit "title") with
                   | Some x => x
                   | None => VStr (lit "Untitled")
                   end)
        /\ dict_lookup parsed (lit "summary") =
             Some (match dict_lookup data (lit "summary") with
                   | Some x => x
                   | None => VStr []
                   end)
        /\ dict_lookup parsed (lit "slug") =
             Some (match dict_lookup data (lit "slug") with
                   | Some x => x
                   | None => VStr (lit "note")
                   end))
  /\ (forall default_folder : str,
        parse_ai_response
          (quoted "Sure! {'folder':'tasks','slug':'buy-milk'} Hope that helps.")
          default_folder =
        Ok [(lit "folder", VStr (lit "tasks")); (lit "title", VStr (lit "Untitled"));
            (lit "summary", VStr []); (lit "slug", VStr (lit "buy-milk"))]).
Proof.
  split.
  - intros response default_folder v start end_ H0 Hlt Hj.
    destruct (span_opens_with_brace response) as [t Ht]; [assumption..|].
    fold start in Ht. fold end_ in Ht.
    assert (Hd : exists d, v = VDict d)
      by (rewrite Ht in Hj; eapply json_loads_brace; eassumption).
    destruct Hd as [data ->].
    exists data. eexists. split; [reflexivity|]. split.
    + exact (parse_ai_response_decoded response default_folder data H0 Hlt Hj).
    + repeat split; reflexivity.
  - intros default_folder.
    rewrite (parse_ai_response_decoded _ default_folder
               [(lit "folder", VStr (lit "tasks")); (lit "slug", VStr (lit "buy-milk"))]).
    + reflexivity.
    + vm_compute; discriminate.
    + vm_compute; reflexivity.
    + vm_compute; reflexivity.
Qed.

Lemma parse_ai_response_partial_object_witness :
  exists data parsed,
    Json.json_loads (quoted "{'folder':'tasks','slug':'buy-milk'}") = Some (VDict data)
    /\ parse_ai_response
         (quoted "Sure! {'folder':'tasks','slug':'buy-milk'} Hope that helps.")
         (lit "inbox") = Ok parsed
    /\ dict_lookup parsed (lit "folder") = Some (VStr (lit "tasks"))
    /\ dict_lookup parsed (lit "title") = Some (VStr (lit "Untitled")).
Proof.
  destruct (proj1 parse_ai_response_partial_object
              (quoted "Sure! {'folder':'tasks','slug':'buy-milk'} Hope that helps.")
              (lit "inbox")
              (VDict [(lit "folder", VStr (lit "tasks"));
                      (lit "slug", VStr (lit "buy-milk"))]))
    as (data & parsed & Hv & Hp & Hf & Ht & _).
  - vm_compute; discriminate.
  - vm_compute; reflexivity.
  - vm_compute; reflexivity.
  - injection Hv as <-.
    exists [(lit "folder", VStr (lit "tasks")); (lit "slug", VStr (lit "buy-milk"))],
           parsed.
    split; [vm_compute; reflexivity|].
    split; [exact Hp|]. split; [exact Hf|exact Ht].
Defined.

End Interpreter.

(** ** The orchestrator: [process_transcript] *)
Section Orchestrator.

(** The preview of a processed transcript is the summary of the
    interpreted result, whatever that summary is: the result always has a
    summary, so the fallback to the transcript is never taken. *)
Lemma process_transcript_preview_is_summary
    (settings : Settings) (w : World) (request : ProcessRequest)
    (st st' : State) (r : ProcessResponse) :
  process_transcript settings w request st = (Ok r, st') ->
  exists response parsed,
    parse_ai_response response (folder request) = Ok parsed
    /\ dict_lookup parsed (lit "summary") = Some (VStr (resp_preview r)).
Proof.
  unfold process_transcript, bind, lift, ret, get_fs, put_fs.
  intros H.
  destruct (get_readme_content settings st) as [[readme|e] st1]; [|discriminate].
  destruct (call_ai settings w (transcript request) readme (folder request) st1)
    as [[ai|e] st2]; [|discriminate].
  destruct ai as [| | | |response| |]; try discriminate.
  destruct (parse_ai_response_shape response (folder request))
    as (a & b & summary & d & Hp).
  set (parsed := [(lit "folder", a); (lit "title", b); (lit "summary", summary);
                  (lit "slug", d)]) in *.
  assert (Hs : dict_lookup parsed (lit "summary") = Some summary) by reflexivity.
  rewrite Hp in H.
  exists response, parsed. split; [exact Hp|].
  unfold dict_get in H. rewrite Hs in H.
  repeat (break_match_in H; try discriminate).
  injection H as <- _. cbn [resp_preview].
  destruct summary; try discriminate.
  match goal with
  | Hv : validate_str (VStr ?x) = Ok ?y |- _ = Some (VStr ?y) =>
      assert (x = y) as <- by (cbn in Hv; congruence)
  end.
  exact Hs.
Qed.

(** C1 (what the code does on the input that shows the defect).  The
    classifier answers the transcript [buy milk] with an object that has
    no summary; the interpreted summary is empty, the transcript's first
    100 characters are [buy milk], and the preview of the returned record
    is empty. *)
Theorem process_transcript_preview_of_empty_summary :
  let answer :=
    quoted "Sure! {'folder':'tasks','slug':'buy-milk'} Hope that helps." in
  let request :=
    mk_process_request (lit "buy milk") (lit "inbox") (lit "2024-01-15T10:30:00Z") in
  exists r st' parsed,
    process_transcript (sample_settings (lit "sk-test")) (answering_world answer)
      request sample_state = (Ok r, st')
    /\ parse_ai_response answer (folder request) = Ok parsed
    /\ dict_lookup parsed (lit "summary") = Some (VStr [])
    /\ Py.slice_to (transcript request) 100 = lit "buy milk"
    /\ resp_preview r = [].
Proof.
  cbv zeta. eexists. eexists. eexists.
  split; [vm_compute; reflexivity|].
  split; [vm_compute; reflexivity|].
  split; [reflexivity|]. split; reflexivity.
Qed.

End Orchestrator.

(** ** The corpus accessor: [create_folder] *)
Section CreateFolder.

Lemma str_eqb_refl (s : str) : Py.str_eqb s s = true.
Proof. induction s as [|c t IH]; cbn; [reflexivity|]. now rewrite Z.eqb_refl. Qed.

Lemma parts_eqb_refl (ps : list str) : Fs.parts_eqb ps ps = true.
Proof. induction ps as [|p t IH]; cbn; [reflexivity|]. now rewrite str_eqb_refl. Qed.

Lemma path_eqb_refl (p : Fs.path) : Fs.path_eqb p p = true.
Proof. unfold Fs.path_eqb. now rewrite str_eqb_refl, parts_eqb_refl. Qed.

Lemma is_dir_add_dir (f : Fs.filesystem) (p : Fs.path) :
  Fs.is_dir (Fs.add_dir f p) p = true.
Proof.
  unfold Fs.add_dir. destruct (Fs.is_dir f p) eqn:E; [exact E|].
  unfold Fs.is_dir in *. cbn [Fs.dirs].
  destruct (Fs.parts p); [reflexivity|].
  rewrite existsb_app. cbn. rewrite path_eqb_refl. now rewrite orb_true_r.
Qed.

Lemma files_add_dir (f : Fs.filesystem) (p : Fs.path) :
  Fs.files (Fs.add_dir f p) = Fs.files f.
Proof. unfold Fs.add_dir. now destruct (Fs.is_dir f p). Qed.

Lemma files_mkdir_parents (f : Fs.filesystem) (p : Fs.path) :
  Fs.files (Fs.mkdir_parents f p) = Fs.files f.
Proof.
  unfold Fs.mkdir_parents. rewrite files_add_dir.
  generalize (Fs.ancestors p). intros l. revert f.
  induction l as [|a l IH]; intros f; cbn; [reflexivity|].
  now rewrite IH, files_add_dir.
Qed.

(** Replacing a one-character pattern by one character is a map. *)
Lemma replace_char (s : str) (c d : Z) :
  Py.replace s [c] [d] = map (fun x => if x =? c then d else x) s.
Proof.
  unfold Py.replace. induction s as [|x t IH]; [reflexivity|].
  cbn [Py.replace_at Py.startswith List.length Nat.sub map].
  rewrite andb_true_r, (Z.eqb_sym c x).
  destruct (x =? c); cbn [app]; now rewrite IH.
Qed.

(** What [create_folder] does, by whether the target exists. *)
Lemma create_folder_cases (settings : Settings) (request : CreateFolderRequest)
    (st : State) :
  let folder_name :=
    map (fun c => if c =? 32 then 45 else c) (map Py.lower_char (name request)) in
  let target := Fs.joinpath (Fs.Path (data_dir settings)) folder_name in
  create_folder settings request st =
  if Fs.exists_ (fs st) target
  then (Raise (HTTPException 400 (lit "Folder already exists")), st)
  else (Ok (mk_folder_info folder_name 0 (description request)),
        mk_state (Fs.mkdir_parents (fs st) target) (sent st)).
Proof.
  intros folder_name target. unfold create_folder.
  change (lit " ") with [32]. change (lit "-") with [45].
  rewrite replace_char. unfold Py.lower. fold folder_name. fold target.
  unfold bind, get_fs, raise, put_fs, ret.
  now destruct (Fs.exists_ (fs st) target).
Qed.



End CreateFolder.

(** ** Whitespace, [strip] and [find] *)
Section StripFacts.

Lemma lstrip_split (s : str) :
  exists ws, s = ws ++ Py.lstrip s /\ all_space ws.
Proof.
  induction s as [|c t (ws & Hs & Hw)]; cbn [Py.lstrip].
  - exists []. split; [reflexivity|constructor].
  - destruct (Py.isspace c) eqn:E.
    + exists (c :: ws). split; [cbn; now rewrite <- Hs|now constructor].
    + exists []. split; [reflexivity|constructor].
Qed.

Lemma rstrip_split (s : str) :
  exists ws, s = Py.rstrip s ++ ws /\ all_space ws.
Proof.
  unfold Py.rstrip. destruct (lstrip_split (rev s)) as (ws & Hs & Hw).
  exists (rev ws). split.
  - rewrite <- rev_app_distr, <- Hs. now rewrite rev_involutive.
  - apply Forall_rev. exact Hw.
Qed.

(** A string is its stripped text between two runs of whitespace. *)
Lemma strip_split (s : str) :
  exists ws1 ws2,
    s = ws1 ++ Py.strip s ++ ws2 /\ all_space ws1 /\ all_space ws2.
Proof.
  destruct (lstrip_split s) as (ws1 & H1 & Hw1).
  destruct (rstrip_split (Py.lstrip s)) as (ws2 & H2 & Hw2).
  exists ws1, ws2. unfold Py.strip. rewrite <- H2. auto.
Qed.

Lemma lstrip_app_space (ws s : str) :
  all_space ws -> Py.lstrip (ws ++ s) = Py.lstrip s.
Proof.
  induction 1 as [|c ws Hc _ IH]; [reflexivity|].
  cbn [app Py.lstrip]. now rewrite Hc.
Qed.

Lemma strip_app_space (ws s : str) :
  all_space ws -> Py.strip (ws ++ s) = Py.strip s.
Proof. intros H. unfold Py.strip. now rewrite lstrip_app_space. Qed.

Lemma strip_all_space (ws : str) : all_space ws -> Py.strip ws = [].
Proof.
  intros H. rewrite <- (app_nil_r ws), strip_app_space by assumption.
  reflexivity.
Qed.

(** The separator, three hyphens, holds no whitespace. *)
Lemma startswith_sep_space (c : Z) (t : str) :
  Py.isspace c = true -> Py.startswith (lit "---") (c :: t) = false.
Proof.
  intros H. change (lit "---") with [45; 45; 45]. cbn [Py.startswith].
  destruct (45 =? c) eqn:E; [|reflexivity].
  zbool. subst c. discriminate.
Qed.

Lemma startswith_sep_app_space (s ws : str) :
  all_space ws ->
  Py.startswith (lit "---") (s ++ ws) = Py.startswith (lit "---") s.
Proof.
  intros Hw. change (lit "---") with [45; 45; 45].
  assert (Hh : forall p, Py.startswith (45 :: p) ws = false).
  { intros p. destruct Hw as [|c ws Hc _]; [reflexivity|].
    cbn [Py.startswith]. destruct (45 =? c) eqn:E; [|reflexivity].
    zbool. subst c. discriminate. }
  assert (Hc : forall x p y t,
             Py.startswith (x :: p) (y :: t) = (x =? y) && Py.startswith p t)
    by reflexivity.
  assert (Hn : forall x p, Py.startswith (x :: p) [] = false) by reflexivity.
  destruct s as [|a [|b [|c s]]]; cbn [app];
    rewrite ?Hc, ?Hh, ?Hn, ?andb_false_r; reflexivity.
Qed.

Lemma find_at_sep_space_prefix (ws s : str) (i : Z) :
  all_space ws ->
  Py.find_at (lit "---") (ws ++ s) i = Py.find_at (lit "---") s (i + Py.len ws).
Proof.
  intros H. revert i. unfold Py.len.
  induction H as [|c ws Hc _ IH]; intros i.
  - cbn. now rewrite Z.add_0_r.
  - cbn [app Py.find_at]. rewrite startswith_sep_space by assumption.
    rewrite IH. f_equal. cbn [List.length]. lia.
Qed.

Lemma find_at_sep_all_space (ws : str) (i : Z) :
  all_space ws -> Py.find_at (lit "---") ws i = -1.
Proof.
  intros H. revert i. induction H as [|c ws Hc _ IH]; intros i.
  - reflexivity.
  - cbn [Py.find_at]. rewrite startswith_sep_space by assumption. apply IH.
Qed.

Lemma find_at_sep_space_suffix (s ws : str) (i : Z) :
  all_space ws ->
  Py.find_at (lit "---") (s ++ ws) i = Py.find_at (lit "---") s i.
Proof.
  intros H. revert i. induction s as [|c t IH]; intros i.
  - cbn [app]. rewrite find_at_sep_all_space by assumption. reflexivity.
  - cbn [app Py.find_at].
    change (c :: t ++ ws) with ((c :: t) ++ ws).
    rewrite startswith_sep_app_space by assumption.
    now rewrite IH.
Qed.

(** Searching from index [i] shifts every answer but [-1] by [i]. *)
Lemma find_at_shift (sub s : str) (i : Z) :
  Py.find_at sub s i =
  if Py.find_at sub s 0 =? -1 then -1 else Py.find_at sub s 0 + i.
Proof.
  revert i. induction s as [|c t IH]; intros i; cbn [Py.find_at].
  - destruct (Py.startswith sub []); cbn; lia.
  - destruct (Py.startswith sub (c :: t)); [cbn; lia|].
    rewrite (IH (i + 1)), (IH (0 + 1)).
    destruct (Py.find_at sub t 0 =? -1) eqn:E; [reflexivity|].
    destruct (find_at_spec sub t 0) as [H|[H _]]; [lia|zbool; lia|].
    destruct (Py.find_at sub t 0 + (0 + 1) =? -1) eqn:E'; zbool; lia.
Qed.

End StripFacts.

(** ** The corpus accessor: the preview of an entry *)
Section EntryPreview.

Lemma firstn_100_twice (s : str) :
  Py.slice_to (Py.slice_to s 100) 100 = firstn 100 s.
Proof.
  rewrite !slice_to_firstn by lia.
  change (Z.to_nat 100) with 100%nat. rewrite firstn_firstn. reflexivity.
Qed.

(** [find] for the separator in a text and in its stripped form. *)
Lemma find_sep_strip (rest : str) :
  exists ws1 ws2,
    rest = ws1 ++ Py.strip rest ++ ws2 /\ all_space ws1 /\ all_space ws2
    /\ Py.find rest (lit "---") =
       if Py.find (Py.strip rest) (lit "---") =? -1 then -1
       else Py.find (Py.strip rest) (lit "---") + Py.len ws1.
Proof.
  destruct (strip_split rest) as (ws1 & ws2 & Hr & H1 & H2).
  exists ws1, ws2. repeat split; try assumption.
  unfold Py.find at 1. rewrite Hr at 1.
  rewrite find_at_sep_space_prefix, find_at_sep_space_suffix by assumption.
  rewrite find_at_shift. reflexivity.
Qed.

(** C8, as the code has it.  Without any separator the preview is the
    first 100 characters of the content.  With a first separator that is
    not at the very start: when a second separator follows and the text
    between the two is not blank, the preview is that text, stripped of
    the whitespace around it and cut to 100 characters; when no second
    separator follows, the preview is the first 100 characters of the
    stripped text after the first one. *)
Theorem entry_preview_between_separators (content : str) :
  let i := Py.find content (lit "---") in
  let rest := skipn (Z.to_nat (i + 3)) content in
  let j := Py.find rest (lit "---") in
  (i = -1 -> entry_preview content = firstn 100 content)
  /\ (0 < i -> j = -1 -> entry_preview content = firstn 100 (Py.strip rest))
  /\ (0 < i -> 0 <= j -> Py.strip (firstn (Z.to_nat j) rest) <> [] ->
      entry_preview content = firstn 100 (Py.strip (firstn (Z.to_nat j) rest))).
Proof.
  intros i rest j. unfold entry_preview. fold i.
  split; [|split].
  - intros Hi. rewrite Hi. cbn [Z.ltb Z.compare]. apply firstn_100_twice.
  - intros Hi Hj.
    replace (0 <? i) with true by (symmetry; apply Z.ltb_lt; lia).
    rewrite slice_from_skipn by lia. fold rest.
    destruct (find_sep_strip rest) as (ws1 & ws2 & _ & _ & _ & Hf).
    fold j in Hf.
    destruct (find_spec (Py.strip rest) (lit "---")) as [Hk|[Hk _]].
    + rewrite Hk. cbn [Z.ltb Z.compare]. apply firstn_100_twice.
    + pose proof (len_nonneg ws1).
      destruct (Py.find (Py.strip rest) (lit "---") =? -1) eqn:E; zbool; lia.
  - intros Hi Hj Hmid.
    replace (0 <? i) with true by (symmetry; apply Z.ltb_lt; lia).
    rewrite slice_from_skipn by lia. fold rest.
    destruct (find_sep_strip rest) as (ws1 & ws2 & Hr & H1 & H2 & Hf).
    fold j in Hf.
    set (core := Py.strip rest) in *. set (k := Py.find core (lit "---")) in *.
    destruct (find_spec core (lit "---")) as [Hk|[Hk _]]; fold k in Hk.
    { rewrite Hk in Hf. cbn in Hf. lia. }
    assert (E : (k =? -1) = false) by (apply Z.eqb_neq; lia).
    rewrite E in Hf.
    assert (Hm : firstn (Z.to_nat j) rest = ws1 ++ firstn (Z.to_nat k) core).
    { rewrite Hr at 1. rewrite firstn_app.
      unfold Py.len in *.
      rewrite firstn_all2 by lia.
      replace (Z.to_nat j - List.length ws1)%nat with (Z.to_nat k) by lia.
      rewrite firstn_app.
      replace (Z.to_nat k - List.length core)%nat with 0%nat by lia.
      cbn [firstn]. now rewrite app_nil_r. }
    rewrite Hm in *. rewrite strip_app_space in * by assumption.
    destruct (0 <? k) eqn:Ek; zbool.
    + rewrite (slice_to_firstn core k) by lia.
      rewrite slice_to_firstn by lia. reflexivity.
    + assert (k = 0) as Hk0 by lia. rewrite Hk0 in Hmid. cbn in Hmid.
      now contradiction Hmid.
Qed.

(** The note [create_note_content] writes for the transcript [buy milk]
    is previewed as [buy milk]. *)
Lemma entry_preview_between_separators_witness :
  entry_preview
    (lit "# Untitled

**Date:** January 15, 2024 at 10:30 AM
**Folder:** inbox

---

buy milk

---

*Captured with Cortex*
") = lit "buy milk".
Proof.
  refine (eq_trans
            (proj2 (proj2 (entry_preview_between_separators _)) _ _ _) _).
  - vm_compute; reflexivity.
  - vm_compute; discriminate.
  - vm_compute; discriminate.
  - vm_compute; reflexivity.
Defined.

(** C8, as stated, fails: a note with a single separator has fewer than
    two, so the stated preview is the start of the whole content, while the
    code answers with the text after the separator. *)
Lemma entry_preview_single_separator_counterexample :
  entry_preview (lit "Shopping
---
buy milk") = lit "buy milk"
  /\ preview_as_specified (lit "Shopping
---
buy milk") = lit "Shopping
---
buy milk"
  /\ Py.str_eqb
       (entry_preview (lit "Shopping
---
buy milk"))
       (preview_as_specified (lit "Shopping
---
buy milk")) = false.
Proof. vm_compute. repeat split; reflexivity. Qed.

End EntryPreview.

(** ** [json.loads] after [json.dumps] *)
Section RoundTrip.

Lemma hex_val_hex_digit (d : Z) :
  0 <= d < 16 -> Json.hex_val (Json.hex_digit d) = Some d.
Proof.
  intros H. unfold Json.hex_val, Json.hex_digit, Json.is_digit.
  destruct (d <? 10) eqn:E; zbool.
  - replace ((48 <=? 48 + d) && (48 + d <=? 57)) with true
      by (symmetry; apply andb_true_iff; split; apply Z.leb_le; lia).
    f_equal; lia.
  - replace ((48 <=? 87 + d) && (87 + d <=? 57)) with false
      by (symmetry; apply andb_false_iff; right; apply Z.leb_gt; lia).
    replace ((97 <=? 87 + d) && (87 + d <=? 102)) with true
      by (symmetry; apply andb_true_iff; split; apply Z.leb_le; lia).
    f_equal; lia.
Qed.

Lemma hex4_hex4_text (n : Z) :
  0 <= n < 65536 ->
  Json.hex4 (Json.hex_digit (n / 4096 mod 16)) (Json.hex_digit (n / 256 mod 16))
    (Json.hex_digit (n / 16 mod 16)) (Json.hex_digit (n mod 16)) = Some n.
Proof.
  intros H. unfold Json.hex4.
  rewrite !hex_val_hex_digit by (apply Z.mod_pos_bound; lia).
  f_equal. Z.to_euclidean_division_equations. lia.
Qed.

Lemma scanstring_plain (c : Z) (t acc : str) :
  (c =? 34) = false -> (c =? 92) = false -> (c <? 32) = false ->
  Json.scanstring (c :: t) acc = Json.scanstring t (c :: acc).
Proof. intros H1 H2 H3. cbn [Json.scanstring]. now rewrite H1, H2, H3. Qed.

Lemma scanstring_escape (e c' : Z) (t acc : str) :
  (e =? 117) = false -> Json.unescape e = Some c' ->
  Json.scanstring (92 :: e :: t) acc = Json.scanstring t (c' :: acc).
Proof.
  intros H1 H2. cbn [Json.scanstring].
  change (92 =? 34) with false. change (92 =? 92) with true. cbv iota.
  now rewrite H1, H2.
Qed.

Lemma scanstring_u (h1 h2 h3 h4 u : Z) (t acc : str) :
  Json.hex4 h1 h2 h3 h4 = Some u -> Json.is_high_surrogate u = false ->
  Json.scanstring (92 :: 117 :: h1 :: h2 :: h3 :: h4 :: t) acc
  = Json.scanstring t (u :: acc).
Proof.
  intros H1 H2. cbn [Json.scanstring].
  change (92 =? 34) with false. change (92 =? 92) with true.
  change (117 =? 117) with true. cbv iota.
  rewrite H1, H2. cbn [andb].
  destruct t as [|b [|e [|g1 [|g2 [|g3 [|g4 t]]]]]]; reflexivity.
Qed.

Lemma scanstring_pair (h1 h2 h3 h4 g1 g2 g3 g4 u u2 : Z) (t acc : str) :
  Json.hex4 h1 h2 h3 h4 = Some u -> Json.is_high_surrogate u = true ->
  Json.hex4 g1 g2 g3 g4 = Some u2 -> Json.is_low_surrogate u2 = true ->
  Json.scanstring
    (92 :: 117 :: h1 :: h2 :: h3 :: h4 :: 92 :: 117 :: g1 :: g2 :: g3 :: g4 :: t) acc
  = Json.scanstring t (Json.join_surrogates u u2 :: acc).
Proof.
  intros H1 H2 H3 H4. cbn [Json.scanstring].
  change (92 =? 34) with false. change (92 =? 92) with true.
  change (117 =? 117) with true. cbv iota.
  rewrite H1, H2, H3, H4. reflexivity.
Qed.

Lemma lor_surrogate_base (y : Z) :
  0 <= y < 1024 ->
  Z.lor 55296 y = 55296 + y /\ Z.lor 56320 y = 56320 + y.
Proof.
  intros H.
  assert (A : forallb (fun k => (Z.lor 55296 (Z.of_nat k) =? 55296 + Z.of_nat k)
                                && (Z.lor 56320 (Z.of_nat k) =? 56320 + Z.of_nat k))
                (seq 0 1024) = true) by (vm_compute; reflexivity).
  rewrite forallb_forall in A.
  specialize (A (Z.to_nat y)). rewrite Z2Nat.id in A by lia.
  assert (In (Z.to_nat y) (seq 0 1024)) as Hin by (apply in_seq; lia).
  specialize (A Hin). zbool. split; assumption.
Qed.

(** The two escapes [json.dumps] writes for a code point above the basic
    plane. *)
Lemma surrogates_of (n : Z) :
  0 <= n < 1048576 ->
  Z.lor 55296 (Z.land (Z.shiftr n 10) 1023) = 55296 + n / 1024
  /\ Z.lor 56320 (Z.land n 1023) = 56320 + n mod 1024.
Proof.
  intros H.
  rewrite Z.shiftr_div_pow2 by lia.
  change 1023 with (Z.ones 10). rewrite !Z.land_ones by lia.
  change (2 ^ 10) with 1024.
  assert (0 <= n / 1024 < 1024)
    by (split; [apply Z.div_pos; lia|apply Z.div_lt_upper_bound; lia]).
  rewrite (Z.mod_small (n / 1024)) by lia.
  split; apply lor_surrogate_base; [lia|apply Z.mod_pos_bound; lia].
Qed.

(** The decoder reads back the character the encoder escaped. *)
Lemma scanstring_escape_char (c : Z) (t acc : str) :
  is_scalar c = true ->
  Json.scanstring (Json.escape_char c ++ t) acc = Json.scanstring t (c :: acc).
Proof.
  intros Hc. unfold is_scalar in Hc. zbool.
  unfold Json.escape_char.
  destruct (c =? 34) eqn:E1;
    [zbool; subst c; now apply scanstring_escape|].
  destruct (c =? 92) eqn:E2;
    [zbool; subst c; now apply scanstring_escape|].
  destruct (c =? 10) eqn:E3;
    [zbool; subst c; now apply scanstring_escape|].
  destruct (c =? 13) eqn:E4;
    [zbool; subst c; now apply scanstring_escape|].
  destruct (c =? 9) eqn:E5;
    [zbool; subst c; now apply scanstring_escape|].
  destruct (c =? 12) eqn:E6;
    [zbool; subst c; now apply scanstring_escape|].
  destruct (c =? 8) eqn:E7;
    [zbool; subst c; now apply scanstring_escape|].
  destruct ((32 <=? c) && (c <=? 126)) eqn:E8.
  { zbool. cbn [app].
    apply scanstring_plain; [apply Z.eqb_neq; lia..|apply Z.ltb_ge; lia]. }
  destruct (c <? 65536) eqn:E9.
  - zbool. cbn [app Json.hex4_text].
    apply scanstring_u; [apply hex4_hex4_text; lia|].
    unfold Json.is_high_surrogate.
    match goal with
    | Hs : (_ && _) = false |- _ =>
        apply andb_false_iff in Hs; destruct Hs; zbool
    end.
    + apply andb_false_iff; left; apply Z.leb_gt; lia.
    + apply andb_false_iff.
      destruct (Z.le_gt_cases c 56319); [left|right]; apply Z.leb_gt; lia.
  - zbool.
    destruct (surrogates_of (c - 65536)) as [-> ->]; [lia|].
    assert (0 <= (c - 65536) / 1024 < 1024)
      by (split; [apply Z.div_pos; lia|apply Z.div_lt_upper_bound; lia]).
    pose proof (Z.mod_pos_bound (c - 65536) 1024 ltac:(lia)).
    cbn [app Json.hex4_text].
    rewrite (scanstring_pair _ _ _ _ _ _ _ _
               (55296 + (c - 65536) / 1024) (56320 + (c - 65536) mod 1024)).
    + f_equal. f_equal. unfold Json.join_surrogates.
      pose proof (Z.div_mod (c - 65536) 1024 ltac:(lia)). lia.
    + apply hex4_hex4_text; lia.
    + unfold Json.is_high_surrogate.
      apply andb_true_iff; split; apply Z.leb_le; lia.
    + apply hex4_hex4_text; lia.
    + unfold Json.is_low_surrogate.
      apply andb_true_iff; split; apply Z.leb_le; lia.
Qed.

Lemma scanstring_encoded (s : str) :
  scalar_text s ->
  forall rest acc,
    Json.scanstring (flat_map Json.escape_char s ++ 34 :: rest) acc
    = Some (rev acc ++ s, rest).
Proof.
  induction 1 as [|c s Hc _ IH]; intros rest acc.
  - cbn [flat_map app Json.scanstring]. change (34 =? 34) with true.
    cbv iota. now rewrite app_nil_r.
  - cbn [flat_map]. rewrite <- app_assoc.
    rewrite scanstring_escape_char by assumption.
    rewrite IH. cbn [rev]. now rewrite <- app_assoc.
Qed.

Lemma item_text_app (k v tail : str) :
  Json.item_text (k, v) ++ tail =
  34 :: flat_map Json.escape_char k
     ++ 34 :: 58 :: 32 :: 34 :: flat_map Json.escape_char v ++ 34 :: tail.
Proof.
  unfold Json.item_text, Json.encode_string. cbn [fst snd].
  change (lit ": ") with [58; 32].
  cbn [app]. repeat (rewrite <- app_assoc; cbn [app]). reflexivity.
Qed.

Lemma skip_ws_nonspace (c : Z) (t : str) :
  Json.is_ws c = false -> Json.skip_ws (c :: t) = c :: t.
Proof. intros H. cbn [Json.skip_ws]. now rewrite H. Qed.

Lemma skip_ws_space (t : str) : Json.skip_ws (32 :: t) = Json.skip_ws t.
Proof. reflexivity. Qed.

Lemma scan_once_quote (f : nat) (t : str) :
  Json.scan_once (S f) (34 :: t) =
  match Json.scanstring t [] with
  | Some (x, r) => Json.Scanned (VStr x) r
  | None => Json.Invalid
  end.
Proof. reflexivity. Qed.

Lemma scan_members_quote (f : nat) (t : str) (acc : dict) :
  Json.scan_members (S f) (34 :: t) acc =
  match Json.scanstring t [] with
  | None => Json.Invalid
  | Some (k, r1) =>
      match Json.skip_ws r1 with
      | [] => Json.Invalid
      | colon :: r2 =>
          if colon =? 58 then
            match Json.scan_once f (Json.skip_ws r2) with
            | Json.Scanned v r3 =>
                match Json.skip_ws r3 with
                | [] => Json.Invalid
                | d :: r4 =>
                    if d =? 125 then Json.Scanned (VDict (dict_set acc k v)) r4
                    else if d =? 44
                         then Json.scan_members f (Json.skip_ws r4) (dict_set acc k v)
                         else Json.Invalid
                end
            | Json.Invalid => Json.Invalid
            | Json.Exhausted => Json.Exhausted
            end
          else Json.Invalid
      end
  end.
Proof. reflexivity. Qed.

(** The scanner on one item: the binding is added, and the scanner goes
    on with what follows the value. *)
Lemma scan_members_item (k v tail : str) (f : nat) (acc : dict) :
  scalar_text k -> scalar_text v ->
  Json.scan_members (S (S f)) (Json.item_text (k, v) ++ tail) acc =
  match Json.skip_ws tail with
  | [] => Json.Invalid
  | d :: r =>
      if d =? 125 then Json.Scanned (VDict (dict_set acc k (VStr v))) r
      else if d =? 44
           then Json.scan_members (S f) (Json.skip_ws r) (dict_set acc k (VStr v))
           else Json.Invalid
  end.
Proof.
  intros Hk Hv. rewrite item_text_app, scan_members_quote.
  rewrite scanstring_encoded by assumption. cbv beta iota.
  rewrite (skip_ws_nonspace 58) by reflexivity. cbv beta iota.
  change (58 =? 58) with true. cbv beta iota.
  rewrite skip_ws_space, (skip_ws_nonspace 34) by reflexivity.
  rewrite scan_once_quote, scanstring_encoded by assumption.
  reflexivity.
Qed.

Lemma item_text_head (kv : str * str) (tail : str) :
  exists t, Json.item_text kv ++ tail = 34 :: t.
Proof. destruct kv as [k v]. rewrite item_text_app. eexists; reflexivity. Qed.

Lemma join_cons2 (sep p q : str) (l : list str) :
  Json.join sep (p :: q :: l) = p ++ sep ++ Json.join sep (q :: l).
Proof. reflexivity. Qed.

Lemma join_items_head (kv : str * str) (l : list (str * str)) (tail : str) :
  exists t,
    Json.join (lit ", ") (map Json.item_text (kv :: l)) ++ tail = 34 :: t.
Proof.
  destruct l as [|kv' l]; cbn [map].
  - cbn [Json.join]. apply item_text_head.
  - rewrite join_cons2, <- app_assoc. apply item_text_head.
Qed.

Lemma join_items_length (l : list (str * str)) :
  (List.length l <= List.length (Json.join (lit ", ") (map Json.item_text l)))%nat.
Proof.
  induction l as [|kv l IH]; [cbn; lia|].
  destruct l as [|kv' l]; cbn [map] in *.
  - cbn [Json.join]. destruct (item_text_head kv []) as [t Ht].
    rewrite app_nil_r in Ht. rewrite Ht. cbn [List.length]. lia.
  - rewrite join_cons2. destruct (item_text_head kv []) as [t Ht].
    rewrite app_nil_r in Ht. rewrite Ht.
    cbn [List.length app]. rewrite !length_app. cbn [List.length] in *. lia.
Qed.

(** The scanner on the items [json.dumps] wrote: every binding is added
    in turn. *)
Lemma scan_members_items (l : list (str * str)) :
  Forall (fun kv => scalar_text (fst kv) /\ scalar_text (snd kv)) l ->
  forall (kv : str * str) (fuel : nat) (acc : dict) (rest : str),
    scalar_text (fst kv) -> scalar_text (snd kv) ->
    (List.length l + 1 < fuel)%nat ->
    Json.scan_members fuel
      (Json.join (lit ", ") (map Json.item_text (kv :: l)) ++ 125 :: rest) acc
    = Json.Scanned
        (VDict (fold_left (fun d e => dict_set d (fst e) (VStr (snd e)))
                  (kv :: l) acc))
        rest.
Proof.
  induction 1 as [|kv' l [Hk' Hv'] _ IH];
    intros [k v] fuel acc rest Hk Hv Hf; cbn [fst snd] in *.
  - destruct fuel as [|[|f]]; [cbn in Hf; lia..|].
    cbn [map Json.join]. rewrite scan_members_item by assumption.
    rewrite (skip_ws_nonspace 125) by reflexivity. reflexivity.
  - destruct fuel as [|[|f]]; [cbn in Hf; lia..|].
    cbn [map]. rewrite join_cons2, <- !app_assoc.
    rewrite scan_members_item by assumption.
    change (lit ", ") with [44; 32] at 1. cbn [app].
    rewrite (skip_ws_nonspace 44) by reflexivity. cbv beta iota.
    change (44 =? 125) with false. change (44 =? 44) with true. cbv beta iota.
    rewrite skip_ws_space.
    destruct (join_items_head kv' l (125 :: rest)) as [t Ht].
    change (map Json.item_text (kv' :: l)) with
      (Json.item_text kv' :: map Json.item_text l) in Ht.
    rewrite Ht, (skip_ws_nonspace 34) by reflexivity. rewrite <- Ht.
    change (Json.item_text kv' :: map Json.item_text l) with
      (map Json.item_text (kv' :: l)).
    rewrite IH; [reflexivity|assumption..|cbn [List.length] in Hf; lia].
Qed.

Lemma scan_once_open_brace (f : nat) (t : str) :
  Json.scan_once (S f) (123 :: 34 :: t) = Json.scan_members f (34 :: t) [].
Proof. reflexivity. Qed.

(** [json.loads(json.dumps(d))] gives back the dictionary [d] held. *)
Lemma json_loads_dumps (kv : str * str) (l : list (str * str)) :
  Forall (fun kv => scalar_text (fst kv) /\ scalar_text (snd kv)) (kv :: l) ->
  Json.json_loads (Json.json_dumps (kv :: l)) =
  Some (VDict (fold_left (fun d e => dict_set d (fst e) (VStr (snd e)))
                 (kv :: l) [])).
Proof.
  intros H. inversion H as [|? ? [Hk Hv] Hl]; subst.
  unfold Json.json_loads, Json.json_dumps. cbn [app].
  rewrite (skip_ws_nonspace 123) by reflexivity.
  destruct (join_items_head kv l [125]) as [t Ht].
  cbn [List.length]. rewrite Ht, scan_once_open_brace, <- Ht.
  rewrite scan_members_items; [reflexivity|assumption..|].
  rewrite length_app. pose proof (join_items_length (kv :: l)) as Hlen.
  cbn [List.length] in *. lia.
Qed.

Lemma scalar_text_lit_ascii (s : str) :
  forallb (fun c => (0 <=? c) && (c <? 128)) s = true -> scalar_text s.
Proof.
  intros H. apply Forall_forall. intros c Hc.
  rewrite forallb_forall in H. specialize (H c Hc). zbool.
  unfold is_scalar.
  repeat (apply andb_true_iff; split); try (apply Z.leb_le; lia);
    try (apply Z.ltb_lt; lia).
  apply negb_true_iff, andb_false_iff. left. apply Z.leb_gt. lia.
Qed.

Lemma scalar_text_firstn (n : nat) (s : str) :
  scalar_text s -> scalar_text (firstn n s).
Proof.
  intros H. revert n.
  induction H as [|c s Hc _ IH]; intros [|n]; cbn [firstn]; constructor;
    [assumption|apply IH].
Qed.

Lemma scalar_text_app (a b : str) :
  scalar_text a -> scalar_text b -> scalar_text (a ++ b).
Proof. intros Ha Hb. apply Forall_app. now split. Qed.

(** The four-key dictionaries [call_ai] serialises decode to themselves. *)
Lemma json_loads_dumps_four (a b c d : str) :
  scalar_text a -> scalar_text b -> scalar_text c -> scalar_text d ->
  Json.json_loads
    (Json.json_dumps
       [(lit "folder", a); (lit "title", b); (lit "summary", c); (lit "slug", d)])
  = Some (VDict [(lit "folder", VStr a); (lit "title", VStr b);
                 (lit "summary", VStr c); (lit "slug", VStr d)]).
Proof.
  intros Ha Hb Hc Hd. rewrite json_loads_dumps; [reflexivity|].
  repeat constructor; cbn [fst snd]; try assumption;
    apply scalar_text_lit_ascii; reflexivity.
Qed.

End RoundTrip.

(** ** The classifier client: [call_ai] *)
Section ClassifierClient.

(** The title of the mock response: the first 30 characters, and an
    ellipsis when the transcript is longer. *)
Lemma mock_title (transcript : str) :
  (if 30 <? Py.len transcript
   then Py.slice_to transcript 30 ++ lit "..."
   else transcript)
  = firstn 30 transcript ++ (if 30 <? Py.len transcript then lit "..." else []).
Proof.
  rewrite slice_to_firstn by lia. change (Z.to_nat 30) with 30%nat.
  destruct (30 <? Py.len transcript) eqn:E; [reflexivity|].
  zbool. unfold Py.len in E. rewrite app_nil_r.
  symmetry. apply firstn_all2. lia.
Qed.

Lemma mock_response_text (transcript default_folder : str) :
  mock_response transcript default_folder =
  Json.json_dumps
    [(lit "folder", default_folder);
     (lit "title",
       firstn 30 transcript
       ++ (if 30 <? Py.len transcript then lit "..." else []));
     (lit "summary", firstn 100 transcript);
     (lit "slug", lit "note")].
Proof.
  unfold mock_response. rewrite mock_title, slice_to_firstn by lia.
  reflexivity.
Qed.

Lemma error_response_text (transcript default_folder : str) :
  error_response transcript default_folder =
  Json.json_dumps
    [(lit "folder", default_folder);
     (lit "title", firstn 30 transcript);
     (lit "summary", firstn 100 transcript);
     (lit "slug", lit "note")].
Proof. unfold error_response. rewrite !slice_to_firstn by lia. reflexivity. Qed.

Lemma call_ai_no_key (settings : Settings) (w : World)
    (transcript readme_content default_folder : str) (st : State) :
  nano_gpt_api_key settings = [] ->
  call_ai settings w transcript readme_content default_folder st =
  (Ok (VStr (mock_response transcript default_folder)), st).
Proof. intros H. unfold call_ai. rewrite H. reflexivity. Qed.

Lemma call_ai_failed (settings : Settings) (w : World)
    (transcript readme_content default_folder : str) (st : State) :
  nano_gpt_api_key settings <> [] ->
  (forall r, classifier_failed (post w r)) ->
  exists r,
    call_ai settings w transcript readme_content default_folder st =
    (Ok (VStr (error_response transcript default_folder)),
     mk_state (fs st) (sent st ++ [r])).
Proof.
  intros Hk Hf. unfold call_ai.
  destruct (nano_gpt_api_key settings) as [|c k] eqn:E; [contradiction|].
  cbn [Py.str_eqb]. eexists. unfold bind, http_post.
  match goal with
  | |- context [post w ?r] => specialize (Hf r); destruct (post w r) as [code text|]
  end; [|reflexivity].
  cbn [classifier_failed] in Hf.
  destruct (code =? 200) eqn:Ec; [|reflexivity].
  zbool. destruct Hf as [Hf|Hf]; [contradiction|].
  destruct (Json.json_loads text) as [data|]; [|reflexivity].
  now rewrite Hf.
Qed.

(** C7.  Without an API key [call_ai] sends nothing: the state, with its
    record of the requests sent, is unchanged, whatever the service would
    answer.  It returns the JSON text of the folder (the default folder),
    the title (the first 30 characters of the transcript, followed by an
    ellipsis exactly when the transcript is longer than 30), the summary
    (the first 100 characters) and the slug note; decoding the text gives
    those four fields back.  For the transcript [buy milk] and the default
    folder [inbox] the text holds folder inbox, title buy milk, summary buy
    milk, slug note. *)
Theorem call_ai_without_credential :
  (forall (settings : Settings) (w : World)
          (transcript readme_content default_folder : str) (st : State),
      nano_gpt_api_key settings = [] ->
      let title :=
        firstn 30 transcript
        ++ (if 30 <? Py.len transcript then lit "..." else []) in
      let summary := firstn 100 transcript in
      exists text,
        call_ai settings w transcript readme_content default_folder st =
        (Ok (VStr text), st)
        /\ text =
           Json.json_dumps
             [(lit "folder", default_folder); (lit "title", title);
              (lit "summary", summary); (lit "slug", lit "note")]
        /\ (scalar_text transcript -> scalar_text default_folder ->
            Json.json_loads text =
            Some (VDict [(lit "folder", VStr default_folder);
                         (lit "title", VStr title);
                         (lit "summary", VStr summary);
                         (lit "slug", VStr (lit "note"))])))
  /\ (forall (settings : Settings) (w : World) (readme_content : str) (st : State),
        nano_gpt_api_key settings = [] ->
        call_ai settings w (lit "buy milk") readme_content (lit "inbox") st =
        (Ok (VStr (quoted "{'folder': 'inbox', 'title': 'buy milk', 'summary': 'buy milk', 'slug': 'note'}")),
         st)).
Proof.
  split.
  - intros settings w transcript readme_content default_folder st Hk title summary.
    exists (mock_response transcript default_folder).
    split; [now apply call_ai_no_key|].
    split; [apply mock_response_text|].
    intros Ht Hd. rewrite mock_response_text.
    apply json_loads_dumps_four; try assumption.
    + apply scalar_text_app; [now apply scalar_text_firstn|].
      destruct (30 <? Py.len transcript);
        apply scalar_text_lit_ascii; reflexivity.
    + now apply scalar_text_firstn.
    + apply scalar_text_lit_ascii; reflexivity.
  - intros settings w readme_content st Hk.
    rewrite call_ai_no_key by assumption. reflexivity.
Qed.

Lemma call_ai_without_credential_witness :
  nano_gpt_api_key (sample_settings []) = []
  /\ call_ai (sample_settings []) unreachable_world (lit "buy milk") []
       (lit "inbox") sample_state =
     (Ok (VStr (quoted "{'folder': 'inbox', 'title': 'buy milk', 'summary': 'buy milk', 'slug': 'note'}")),
      sample_state).
Proof.
  split; [reflexivity|].
  apply (proj2 call_ai_without_credential (sample_settings []) unreachable_world
           [] sample_state).
  reflexivity.
Defined.

(** C10.  With an API key, when the service fails (the client raises, the
    status is not 200, or the body of the response cannot be used), and
    the transcript is longer than 30 characters, [call_ai] returns the
    JSON text whose title is exactly the first 30 characters of the
    transcript.  The title of the mock response for the same transcript
    has the ellipsis after them, so the two titles differ. *)
Theorem call_ai_error_fallback_title
    (settings : Settings) (w : World)
    (transcript readme_content default_folder : str) (st : State) :
  nano_gpt_api_key settings <> [] ->
  (forall r, classifier_failed (post w r)) ->
  30 < Py.len transcript ->
  (exists r,
      call_ai settings w transcript readme_content default_folder st =
      (Ok (VStr (Json.json_dumps
                   [(lit "folder", default_folder);
                    (lit "title", firstn 30 transcript);
                    (lit "summary", firstn 100 transcript);
                    (lit "slug", lit "note")])),
       mk_state (fs st) (sent st ++ [r])))
  /\ mock_response transcript default_folder =
     Json.json_dumps
       [(lit "folder", default_folder);
        (lit "title", firstn 30 transcript ++ lit "...");
        (lit "summary", firstn 100 transcript);
        (lit "slug", lit "note")]
  /\ firstn 30 transcript <> firstn 30 transcript ++ lit "..."
  /\ (scalar_text transcript -> scalar_text default_folder ->
      exists d_error d_mock,
        Json.json_loads (error_response transcript default_folder)
          = Some (VDict d_error)
        /\ Json.json_loads (mock_response transcript default_folder)
            = Some (VDict d_mock)
        /\ dict_lookup d_error (lit "title") = Some (VStr (firstn 30 transcript))
        /\ dict_lookup d_mock (lit "title")
            = Some (VStr (firstn 30 transcript ++ lit "..."))).
Proof.
  intros Hk Hf Hlen.
  assert (Hm : mock_response transcript default_folder =
               Json.json_dumps
                 [(lit "folder", default_folder);
                  (lit "title", firstn 30 transcript ++ lit "...");
                  (lit "summary", firstn 100 transcript);
                  (lit "slug", lit "note")]).
  { rewrite mock_response_text.
    replace (30 <? Py.len transcript) with true
      by (symmetry; apply Z.ltb_lt; lia).
    reflexivity. }
  split; [|split; [exact Hm|split]].
  - destruct (call_ai_failed settings w transcript readme_content
                default_folder st Hk Hf) as [r Hr].
    exists r. rewrite Hr, error_response_text. reflexivity.
  - intros Heq. rewrite <- (app_nil_r (firstn 30 transcript)) in Heq at 1.
    apply app_inv_head in Heq. discriminate.
  - intros Ht Hd. eexists. eexists.
    rewrite Hm, error_response_text.
    rewrite !json_loads_dumps_four; try assumption;
      try (apply scalar_text_lit_ascii; reflexivity);
      try (now apply scalar_text_firstn).
    + repeat split; reflexivity.
    + apply scalar_text_app; [now apply scalar_text_firstn|].
      apply scalar_text_lit_ascii; reflexivity.
Qed.

Lemma call_ai_error_fallback_title_witness :
  30 < Py.len (lit "remember to buy milk and eggs on the way home")
  /\ exists r,
      call_ai (sample_settings (lit "sk-test")) unreachable_world
        (lit "remember to buy milk and eggs on the way home") []
        (lit "inbox") sample_state =
      (Ok (VStr (Json.json_dumps
                   [(lit "folder", lit "inbox");
                    (lit "title", lit "remember to buy milk and eggs ");
                    (lit "summary",
                      lit "remember to buy milk and eggs on the way home");
                    (lit "slug", lit "note")])),
       mk_state (fs sample_state) (sent sample_state ++ [r])).
Proof.
  assert (H : 30 < Py.len (lit "remember to buy milk and eggs on the way home"))
    by (vm_compute; reflexivity).
  split; [exact H|].
  apply (call_ai_error_fallback_title (sample_settings (lit "sk-test"))
           unreachable_world
           (lit "remember to buy milk and eggs on the way home") []
           (lit "inbox") sample_state).
  - discriminate.
  - intros r. exact I.
  - exact H.
Defined.

End ClassifierClient.

(** ** The note composer: timestamps and file names *)
Section Timestamps.

Lemma is_digit_48 (a : Z) : 0 <= a <= 9 -> Datetime.is_digit (48 + a) = true.
Proof.
  intros H. unfold Datetime.is_digit.
  apply andb_true_iff; split; apply Z.leb_le; lia.
Qed.

Lemma parse_digits_2 (a b : Z) :
  0 <= a <= 9 -> 0 <= b <= 9 ->
  Datetime.parse_digits [48 + a; 48 + b] = Some (10 * a + b).
Proof.
  intros Ha Hb. unfold Datetime.parse_digits. cbn [forallb fold_left].
  rewrite !is_digit_48 by assumption. cbn [andb]. f_equal. lia.
Qed.

Lemma parse_digits_pad2 (n : Z) :
  0 <= n <= 99 -> Datetime.parse_digits (Datetime.pad2 n) = Some n.
Proof.
  intros H. unfold Datetime.pad2. rewrite parse_digits_2.
  - f_equal. Z.to_euclidean_division_equations. lia.
  - Z.to_euclidean_division_equations. lia.
  - Z.to_euclidean_division_equations. lia.
Qed.

Lemma parse_digits_pad4 (n : Z) :
  0 <= n <= 9999 -> Datetime.parse_digits (Datetime.pad4 n) = Some n.
Proof.
  intros H. unfold Datetime.parse_digits, Datetime.pad4. cbn [forallb fold_left].
  rewrite !is_digit_48 by (Z.to_euclidean_division_equations; lia).
  cbn [andb]. f_equal. Z.to_euclidean_division_equations. lia.
Qed.

Lemma parse_fraction_pad3 (n : Z) :
  0 <= n <= 999 -> Datetime.parse_fraction (pad3 n) = Some (n * 1000).
Proof.
  intros H. unfold Datetime.parse_fraction, Datetime.parse_digits, pad3.
  cbn [forallb fold_left List.length Nat.eqb].
  rewrite !is_digit_48 by (Z.to_euclidean_division_equations; lia).
  cbn [andb]. f_equal. Z.to_euclidean_division_equations. lia.
Qed.

Lemma parse_fraction_pad6 (n : Z) :
  0 <= n <= 999999 -> Datetime.parse_fraction (pad6 n) = Some n.
Proof.
  intros H. unfold Datetime.parse_fraction, Datetime.parse_digits, pad6.
  cbn [forallb fold_left List.length Nat.eqb].
  rewrite !is_digit_48 by (Z.to_euclidean_division_equations; lia).
  cbn [andb]. f_equal. Z.to_euclidean_division_equations. lia.
Qed.

(** The clock text parses to the fields it was written from. *)
Lemma parse_clock (h mi s : Z) (f : fraction) :
  0 <= h <= 99 -> 0 <= mi <= 99 -> 0 <= s <= 99 -> valid_fraction f = true ->
  Datetime.parse_hh_mm_ss_ff
    (Datetime.pad2 h ++ 58 :: Datetime.pad2 mi ++ 58 :: Datetime.pad2 s
     ++ fraction_text f)
  = Some (h, mi, s, fraction_micros f).
Proof.
  intros Hh Hm Hs Hf. unfold Datetime.pad2. cbn [app].
  unfold Datetime.parse_hh_mm_ss_ff. cbv beta iota.
  change [48 + h / 10 mod 10; 48 + h mod 10] with (Datetime.pad2 h).
  rewrite (parse_digits_pad2 h) by assumption.
  change (58 =? 58) with true. cbv beta iota.
  change [48 + mi / 10 mod 10; 48 + mi mod 10] with (Datetime.pad2 mi).
  rewrite (parse_digits_pad2 mi) by assumption.
  change [48 + s / 10 mod 10; 48 + s mod 10] with (Datetime.pad2 s).
  rewrite (parse_digits_pad2 s) by assumption.
  destruct f as [|n|n]; cbn [fraction_text valid_fraction fraction_micros] in *.
  - reflexivity.
  - change (46 =? 46) with true. cbv beta iota.
    zbool. now rewrite parse_fraction_pad3 by lia.
  - change (46 =? 46) with true. cbv beta iota.
    zbool. now rewrite parse_fraction_pad6 by lia.
Qed.

Lemma parse_clock_hh_mm (h m : Z) :
  0 <= h <= 99 -> 0 <= m <= 99 ->
  Datetime.parse_hh_mm_ss_ff (Datetime.pad2 h ++ 58 :: Datetime.pad2 m)
  = Some (h, m, 0, 0).
Proof.
  intros Hh Hm. unfold Datetime.pad2. cbn [app].
  unfold Datetime.parse_hh_mm_ss_ff. cbv beta iota.
  change [48 + h / 10 mod 10; 48 + h mod 10] with (Datetime.pad2 h).
  rewrite (parse_digits_pad2 h) by assumption.
  change (58 =? 58) with true. cbv beta iota.
  change [48 + m / 10 mod 10; 48 + m mod 10] with (Datetime.pad2 m).
  now rewrite (parse_digits_pad2 m) by assumption.
Qed.

(** Characters that are neither a sign nor the letter Z. *)
Lemma split_offset_app (a b : str) :
  Forall (fun c => c <> 43 /\ c <> 45) a ->
  Datetime.split_offset (a ++ b) =
  (a ++ fst (Datetime.split_offset b), snd (Datetime.split_offset b)).
Proof.
  induction 1 as [|c a [H1 H2] _ IH]; cbn [app Datetime.split_offset].
  - now destruct (Datetime.split_offset b).
  - replace ((c =? 43) || (c =? 45)) with false
      by (symmetry; apply orb_false_iff; split; apply Z.eqb_neq; assumption).
    rewrite IH. reflexivity.
Qed.

Lemma replace_one (s : str) (c : Z) (new : str) :
  Py.replace s [c] new = flat_map (fun x => if x =? c then new else [x]) s.
Proof.
  unfold Py.replace. induction s as [|x t IH]; [reflexivity|].
  cbn [Py.replace_at Py.startswith List.length Nat.sub flat_map].
  rewrite andb_true_r, (Z.eqb_sym c x).
  destruct (x =? c); cbn [app]; now rewrite IH.
Qed.

Lemma replace_absent (s : str) (c : Z) (new : str) :
  Forall (fun x => x <> c) s -> Py.replace s [c] new = s.
Proof.
  intros H. rewrite replace_one.
  induction H as [|x t Hx _ IH]; [reflexivity|].
  cbn [flat_map]. rewrite IH.
  now replace (x =? c) with false by (symmetry; now apply Z.eqb_neq).
Qed.

Lemma replace_app (a b : str) (c : Z) (new : str) :
  Py.replace (a ++ b) [c] new = Py.replace a [c] new ++ Py.replace b [c] new.
Proof. rewrite !replace_one. apply flat_map_app. Qed.

Lemma digit_bounds (n k : Z) : 48 <= 48 + n / k mod 10 <= 57.
Proof. pose proof (Z.mod_pos_bound (n / k) 10 ltac:(lia)). lia. Qed.

Lemma digit_bounds_1 (n : Z) : 48 <= 48 + n mod 10 <= 57.
Proof. pose proof (Z.mod_pos_bound n 10 ltac:(lia)). lia. Qed.

Lemma pad2_digits (n : Z) : Forall (fun c => 48 <= c <= 57) (Datetime.pad2 n).
Proof. repeat constructor; try apply digit_bounds; apply digit_bounds_1. Qed.

Lemma pad4_digits (n : Z) : Forall (fun c => 48 <= c <= 57) (Datetime.pad4 n).
Proof. repeat constructor; try apply digit_bounds; apply digit_bounds_1. Qed.

Lemma pad3_digits (n : Z) : Forall (fun c => 48 <= c <= 57) (pad3 n).
Proof. repeat constructor; try apply digit_bounds; apply digit_bounds_1. Qed.

Lemma pad6_digits (n : Z) : Forall (fun c => 48 <= c <= 57) (pad6 n).
Proof. repeat constructor; try apply digit_bounds; apply digit_bounds_1. Qed.

(** The characters of a clock with its fraction lie between the point
    and the letter T: no sign and no Z among them. *)
Lemma clock_chars (h mi s : Z) (f : fraction) :
  Forall (fun c => 46 <= c <= 84)
    (Datetime.pad2 h ++ 58 :: Datetime.pad2 mi ++ 58 :: Datetime.pad2 s
     ++ fraction_text f).
Proof.
  assert (D2 : forall n, Forall (fun c => 46 <= c <= 84) (Datetime.pad2 n)).
  { intros n. eapply Forall_impl; [|apply pad2_digits]. cbv beta; intros; lia. }
  apply Forall_app; split; [apply D2|].
  apply Forall_cons; [lia|].
  apply Forall_app; split; [apply D2|].
  apply Forall_cons; [lia|].
  apply Forall_app; split; [apply D2|].
  destruct f; cbn [fraction_text].
  - constructor.
  - apply Forall_cons; [lia|].
    eapply Forall_impl; [|apply pad3_digits]. cbv beta; intros; lia.
  - apply Forall_cons; [lia|].
    eapply Forall_impl; [|apply pad6_digits]. cbv beta; intros; lia.
Qed.

Lemma date_chars (y mo d : Z) :
  Forall (fun c => 45 <= c <= 84)
    (Datetime.pad4 y ++ 45 :: Datetime.pad2 mo ++ 45 :: Datetime.pad2 d).
Proof.
  apply Forall_app; split.
  { eapply Forall_impl; [|apply pad4_digits]. cbv beta; intros; lia. }
  apply Forall_cons; [lia|].
  apply Forall_app; split.
  { eapply Forall_impl; [|apply pad2_digits]. cbv beta; intros; lia. }
  apply Forall_cons; [lia|].
  eapply Forall_impl; [|apply pad2_digits]. cbv beta; intros; lia.
Qed.

Lemma parse_date (y mo d : Z) :
  0 <= y <= 9999 -> 0 <= mo <= 99 -> 0 <= d <= 99 ->
  Datetime.parse_isoformat_date
    (Datetime.pad4 y ++ 45 :: Datetime.pad2 mo ++ 45 :: Datetime.pad2 d)
  = Some (y, mo, d).
Proof.
  intros Hy Hm Hd. unfold Datetime.pad4, Datetime.pad2. cbn [app].
  unfold Datetime.parse_isoformat_date. cbv beta iota.
  change (45 =? 45) with true. cbn [andb]. cbv beta iota.
  change [48 + y / 1000 mod 10; 48 + y / 100 mod 10; 48 + y / 10 mod 10;
          48 + y mod 10] with (Datetime.pad4 y).
  change [48 + mo / 10 mod 10; 48 + mo mod 10] with (Datetime.pad2 mo).
  change [48 + d / 10 mod 10; 48 + d mod 10] with (Datetime.pad2 d).
  now rewrite parse_digits_pad4, !parse_digits_pad2 by assumption.
Qed.

(** [fromisoformat] on a date of ten characters, a separator and a time. *)
Lemma fromisoformat_parts (dstr tstr : str) (sep : Z) :
  List.length dstr = 10%nat ->
  Datetime.fromisoformat (dstr ++ sep :: tstr) =
  match Datetime.parse_isoformat_date dstr with
  | None => None
  | Some (y, mo, d) =>
      match Datetime.parse_isoformat_time tstr with
      | None => None
      | Some (h, mi, s, us, tz) =>
          if Datetime.check_fields y mo d h mi s us
          then Some (Datetime.mk_datetime y mo d h mi s us tz)
          else None
      end
  end.
Proof.
  intros H. unfold Datetime.fromisoformat.
  rewrite firstn_app, skipn_app, H, Nat.sub_diag.
  rewrite firstn_O, skipn_O, app_nil_r.
  rewrite firstn_all2, skipn_all2 by lia.
  reflexivity.
Qed.

Lemma parse_offset_text (negative : bool) (h m : Z) :
  0 <= h <= 23 -> 0 <= m <= 59 ->
  Datetime.parse_offset (if negative then 45 else 43)
    (Datetime.pad2 h ++ 58 :: Datetime.pad2 m)
  = zone_offset (Offset negative h m).
Proof.
  intros Hh Hm. unfold Datetime.parse_offset.
  rewrite parse_clock_hh_mm by lia.
  replace (List.length (Datetime.pad2 h ++ 58 :: Datetime.pad2 m)) with 5%nat
    by reflexivity.
  cbn [Nat.eqb orb].
  replace ((h * 3600 + m * 60 + 0) * 1000000 + 0 <? 86400 * 1000000) with true
    by (symmetry; apply Z.ltb_lt; lia).
  cbn [zone_offset].
  replace ((h * 3600 + m * 60 + 0) * 1000000 + 0)
    with ((h * 3600 + m * 60) * 1000000) by lia.
  now destruct negative.
Qed.

Lemma parse_time (h mi s : Z) (f : fraction) (z : zone) :
  0 <= h <= 99 -> 0 <= mi <= 99 -> 0 <= s <= 99 ->
  valid_fraction f = true -> valid_zone z = true -> z <> Zulu ->
  Datetime.parse_isoformat_time
    ((Datetime.pad2 h ++ 58 :: Datetime.pad2 mi ++ 58 :: Datetime.pad2 s
      ++ fraction_text f) ++ zone_text z)
  = Some (h, mi, s, fraction_micros f, zone_offset z).
Proof.
  intros Hh Hm Hs Hf Hz Hnz. unfold Datetime.parse_isoformat_time.
  rewrite split_offset_app
    by (eapply Forall_impl; [|apply clock_chars]; cbv beta; intros; lia).
  destruct z as [| |negative zh zm]; [| contradiction |].
  - cbn [zone_text Datetime.split_offset fst snd]. rewrite app_nil_r.
    now rewrite parse_clock by assumption.
  - cbn [valid_zone] in Hz. zbool.
    assert (Hsp : Datetime.split_offset (zone_text (Offset negative zh zm)) =
                  ([], Some (if negative then 45 else 43,
                             Datetime.pad2 zh ++ 58 :: Datetime.pad2 zm)))
      by (now destruct negative).
    rewrite Hsp. cbn [fst snd]. rewrite app_nil_r.
    rewrite parse_clock by assumption.
    now rewrite parse_offset_text by lia.
Qed.

Lemma iso_text_parts (y mo d h mi s : Z) (f : fraction) (z : zone) :
  iso_text y mo d h mi s f z =
  (Datetime.pad4 y ++ 45 :: Datetime.pad2 mo ++ 45 :: Datetime.pad2 d)
  ++ 84 :: (Datetime.pad2 h ++ 58 :: Datetime.pad2 mi ++ 58 :: Datetime.pad2 s
            ++ fraction_text f) ++ zone_text z.
Proof.
  unfold iso_text.
  repeat (rewrite <- ?app_assoc; rewrite <- ?app_comm_cons).
  reflexivity.
Qed.

(** A timestamp without the letter Z parses to the fields it states. *)
Lemma fromisoformat_iso_text (y mo d h mi s : Z) (f : fraction) (z : zone) :
  valid_date_time y mo d h mi s = true ->
  valid_fraction f = true -> valid_zone z = true -> z <> Zulu ->
  Datetime.fromisoformat (iso_text y mo d h mi s f z) =
  Some (Datetime.mk_datetime y mo d h mi s (fraction_micros f) (zone_offset z)).
Proof.
  intros Hv Hf Hz Hnz. unfold valid_date_time in Hv. zbool.
  assert (d <= 31).
  { unfold Datetime.days_in_month in *.
    repeat match goal with
           | H : context [if ?b then _ else _] |- _ => destruct b
           end; lia. }
  rewrite iso_text_parts, fromisoformat_parts by reflexivity.
  rewrite parse_date, parse_time by (assumption || lia).
  replace (Datetime.check_fields y mo d h mi s (fraction_micros f)) with true;
    [reflexivity|].
  symmetry. unfold Datetime.check_fields.
  repeat (apply andb_true_iff; split); apply Z.leb_le; try lia.
  destruct f; cbn [fraction_micros valid_fraction] in *; zbool; lia.
Qed.

(** Replacing the letter Z in a timestamp turns the designator Z into the
    offset zero and changes nothing else. *)
Lemma replace_iso_text (y mo d h mi s : Z) (f : fraction) (z : zone) :
  Py.replace (iso_text y mo d h mi s f z) (lit "Z") (lit "+00:00") =
  iso_text y mo d h mi s f
    (match z with Zulu => Offset false 0 0 | _ => z end).
Proof.
  change (lit "Z") with [90].
  rewrite !iso_text_parts.
  rewrite replace_app, replace_absent
    by (eapply Forall_impl; [|apply date_chars]; cbv beta; intros; lia).
  f_equal.
  change (84 :: ?x ++ ?y) with ((84 :: x) ++ y).
  rewrite replace_app, replace_absent
    by (apply Forall_cons; [lia|]; eapply Forall_impl; [|apply clock_chars];
        cbv beta; intros; lia).
  f_equal.
  destruct z as [| |negative zh zm]; [reflexivity..|].
  apply replace_absent. cbn [zone_text].
  apply Forall_cons; [destruct negative; lia|].
  apply Forall_app; split;
    [|apply Forall_cons; [lia|]];
    (eapply Forall_impl; [|apply pad2_digits]; cbv beta; intros; lia).
Qed.

Lemma strftime_filename (dt : Datetime.datetime) :
  Datetime.strftime dt (lit "%Y-%m-%d_%H-%M-%S") =
  Datetime.pad4 (Datetime.year dt) ++ 45 :: Datetime.pad2 (Datetime.month dt)
  ++ 45 :: Datetime.pad2 (Datetime.day dt)
  ++ 95 :: Datetime.pad2 (Datetime.hour dt)
  ++ 45 :: Datetime.pad2 (Datetime.minute dt)
  ++ 45 :: Datetime.pad2 (Datetime.second dt).
Proof. reflexivity. Qed.



(** What [parse_timestamp] does, by what the parser says. *)
Lemma parse_timestamp_cases (timestamp : str) :
  (Datetime.fromisoformat (Py.replace timestamp (lit "Z") (lit "+00:00")) = None
   /\ parse_timestamp timestamp = Raise ValueError)
  \/ (exists dt,
        Datetime.fromisoformat (Py.replace timestamp (lit "Z") (lit "+00:00"))
        = Some dt
        /\ parse_timestamp timestamp = Ok dt).
Proof.
  unfold parse_timestamp.
  destruct (Datetime.fromisoformat _) as [dt|]; [right; eauto|left; auto].
Qed.

(** A request whose timestamp does not parse is aborted before anything
    is written. *)
Lemma process_transcript_bad_timestamp
    (settings : Settings) (w : World) (request : ProcessRequest) (st : State) :
  parse_timestamp (timestamp request) = Raise ValueError ->
  exists e,
    fst (process_transcript settings w request st) = Raise e
    /\ fs (snd (process_transcript settings w request st)) = fs st.
Proof.
  intros Hp. unfold process_transcript, bind, lift.
  assert (Hr : fs (snd (get_readme_content settings st)) = fs st).
  { unfold get_readme_content, bind, get_fs, ret, raise.
    repeat break_match; reflexivity. }
  destruct (get_readme_content settings st) as [[readme|e] st1];
    cbn [fst snd] in *; [|eauto].
  assert (Hc : fs (snd (call_ai settings w (transcript request) readme
                          (folder request) st1)) = fs st1).
  { unfold call_ai, bind, http_post, ret.
    repeat break_match; reflexivity. }
  destruct (call_ai settings w (transcript request) readme (folder request) st1)
    as [[ai|e] st2]; cbn [fst snd] in *; [|rewrite Hc; eauto].
  destruct (match ai with
            | VStr r => parse_ai_response r (folder request)
            | _ => Raise AttributeError
            end) as [parsed|e]; [|cbn; rewrite Hc; eauto].
  rewrite Hp. cbn. rewrite Hc. eauto.
Qed.

(** Only the timestamp makes [process_transcript] raise [ValueError]. *)
Lemma process_transcript_value_error
    (settings : Settings) (w : World) (request : ProcessRequest) (st : State) :
  fst (process_transcript settings w request st) = Raise ValueError ->
  parse_timestamp (timestamp request) = Raise ValueError.
Proof.
  unfold process_transcript, bind, lift, ret, get_fs, put_fs.
  intros H.
  destruct (get_readme_content settings st) as [[readme|e] st1] eqn:Er.
  2:{ unfold get_readme_content, bind, get_fs, ret, raise in Er.
      repeat (break_match_in Er; try discriminate);
        cbn in H; congruence. }
  destruct (call_ai settings w (transcript request) readme (folder request) st1)
    as [[ai|e] st2] eqn:Ec.
  2:{ unfold call_ai, bind, http_post, ret in Ec.
      repeat (break_match_in Ec; try discriminate). }
  destruct ai as [| | | |response| |]; try (cbn in H; discriminate).
  destruct (parse_ai_response_shape response (folder request))
    as (a & b & c & d & Hp). rewrite Hp in H.
  destruct (parse_timestamp (timestamp request)) as [dt|e] eqn:Et.
  - exfalso. unfold create_note_content in H. rewrite Et in H.
    unfold getitem, validate_str in H.
    repeat (break_match_in H; try discriminate); cbn in H; discriminate.
  - cbn in H. congruence.
Qed.




End Timestamps.

(** ** The decoder never runs out of fuel *)
Section Fuel.

Lemma skip_ws_length (s : str) :
  (List.length (Json.skip_ws s) <= List.length s)%nat.
Proof.
  induction s as [|c t IH]; cbn [Json.skip_ws]; [lia|].
  destruct (Json.is_ws c); cbn [List.length]; lia.
Qed.

Lemma scanstring_shorter : forall (n : nat) (s acc x r : str),
  (List.length s <= n)%nat ->
  Json.scanstring s acc = Some (x, r) ->
  (List.length r < List.length s)%nat.
Proof.
  induction n as [|n IH]; intros s acc x r Hn H.
  - destruct s; [discriminate|cbn in Hn; lia].
  - destruct s as [|c t]; [discriminate|].
    cbn [Json.scanstring] in H.
    repeat (break_match_in H; try discriminate); subst;
      cbn [List.length] in *;
      try (injection H as <- <-; lia);
      try (apply IH in H; cbn [List.length] in *; lia).
Qed.

Lemma span_digits_length (s ds r : str) :
  Json.span_digits s = (ds, r) -> (List.length r <= List.length s)%nat.
Proof.
  revert ds r. induction s as [|c t IH]; intros ds r H; cbn in H.
  - injection H as <- <-. lia.
  - destruct (Json.is_digit c).
    + destruct (Json.span_digits t) as [ds' r'] eqn:E.
      injection H as <- <-. specialize (IH _ _ eq_refl). cbn; lia.
    + injection H as <- <-. lia.
Qed.

Lemma scan_frac_length (s fp r : str) :
  Json.scan_frac s = (fp, r) -> (List.length r <= List.length s)%nat.
Proof.
  unfold Json.scan_frac. intros H.
  repeat (break_match_in H; try discriminate); injection H as <- <-;
    try lia.
  match goal with
  | E : Json.span_digits _ = _ |- _ => apply span_digits_length in E
  end. cbn [List.length]. lia.
Qed.

Lemma scan_exp_length (s ep r : str) :
  Json.scan_exp s = (ep, r) -> (List.length r <= List.length s)%nat.
Proof.
  unfold Json.scan_exp. intros H.
  repeat (break_match_in H; try discriminate);
    repeat match goal with
           | E : (_, _) = (_, _) |- _ => inversion E; subst; clear E
           end; try lia;
    match goal with
    | E : Json.span_digits _ = _ |- _ => apply span_digits_length in E
    end; cbn [List.length] in *; lia.
Qed.

Lemma scan_number_shorter (s r : str) (v : value) :
  Json.scan_number s = Some (v, r) -> (List.length r < List.length s)%nat.
Proof.
  unfold Json.scan_number, Json.scan_int. intros H.
  repeat (break_match_in H; try discriminate);
    repeat match goal with
           | E : (_, _) = (_, _) |- _ => inversion E; subst; clear E
           | E : Some _ = Some _ |- _ => inversion E; subst; clear E
           end;
    repeat match goal with
           | E : Json.span_digits _ = _ |- _ => apply span_digits_length in E
           | E : Json.scan_frac _ = _ |- _ => apply scan_frac_length in E
           | E : Json.scan_exp _ = _ |- _ => apply scan_exp_length in E
           end; cbn [List.length] in *; lia.
Qed.

Lemma skipn_shorter (n : nat) (s : str) :
  s <> [] -> (List.length (skipn (S n) s) < List.length s)%nat.
Proof.
  intros H. rewrite length_skipn. destruct s; [contradiction|cbn; lia].
Qed.

Lemma scan_constant_shorter (s r : str) (v : value) :
  Json.scan_constant s = Some (v, r) -> (List.length r < List.length s)%nat.
Proof.
  unfold Json.scan_constant. intros H.
  assert (Hs : s <> []) by (intros ->; discriminate).
  repeat (break_match_in H; try discriminate);
    injection H as <- <-;
    first [ exact (skipn_shorter 3 s Hs) | exact (skipn_shorter 4 s Hs)
          | exact (skipn_shorter 2 s Hs) | exact (skipn_shorter 7 s Hs)
          | exact (skipn_shorter 8 s Hs) ].
Qed.

(** The length facts that follow from the scanning equations among the
    hypotheses. *)
Ltac scan_lengths :=
  repeat match goal with
         | E : Json.skip_ws ?x = _ |- _ =>
             let L := fresh "L" in
             pose proof (skip_ws_length x) as L; rewrite E in L; clear E
         | E : Json.scanstring _ _ = Some _ |- _ =>
             apply (scanstring_shorter _ _ _ _ _ (Nat.le_refl _)) in E
         | E : Json.scan_number _ = Some _ |- _ => apply scan_number_shorter in E
         | E : Json.scan_constant _ = Some _ |- _ => apply scan_constant_shorter in E
         end;
  cbn [List.length] in *.

Lemma scan_fuel_enough : forall fuel : nat,
  (forall s : str, (2 * List.length s < fuel)%nat ->
     Json.scan_once fuel s <> Json.Exhausted
     /\ forall v r, Json.scan_once fuel s = Json.Scanned v r ->
                    (List.length r < List.length s)%nat)
  /\ (forall (s : str) (acc : dict), (2 * List.length s < fuel)%nat ->
       Json.scan_members fuel s acc <> Json.Exhausted
       /\ forall v r, Json.scan_members fuel s acc = Json.Scanned v r ->
                      (List.length r < List.length s)%nat)
  /\ (forall (s : str) (acc : list value), (2 * List.length s + 1 < fuel)%nat ->
       Json.scan_items fuel s acc <> Json.Exhausted
       /\ forall v r, Json.scan_items fuel s acc = Json.Scanned v r ->
                      (List.length r < List.length s)%nat).
Proof.
  induction fuel as [|f (IHo & IHm & IHi)].
  - repeat split; intros; lia.
  - split; [|split].
    + intros s Hf. cbn [Json.scan_once].
      destruct s as [|c t]; [split; [discriminate|discriminate]|].
      cbn [List.length] in Hf.
      destruct (c =? 34); [|destruct (c =? 123); [|destruct (c =? 91)]].
      * destruct (Json.scanstring t []) as [[x r]|] eqn:E;
          (split; [discriminate|intros v r' H; try discriminate]).
        injection H as <- <-. scan_lengths. lia.
      * destruct (Json.skip_ws t) as [|c1 t1] eqn:E;
          [split; [discriminate|discriminate]|].
        scan_lengths.
        destruct (c1 =? 125).
        { split; [discriminate|]. intros v r H. injection H as <- <-. lia. }
        destruct (IHm (c1 :: t1) []) as [A B]; [cbn [List.length]; lia|].
        split; [exact A|]. intros v r H. apply B in H. cbn [List.length] in H. lia.
      * destruct (Json.skip_ws t) as [|c1 t1] eqn:E;
          [split; [discriminate|discriminate]|].
        scan_lengths.
        destruct (c1 =? 93).
        { split; [discriminate|]. intros v r H. injection H as <- <-. lia. }
        destruct (IHi (c1 :: t1) []) as [A B]; [cbn [List.length]; lia|].
        split; [exact A|]. intros v r H. apply B in H. cbn [List.length] in H. lia.
      * destruct (Json.scan_constant (c :: t)) as [[v0 r0]|] eqn:E.
        { split; [discriminate|]. intros v r H. injection H as <- <-.
          scan_lengths. lia. }
        destruct (Json.scan_number (c :: t)) as [[v0 r0]|] eqn:E';
          (split; [discriminate|intros v r H; try discriminate]).
        injection H as <- <-. scan_lengths. lia.
    + intros s acc Hf. cbn [Json.scan_members].
      destruct s as [|q t]; [split; discriminate|].
      cbn [List.length] in Hf.
      destruct (q =? 34); [|split; discriminate].
      destruct (Json.scanstring t []) as [[k r1]|] eqn:E1; [|split; discriminate].
      destruct (Json.skip_ws r1) as [|colon r2] eqn:E2; [split; discriminate|].
      destruct (colon =? 58); [|split; discriminate].
      scan_lengths.
      pose proof (skip_ws_length r2) as L2.
      destruct (IHo (Json.skip_ws r2)) as [A B]; [lia|].
      destruct (Json.scan_once f (Json.skip_ws r2)) as [v r3| |] eqn:E3;
        [|split; discriminate|contradiction].
      specialize (B _ _ eq_refl).
      destruct (Json.skip_ws r3) as [|d r4] eqn:E4; [split; discriminate|].
      scan_lengths.
      destruct (d =? 125).
      { split; [discriminate|]. intros v' r' H. injection H as <- <-. lia. }
      destruct (d =? 44); [|split; discriminate].
      pose proof (skip_ws_length r4) as L4.
      destruct (IHm (Json.skip_ws r4) (dict_set acc k v)) as [A' B']; [lia|].
      split; [exact A'|]. intros v' r' H. apply B' in H. lia.
    + intros s acc Hf. cbn [Json.scan_items].
      destruct (IHo s) as [A B]; [lia|].
      destruct (Json.scan_once f s) as [v r| |] eqn:E;
        [|split; discriminate|contradiction].
      specialize (B _ _ eq_refl).
      destruct (Json.skip_ws r) as [|d r1] eqn:E1; [split; discriminate|].
      scan_lengths.
      destruct (d =? 93).
      { split; [discriminate|]. intros v' r' H. injection H as <- <-. lia. }
      destruct (d =? 44); [|split; discriminate].
      pose proof (skip_ws_length r1) as L1.
      destruct (IHi (Json.skip_ws r1) (v :: acc)) as [A' B']; [lia|].
      split; [exact A'|]. intros v' r' H. apply B' in H. lia.
Qed.

(** [json_loads] answers [None] only for a text the decoder refuses. *)
Lemma json_loads_fuel (s : str) :
  Json.scan_once (S (2 * List.length (Json.skip_ws s))) (Json.skip_ws s)
  <> Json.Exhausted.
Proof. apply scan_fuel_enough. lia. Qed.

End Fuel.

(* ===================================================================== *)
(** * Further properties of the backend *)
(* ===================================================================== *)

(** ** Equality of strings and paths, reading and writing files *)
Section FileSystemFacts.

Lemma str_eqb_eq (a b : str) : Py.str_eqb a b = true <-> a = b.
Proof.
  split; [|intros ->; apply str_eqb_refl].
  revert b. induction a as [|x a IH]; intros [|y b] H; cbn in H;
    try discriminate; [reflexivity|].
  zbool. subst y. f_equal. now apply IH.
Qed.

Lemma parts_eqb_eq (a b : list str) : Fs.parts_eqb a b = true <-> a = b.
Proof.
  split; [|intros ->; apply parts_eqb_refl].
  revert b. induction a as [|x a IH]; intros [|y b] H; cbn in H;
    try discriminate; [reflexivity|].
  zbool. f_equal; [now apply str_eqb_eq|now apply IH].
Qed.

Lemma path_eqb_eq (p q : Fs.path) : Fs.path_eqb p q = true <-> p = q.
Proof.
  split; [|intros ->; apply path_eqb_refl].
  unfold Fs.path_eqb. intros H. zbool.
  destruct p as [rp pp], q as [rq pq]; cbn [Fs.root Fs.parts] in *.
  f_equal; [now apply str_eqb_eq|now apply parts_eqb_eq].
Qed.

Lemma path_eqb_neq (p q : Fs.path) : Fs.path_eqb p q = false <-> p <> q.
Proof.
  split.
  - intros H ->. rewrite path_eqb_refl in H. discriminate.
  - intros H. destruct (Fs.path_eqb p q) eqn:E; [|reflexivity].
    apply path_eqb_eq in E. contradiction.
Qed.

Lemma read_write_same (fl : list (Fs.path * str)) (p : Fs.path) (c : str) :
  Fs.read_text_in (Fs.write_text_in fl p c) p = Some c.
Proof.
  induction fl as [|[q c'] fl IH]; cbn.
  - now rewrite path_eqb_refl.
  - destruct (Fs.path_eqb p q) eqn:E; cbn; rewrite E; [reflexivity|exact IH].
Qed.

Lemma read_write_other (fl : list (Fs.path * str)) (p q : Fs.path) (c : str) :
  q <> p ->
  Fs.read_text_in (Fs.write_text_in fl p c) q = Fs.read_text_in fl q.
Proof.
  intros Hn. induction fl as [|[r c'] fl IH]; cbn.
  - now replace (Fs.path_eqb q p) with false by (symmetry; now apply path_eqb_neq).
  - destruct (Fs.path_eqb p r) eqn:E; cbn.
    + apply path_eqb_eq in E. subst r.
      now replace (Fs.path_eqb q p) with false
        by (symmetry; now apply path_eqb_neq).
    + now rewrite IH.
Qed.

Lemma write_length (fl : list (Fs.path * str)) (p : Fs.path) (c : str) :
  List.length (Fs.write_text_in fl p c) =
  if existsb (fun e => Fs.path_eqb p (fst e)) fl
  then List.length fl else S (List.length fl).
Proof.
  induction fl as [|[q c'] fl IH]; cbn; [reflexivity|].
  destruct (Fs.path_eqb p q); cbn; [reflexivity|].
  rewrite IH. now destruct (existsb _ fl).
Qed.

Lemma is_dir_add_dir_mono (f : Fs.filesystem) (p q : Fs.path) :
  Fs.is_dir f q = true -> Fs.is_dir (Fs.add_dir f p) q = true.
Proof.
  intros H. unfold Fs.add_dir. destruct (Fs.is_dir f p); [exact H|].
  unfold Fs.is_dir in *. cbn [Fs.dirs]. destruct (Fs.parts q); [reflexivity|].
  rewrite existsb_app, H. reflexivity.
Qed.

End FileSystemFacts.

(** ** The interpreter and the prose around an object *)
Section Prose.

Lemma find_at_app_absent (c : Z) (a b : str) (i : Z) :
  Forall (fun x => x <> c) a ->
  Py.find_at [c] (a ++ c :: b) i = i + Py.len a.
Proof.
  intros H. revert i. unfold Py.len.
  induction H as [|x a Hx _ IH]; intros i; cbn [app Py.find_at Py.startswith].
  - rewrite Z.eqb_refl. cbn. lia.
  - replace (c =? x) with false by (symmetry; apply Z.eqb_neq; congruence).
    cbn [andb]. rewrite IH. cbn [List.length]. lia.
Qed.

Lemma find_app_absent (c : Z) (a b : str) :
  Forall (fun x => x <> c) a -> Py.find (a ++ c :: b) [c] = Py.len a.
Proof. intros H. unfold Py.find. now rewrite find_at_app_absent. Qed.

Lemma rfind_absent (c : Z) (b : str) :
  Forall (fun x => x <> c) b -> Py.rfind b [c] = -1.
Proof.
  induction 1 as [|x b Hx _ IH]; cbn [Py.rfind Py.startswith]; [reflexivity|].
  rewrite IH. cbn.
  now replace (c =? x) with false by (symmetry; apply Z.eqb_neq; congruence).
Qed.

Lemma rfind_app_absent (c : Z) (a b : str) :
  Forall (fun x => x <> c) b -> Py.rfind (a ++ c :: b) [c] = Py.len a.
Proof.
  intros H. unfold Py.len. induction a as [|x a IH]; cbn [app Py.rfind].
  - rewrite rfind_absent by assumption. cbn [Z.leb Z.compare Py.startswith].
    now rewrite Z.eqb_refl.
  - rewrite IH.
    replace (0 <=? Z.of_nat (List.length a)) with true
      by (symmetry; apply Z.leb_le; lia).
    cbn [List.length]. lia.
Qed.

Lemma slice_whole (s : str) : Py.slice s 0 (Py.len s) = s.
Proof.
  rewrite slice_skipn_firstn by (pose proof (len_nonneg s); lia).
  cbn [Z.to_nat skipn]. rewrite Z.sub_0_r. unfold Py.len.
  rewrite Nat2Z.id. apply firstn_all.
Qed.

Lemma slice_middle (a m b : str) :
  Py.slice (a ++ m ++ b) (Py.len a) (Py.len a + Py.len m) = m.
Proof.
  unfold Py.len. rewrite slice_skipn_firstn.
  - rewrite Nat2Z.id, skipn_app, skipn_all, Nat.sub_diag. cbn [app skipn].
    replace (Z.to_nat (Z.of_nat (List.length a) + Z.of_nat (List.length m)
                       - Z.of_nat (List.length a))) with (List.length m) by lia.
    rewrite firstn_app, firstn_all, Nat.sub_diag. cbn [firstn].
    apply app_nil_r.
  - lia.
  - unfold Py.len. rewrite !length_app. lia.
Qed.

(** What [parse_ai_response] does with a text whose first opening brace
    and last closing brace enclose [span]. *)
Lemma parse_ai_response_of_span (a span b default_folder : str) :
  Py.find (a ++ span ++ b) (lit "{") = Py.len a ->
  Py.rfind (a ++ span ++ b) (lit "}") + 1 = Py.len a + Py.len span ->
  span <> [] ->
  parse_ai_response (a ++ span ++ b) default_folder =
  match Json.json_loads span with
  | Some (VDict data) =>
      Ok (dict_of
            [(lit "folder", dict_get data (lit "folder") (VStr default_folder));
             (lit "title", dict_get data (lit "title") (VStr (lit "Untitled")));
             (lit "summary", dict_get data (lit "summary") (VStr []));
             (lit "slug", dict_get data (lit "slug") (VStr (lit "note")))])
  | Some _ => Raise AttributeError
  | None => Ok (default_result default_folder)
  end.
Proof.
  intros Hf Hr Hs. unfold parse_ai_response. rewrite Hf, Hr, slice_middle.
  replace ((0 <=? Py.len a) && (Py.len a <? Py.len a + Py.len span)) with true;
    [reflexivity|].
  symmetry. apply andb_true_iff. unfold Py.len.
  split; [apply Z.leb_le; lia|apply Z.ltb_lt].
  destruct span; [contradiction|cbn [List.length]; lia].
Qed.

Lemma wrapped_text (prefix body suffix : str) :
  prefix ++ (123 :: body ++ [125]) ++ suffix
  = (prefix ++ 123 :: body) ++ 125 :: suffix.
Proof. cbn [app]. now rewrite <- !app_assoc. Qed.

Lemma find_wrapped (prefix body suffix : str) :
  Forall (fun c => c <> 123) prefix ->
  Py.find (prefix ++ (123 :: body ++ [125]) ++ suffix) (lit "{") = Py.len prefix.
Proof.
  intros H.
  exact (find_app_absent 123 prefix ((body ++ [125]) ++ suffix) H).
Qed.

Lemma rfind_wrapped (prefix body suffix : str) :
  Forall (fun c => c <> 125) suffix ->
  Py.rfind (prefix ++ (123 :: body ++ [125]) ++ suffix) (lit "}") + 1
  = Py.len prefix + Py.len (123 :: body ++ [125]).
Proof.
  intros H.
  apply eq_trans with (y := Py.rfind ((prefix ++ 123 :: body) ++ 125 :: suffix) [125] + 1).
  - apply (f_equal (fun t => Py.rfind t [125] + 1)). apply wrapped_text.
  - apply eq_trans with (y := Py.len (prefix ++ 123 :: body) + 1).
    + apply (f_equal (fun z => z + 1)).
      exact (rfind_app_absent 125 (prefix ++ 123 :: body) suffix H).
    + unfold Py.len. cbn [List.length].
      rewrite !length_app. cbn [List.length]. lia.
Qed.

(** X1.  Text before the first opening brace and after the last closing
    brace does not matter: a response that wraps an object in prose without
    braces is interpreted as the object alone is. *)
Theorem parse_ai_response_ignores_prose
    (prefix body suffix default_folder : str) :
  Forall (fun c => c <> 123) prefix ->
  Forall (fun c => c <> 125) suffix ->
  parse_ai_response (prefix ++ (123 :: body ++ [125]) ++ suffix) default_folder
  = parse_ai_response (123 :: body ++ [125]) default_folder.
Proof.
  intros Hp Hs.
  rewrite parse_ai_response_of_span;
    [|now apply find_wrapped|now apply rfind_wrapped|discriminate].
  symmetry.
  apply eq_trans
    with (y := parse_ai_response ([] ++ (123 :: body ++ [125]) ++ []) default_folder).
  - apply (f_equal (fun t => parse_ai_response t default_folder)).
    cbn [app]. now rewrite app_nil_r.
  - apply parse_ai_response_of_span; [| |discriminate].
    + apply find_wrapped. constructor.
    + apply rfind_wrapped. constructor.
Qed.

Lemma parse_ai_response_ignores_prose_witness :
  parse_ai_response
    (lit "Sure! " ++ (123 :: quoted "'folder':'tasks'" ++ [125])
     ++ lit " Hope that helps.") (lit "inbox")
  = parse_ai_response (123 :: quoted "'folder':'tasks'" ++ [125]) (lit "inbox").
Proof.
  apply (parse_ai_response_ignores_prose (lit "Sure! ")
           (quoted "'folder':'tasks'") (lit " Hope that helps.") (lit "inbox"));
    repeat constructor; discriminate.
Defined.

End Prose.

(** ** One run of [process_transcript] *)
Section Run.

Lemma read_text_is_file (f : Fs.filesystem) (p : Fs.path) :
  Fs.is_file f p = true -> exists c, Fs.read_text f p = Some c.
Proof.
  unfold Fs.is_file, Fs.read_text. induction (Fs.files f) as [|[q c] fl IH]; cbn.
  - discriminate.
  - destruct (Fs.path_eqb p q); [eauto|exact IH].
Qed.

(** [get_readme_content] answers unless the README is a directory, and
    changes nothing. *)
Lemma get_readme_content_ok (settings : Settings) (st : State) :
  Fs.is_dir (fs st)
    (Fs.joinpath (Fs.Path (data_dir settings)) (lit "README.md")) = false ->
  exists readme, get_readme_content settings st = (Ok readme, st).
Proof.
  intros H. unfold get_readme_content, bind, get_fs, ret, raise.
  unfold Fs.exists_. rewrite H. cbn [orb].
  destruct (Fs.is_file _ _) eqn:E; [|eauto].
  destruct (read_text_is_file _ _ E) as [c ->]. eauto.
Qed.

(** What one run does, from what the classifier answered and how the
    answer was interpreted. *)
Lemma process_transcript_run
    (settings : Settings) (w : World) (request : ProcessRequest) (st st2 : State)
    (readme response : str) (pf pt ps psl : value) (dt : Datetime.datetime) :
  get_readme_content settings st = (Ok readme, st) ->
  call_ai settings w (transcript request) readme (folder request) st
    = (Ok (VStr response), st2) ->
  parse_ai_response response (folder request)
    = Ok [(lit "folder", pf); (lit "title", pt); (lit "summary", ps);
          (lit "slug", psl)] ->
  parse_timestamp (timestamp request) = Ok dt ->
  exists body,
    create_note_content w (transcript request) (timestamp request) pt pf ps
      = Ok body
    /\ process_transcript settings w request st =
       match pf with
       | VStr f =>
           let folder_path := Fs.joinpath (Fs.Path (data_dir settings)) f in
           let file_path := Fs.joinpath folder_path (filename_text w dt psl) in
           (match ps, pt with
            | VStr s, VStr t =>
                Ok (mk_process_response (Py.slice_to (uuid4 w) 8) s f
                      (Fs.path_str file_path) t)
            | _, _ => Raise ValidationError
            end,
            mk_state (Fs.write_text (Fs.mkdir (fs st2) folder_path) file_path body)
              (sent st2))
       | _ => (Raise TypeError, st2)
       end.
Proof.
  intros Hr Hc Hp Ht.
  assert (Hb : exists body,
             create_note_content w (transcript request) (timestamp request)
               pt pf ps = Ok body)
    by (unfold create_note_content; rewrite Ht; eauto).
  destruct Hb as [body Hb]. exists body. split; [exact Hb|].
  unfold process_transcript, bind, lift, ret, get_fs, put_fs.
  rewrite Hr, Hc, Hp, Ht.
  change (getitem _ (lit "slug")) with (Ok psl : result value).
  change (getitem _ (lit "folder")) with (Ok pf : result value).
  change (getitem _ (lit "title")) with (Ok pt : result value).
  cbv beta iota.
  destruct pf as [| | | |f| |]; try reflexivity.
  change (dict_get _ (lit "summary") (VStr [])) with ps.
  rewrite Hb.
  change (dict_get _ (lit "summary") _) with ps.
  cbn [fs sent].
  destruct ps as [| | | |s| |]; try reflexivity.
  destruct pt as [| | | |t| |]; reflexivity.
Qed.

End Run.

(** ** The classifier client and the fallback pipeline *)
Section Fallback.

(** X2.  [call_ai] never raises and never touches the file system.
    Without an API key it sends nothing; with one it sends exactly one
    request, carrying the key as bearer token and the transcript as the
    user's message. *)
Theorem call_ai_never_raises
    (settings : Settings) (w : World)
    (text readme_content default_folder : str) (st : State) :
  exists v st',
    call_ai settings w text readme_content default_folder st = (Ok v, st')
    /\ fs st' = fs st
    /\ (nano_gpt_api_key settings = [] -> sent st' = sent st)
    /\ (nano_gpt_api_key settings <> [] ->
        exists r,
          sent st' = sent st ++ [r]
          /\ req_url r = nano_gpt_api_url settings
          /\ req_authorization r = lit "Bearer " ++ nano_gpt_api_key settings
          /\ req_user r = lit "Transcript: " ++ text).
Proof.
  unfold call_ai.
  destruct (nano_gpt_api_key settings) as [|c k] eqn:Ek; cbn [Py.str_eqb].
  - do 2 eexists. split; [reflexivity|]. repeat split; congruence.
  - unfold bind, http_post, ret.
    match goal with
    | |- context [post w ?r] => set (request := r)
    end.
    assert (Hs : forall v,
               exists (v' : value) (st' : State),
                 (Ok v, mk_state (fs st) (sent st ++ [request])) = (Ok v', st')
                 /\ fs st' = fs st
                 /\ (c :: k = [] -> sent st' = sent st)
                 /\ (c :: k <> [] ->
                     exists r,
                       sent st' = sent st ++ [r]
                       /\ req_url r = nano_gpt_api_url settings
                       /\ req_authorization r = lit "Bearer " ++ c :: k
                       /\ req_user r = lit "Transcript: " ++ text)).
    { intros v. do 2 eexists. split; [reflexivity|]. cbn [fs sent].
      split; [reflexivity|]. split; [discriminate|].
      intros _. exists request. repeat split. }
    destruct (post w request) as [code body|]; [|apply Hs].
    destruct (code =? 200); [|apply Hs].
    destruct (Json.json_loads body) as [data|]; [|apply Hs].
    destruct (message_content data); apply Hs.
Qed.

Lemma call_ai_fs (settings : Settings) (w : World)
    (text readme_content default_folder : str) (st st' : State) (v : value) :
  call_ai settings w text readme_content default_folder st = (Ok v, st') ->
  fs st' = fs st.
Proof.
  unfold call_ai, bind, http_post, ret. intros H.
  repeat (break_match_in H; try discriminate);
    repeat match goal with
           | E : (_, _) = (_, _) |- _ => inversion E; subst; clear E
           end; reflexivity.
Qed.

(** Interpreting the text [call_ai] builds in its fallbacks. *)
Lemma parse_ai_response_dumps_four (a b c d default_folder : str) :
  scalar_text a -> scalar_text b -> scalar_text c -> scalar_text d ->
  parse_ai_response
    (Json.json_dumps
       [(lit "folder", a); (lit "title", b); (lit "summary", c); (lit "slug", d)])
    default_folder
  = Ok [(lit "folder", VStr a); (lit "title", VStr b);
        (lit "summary", VStr c); (lit "slug", VStr d)].
Proof.
  intros Ha Hb Hc Hd.
  pose proof (json_loads_dumps_four a b c d Ha Hb Hc Hd) as E.
  set (items := [(lit "folder", a); (lit "title", b); (lit "summary", c);
                 (lit "slug", d)]) in *.
  set (body := Json.join (lit ", ") (map Json.item_text items)).
  apply eq_trans
    with (y := parse_ai_response ([] ++ (123 :: body ++ [125]) ++ []) default_folder).
  - apply (f_equal (fun t => parse_ai_response t default_folder)).
    unfold Json.json_dumps. fold body. cbn [app]. now rewrite app_nil_r.
  - rewrite parse_ai_response_of_span;
      [|apply find_wrapped; constructor|apply rfind_wrapped; constructor
       |discriminate].
    match goal with
    | |- match ?x with _ => _ end = _ =>
        replace x with (Some (VDict [(lit "folder", VStr a); (lit "title", VStr b);
                                     (lit "summary", VStr c); (lit "slug", VStr d)]))
          by (symmetry; exact E)
    end.
    reflexivity.
Qed.

(** A run whose classifier step gave one of the fallback texts. *)
Lemma process_transcript_fallback_run
    (settings : Settings) (w : World) (request : ProcessRequest) (st st2 : State)
    (readme title : str) (dt : Datetime.datetime) :
  get_readme_content settings st = (Ok readme, st) ->
  call_ai settings w (transcript request) readme (folder request) st
    = (Ok (VStr (Json.json_dumps
                   [(lit "folder", folder request); (lit "title", title);
                    (lit "summary", firstn 100 (transcript request));
                    (lit "slug", lit "note")])), st2) ->
  scalar_text (transcript request) -> scalar_text (folder request) ->
  scalar_text title ->
  parse_timestamp (timestamp request) = Ok dt ->
  let folder_path := Fs.joinpath (Fs.Path (data_dir settings)) (folder request) in
  let file_path :=
    Fs.joinpath folder_path (filename_text w dt (VStr (lit "note"))) in
  exists body,
    create_note_content w (transcript request) (timestamp request)
      (VStr title) (VStr (folder request))
      (VStr (firstn 100 (transcript request))) = Ok body
    /\ process_transcript settings w request st =
       (Ok (mk_process_response (Py.slice_to (uuid4 w) 8)
              (firstn 100 (transcript request)) (folder request)
              (Fs.path_str file_path) title),
        mk_state (Fs.write_text (Fs.mkdir (fs st2) folder_path) file_path body)
          (sent st2)).
Proof.
  intros Hr Hc Ht Hf Hti Hp folder_path file_path.
  destruct (process_transcript_run settings w request st st2 readme _
              (VStr (folder request)) (VStr title)
              (VStr (firstn 100 (transcript request))) (VStr (lit "note")) dt
              Hr Hc) as (body & Hb & Hrun).
  - apply parse_ai_response_dumps_four; try assumption.
    + now apply scalar_text_firstn.
    + apply scalar_text_lit_ascii; reflexivity.
  - exact Hp.
  - exists body. split; [exact Hb|exact Hrun].
Qed.





End Fallback.

(** ** What a run of [process_transcript] leaves behind *)
Section Persist.

Lemma get_readme_content_state (settings : Settings) (st : State) :
  snd (get_readme_content settings st) = st.
Proof.
  unfold get_readme_content, bind, get_fs, ret, raise.
  repeat break_match; reflexivity.
Qed.

(** A run either stops before anything is written, or reaches the
    composer with an interpreted answer and a parsed timestamp. *)
Lemma process_transcript_inv
    (settings : Settings) (w : World) (request : ProcessRequest) (st : State) :
  (exists e st',
      process_transcript settings w request st = (Raise e, st')
      /\ fs st' = fs st)
  \/ (exists readme response st2 pf pt ps psl dt,
        get_readme_content settings st = (Ok readme, st)
        /\ call_ai settings w (transcript request) readme (folder request) st
           = (Ok (VStr response), st2)
        /\ fs st2 = fs st
        /\ parse_ai_response response (folder request)
           = Ok [(lit "folder", pf); (lit "title", pt); (lit "summary", ps);
                 (lit "slug", psl)]
        /\ parse_timestamp (timestamp request) = Ok dt).
Proof.
  pose proof (get_readme_content_state settings st) as Hs.
  destruct (get_readme_content settings st) as [[readme|e] st1] eqn:Hr;
    cbn [snd] in Hs; subst st1.
  2:{ left. exists e, st. split; [|reflexivity].
      unfold process_transcript, bind. now rewrite Hr. }
  destruct (call_ai settings w (transcript request) readme (folder request) st)
    as [[ai|e] st2] eqn:Hc.
  2:{ exfalso. unfold call_ai, bind, http_post, ret in Hc.
      repeat (break_match_in Hc; try discriminate). }
  pose proof (call_ai_fs _ _ _ _ _ _ _ _ Hc) as Hfs.
  destruct ai as [| | | |response| |];
    try (left; exists AttributeError, st2; split; [|exact Hfs];
         unfold process_transcript, bind, lift; now rewrite Hr, Hc).
  destruct (parse_ai_response_shape response (folder request))
    as (pf & pt & ps & psl & Hp).
  destruct (parse_timestamp (timestamp request)) as [dt|e] eqn:Ht.
  - right. exists readme, response, st2, pf, pt, ps, psl, dt. auto.
  - left. exists e, st2. split; [|exact Hfs].
    unfold process_transcript, bind, lift. now rewrite Hr, Hc, Hp, Ht.
Qed.

Lemma read_text_write_text (f : Fs.filesystem) (p : Fs.path) (c : str) :
  Fs.read_text (Fs.write_text f p c) p = Some c.
Proof. apply read_write_same. Qed.

Lemma is_dir_write_text (f : Fs.filesystem) (p q : Fs.path) (c : str) :
  Fs.is_dir (Fs.write_text f p c) q = Fs.is_dir f q.
Proof. reflexivity. Qed.

(** X5.  When [process_transcript] returns a record, the note is on disk:
    the returned path is the path, under the data directory and the
    returned folder, of a file that now holds the title, the date line,
    the folder, the verbatim transcript between two separators and the
    signature; and the folder exists as a directory. *)
Theorem process_transcript_persists
    (settings : Settings) (w : World) (request : ProcessRequest)
    (st st' : State) (r : ProcessResponse) :
  process_transcript settings w request st = (Ok r, st') ->
  exists name_ date,
    let folder_path := Fs.joinpath (Fs.Path (data_dir settings)) (resp_folder r) in
    let file_path := Fs.joinpath folder_path name_ in
    resp_file_path r = Fs.path_str file_path
    /\ Fs.is_dir (fs st') folder_path = true
    /\ Fs.read_text (fs st') file_path =
       Some (lit "# " ++ resp_title r ++ lit "

**Date:** " ++ date ++ lit "
**Folder:** " ++ resp_folder r ++ lit "

---

" ++ transcript request ++ lit "

---

*Captured with Cortex*
").
Proof.
  intros H.
  destruct (process_transcript_inv settings w request st)
    as [(e & st1 & He & _)|(readme & response & st2 & pf & pt & ps & psl & dt
                            & Hr & Hc & Hfs & Hp & Ht)];
    [congruence|].
  destruct (process_transcript_run settings w request st st2 readme response
              pf pt ps psl dt Hr Hc Hp Ht) as (body & Hb & Hrun).
  rewrite Hrun in H.
  destruct pf as [| | | |f| |]; try discriminate.
  destruct ps as [| | | |s| |]; try discriminate.
  destruct pt as [| | | |t| |]; try discriminate.
  cbv zeta in H. injection H as <- <-. cbn [resp_folder resp_file_path resp_title fs].
  unfold create_note_content in Hb. rewrite Ht in Hb. injection Hb as <-.
  exists (filename_text w dt psl),
         (Datetime.strftime dt (lit "%B %d, %Y at %I:%M %p")).
  cbv zeta. split; [reflexivity|]. split.
  - rewrite is_dir_write_text. apply is_dir_add_dir.
  - rewrite read_text_write_text. reflexivity.
Qed.

Lemma process_transcript_persists_witness :
  exists r st',
    process_transcript (sample_settings []) unreachable_world
      (mk_process_request (lit "buy milk") (lit "inbox")
         (lit "2024-01-15T10:30:00Z")) sample_state = (Ok r, st')
    /\ exists name_ date,
        resp_file_path r =
        Fs.path_str
          (Fs.joinpath
             (Fs.joinpath (Fs.Path (data_dir (sample_settings []))) (resp_folder r))
             name_)
        /\ Fs.is_dir (fs st')
             (Fs.joinpath (Fs.Path (data_dir (sample_settings []))) (resp_folder r))
           = true
        /\ Fs.read_text (fs st')
             (Fs.joinpath
                (Fs.joinpath (Fs.Path (data_dir (sample_settings [])))
                   (resp_folder r)) name_) =
           Some (lit "# " ++ resp_title r ++ lit "

**Date:** " ++ date ++ lit "
**Folder:** " ++ resp_folder r ++ lit "

---

" ++ lit "buy milk" ++ lit "

---

*Captured with Cortex*
").
Proof.
  destruct (process_transcript (sample_settings []) unreachable_world
              (mk_process_request (lit "buy milk") (lit "inbox")
                 (lit "2024-01-15T10:30:00Z")) sample_state)
    as [[r|e] st'] eqn:E; [|vm_compute in E; discriminate].
  exists r, st'. split; [reflexivity|].
  exact (process_transcript_persists _ _ _ _ _ _ E).
Defined.

(** X6.  When the classifier's answer gives a folder that is not a string
    (null, a number, a list), the request fails with [TypeError] where the
    folder path is built, after the classifier was asked and before
    anything is written. *)
Theorem process_transcript_folder_not_text
    (settings : Settings) (w : World) (request : ProcessRequest) (st st2 : State)
    (readme response : str) (parsed : dict) (v : value)
    (dt : Datetime.datetime) :
  get_readme_content settings st = (Ok readme, st) ->
  call_ai settings w (transcript request) readme (folder request) st
    = (Ok (VStr response), st2) ->
  parse_ai_response response (folder request) = Ok parsed ->
  dict_lookup parsed (lit "folder") = Some v ->
  (forall s, v <> VStr s) ->
  parse_timestamp (timestamp request) = Ok dt ->
  process_transcript settings w request st = (Raise TypeError, st2)
  /\ fs st2 = fs st.
Proof.
  intros Hr Hc Hp Hl Hv Ht.
  destruct (parse_ai_response_shape response (folder request))
    as (pf & pt & ps & psl & Hp').
  assert (parsed = [(lit "folder", pf); (lit "title", pt); (lit "summary", ps);
                    (lit "slug", psl)]) as -> by congruence.
  assert (pf = v) as -> by (cbn in Hl; congruence).
  destruct (process_transcript_run settings w request st st2 readme response
              v pt ps psl dt Hr Hc Hp Ht) as (body & _ & Hrun).
  split; [|eapply call_ai_fs; eassumption].
  rewrite Hrun. destruct v; try reflexivity. now contradiction (Hv s).
Qed.

Lemma process_transcript_folder_not_text_witness :
  fst (process_transcript (sample_settings (lit "sk-test"))
         (answering_world (quoted "{'folder': null, 'title': 'Milk'}"))
         (mk_process_request (lit "buy milk") (lit "inbox")
            (lit "2024-01-15T10:30:00Z")) sample_state)
  = Raise TypeError.
Proof.
  refine (f_equal fst
            (proj1 (process_transcript_folder_not_text
                      (sample_settings (lit "sk-test"))
                      (answering_world (quoted "{'folder': null, 'title': 'Milk'}"))
                      (mk_process_request (lit "buy milk") (lit "inbox")
                         (lit "2024-01-15T10:30:00Z"))
                      sample_state
                      (snd (call_ai (sample_settings (lit "sk-test"))
                              (answering_world
                                 (quoted "{'folder': null, 'title': 'Milk'}"))
                              (lit "buy milk") [] (lit "inbox") sample_state))
                      [] (quoted "{'folder': null, 'title': 'Milk'}")
                      [(lit "folder", VNone); (lit "title", VStr (lit "Milk"));
                       (lit "summary", VStr []); (lit "slug", VStr (lit "note"))]
                      VNone
                      (Datetime.mk_datetime 2024 1 15 10 30 0 0 (Some 0))
                      _ _ _ _ _ _)));
    try (vm_compute; reflexivity).
  intros s. discriminate.
Defined.



(** X8.  Whatever a run of [process_transcript] does, it removes no file
    and no directory, and the text of at most one file is new or changed:
    every other path reads as before. *)
Theorem process_transcript_touches_one_file
    (settings : Settings) (w : World) (request : ProcessRequest) (st : State) :
  let st' := snd (process_transcript settings w request st) in
  (forall q, Fs.is_dir (fs st) q = true -> Fs.is_dir (fs st') q = true)
  /\ (forall q c, Fs.read_text (fs st) q = Some c ->
                 exists c', Fs.read_text (fs st') q = Some c')
  /\ (exists p, forall q, q <> p ->
                 Fs.read_text (fs st') q = Fs.read_text (fs st) q)
  /\ (List.length (Fs.files (fs st')) <= S (List.length (Fs.files (fs st))))%nat.
Proof.
  intros st'. subst st'.
  assert (Same : forall f0 : Fs.filesystem,
             f0 = fs st ->
             (forall q, Fs.is_dir (fs st) q = true -> Fs.is_dir f0 q = true)
             /\ (forall q c, Fs.read_text (fs st) q = Some c ->
                            exists c', Fs.read_text f0 q = Some c')
             /\ (exists p, forall q, q <> p ->
                            Fs.read_text f0 q = Fs.read_text (fs st) q)
             /\ (List.length (Fs.files f0) <= S (List.length (Fs.files (fs st))))%nat).
  { intros f0 ->. split; [auto|]. split; [eauto|].
    split; [exists (Fs.mk_path [] []); reflexivity|lia]. }
  destruct (process_transcript_inv settings w request st)
    as [(e & st1 & He & Hfs)|(readme & response & st2 & pf & pt & ps & psl & dt
                              & Hr & Hc & Hfs & Hp & Ht)].
  - rewrite He. cbn [snd]. now apply Same.
  - destruct (process_transcript_run settings w request st st2 readme response
                pf pt ps psl dt Hr Hc Hp Ht) as (body & _ & Hrun).
    rewrite Hrun.
    destruct pf as [| | | |f| |]; try (cbn [snd]; now apply Same).
    cbv zeta. cbn [snd fs]. rewrite Hfs.
    set (fp := Fs.joinpath (Fs.Path (data_dir settings)) f).
    set (p := Fs.joinpath fp (filename_text w dt psl)).
    split; [|split; [|split]].
    + intros q Hq. rewrite is_dir_write_text.
      now apply is_dir_add_dir_mono.
    + intros q c Hq. destruct (Fs.path_eqb q p) eqn:E.
      * apply path_eqb_eq in E. subst q.
        rewrite read_text_write_text. eauto.
      * apply path_eqb_neq in E. unfold Fs.read_text, Fs.write_text.
        cbn [Fs.files]. rewrite read_write_other by assumption.
        unfold Fs.mkdir. rewrite files_add_dir. eauto.
    + exists p. intros q Hq. unfold Fs.read_text, Fs.write_text.
      cbn [Fs.files]. rewrite read_write_other by assumption.
      unfold Fs.mkdir. now rewrite files_add_dir.
    + unfold Fs.write_text. cbn [Fs.files]. rewrite write_length.
      unfold Fs.mkdir. rewrite files_add_dir.
      destruct (existsb _ _); lia.
Qed.

End Persist.

(** ** Two notes of the same second *)
Section Collision.

Lemma is_dir_add_dir_other (f : Fs.filesystem) (p q : Fs.path) :
  p <> q -> Fs.is_dir (Fs.add_dir f p) q = Fs.is_dir f q.
Proof.
  intros Hn. unfold Fs.add_dir. destruct (Fs.is_dir f p); [reflexivity|].
  unfold Fs.is_dir. cbn [Fs.dirs]. destruct (Fs.parts q); [reflexivity|].
  rewrite existsb_app. cbn [existsb].
  replace (Fs.path_eqb q p) with false
    by (symmetry; apply path_eqb_neq; congruence).
  now rewrite !orb_false_r.
Qed.

Lemma written_is_file (fl : list (Fs.path * str)) (p : Fs.path) (c : str) :
  existsb (fun e => Fs.path_eqb p (fst e)) (Fs.write_text_in fl p c) = true.
Proof.
  induction fl as [|[q c'] fl IH]; cbn.
  - now rewrite path_eqb_refl.
  - destruct (Fs.path_eqb p q) eqn:E; cbn; rewrite E; [reflexivity|exact IH].
Qed.



End Collision.

(** ** Creating a folder twice *)
Section CreateTwice.

Lemma lower_char_spec (c : Z) :
  (Py.lower_char c = c + 32
   /\ (65 <= c <= 90 \/ (192 <= c <= 222 /\ c <> 215)))
  \/ (Py.lower_char c = c
      /\ ~ (65 <= c <= 90 \/ (192 <= c <= 222 /\ c <> 215))).
Proof.
  unfold Py.lower_char.
  destruct (Z.leb_spec 65 c), (Z.leb_spec c 90), (Z.leb_spec 192 c),
    (Z.leb_spec c 222), (Z.eqb_spec c 215); cbn [andb orb negb];
    (left; split; [reflexivity|lia]) || (right; split; [reflexivity|lia]).
Qed.

Lemma normalize_char_idem (c : Z) :
  let h := fun c => if Py.lower_char c =? 32 then 45 else Py.lower_char c in
  h (h c) = h c.
Proof.
  cbv zeta.
  set (v := if Py.lower_char c =? 32 then 45 else Py.lower_char c).
  assert (Hv : v = 45 \/ (v = Py.lower_char c /\ Py.lower_char c <> 32)).
  { subst v. destruct (Z.eqb_spec (Py.lower_char c) 32); auto. }
  clearbody v.
  destruct (lower_char_spec v) as [[-> H]|[-> H]];
    [destruct (Z.eqb_spec (v + 32) 32)|destruct (Z.eqb_spec v 32)];
    destruct Hv as [Hv|[Hv Hn]];
    destruct (lower_char_spec c) as [[Ec Hc]|[Ec Hc]]; lia.
Qed.

Lemma normalize_idem (s : str) :
  let n := fun s => map (fun c => if c =? 32 then 45 else c) (map Py.lower_char s) in
  n (n s) = n s.
Proof.
  cbv beta zeta. rewrite !map_map.
  apply map_ext. intros c. exact (normalize_char_idem c).
Qed.



End CreateTwice.

(** ** Startup *)
Section Startup.

Lemma add_dir_noop (f : Fs.filesystem) (p : Fs.path) :
  Fs.is_dir f p = true -> Fs.add_dir f p = f.
Proof. intros H. unfold Fs.add_dir. now rewrite H. Qed.

Lemma fold_add_dir_noop (l : list Fs.path) (f : Fs.filesystem) :
  (forall p, In p l -> Fs.is_dir f p = true) ->
  fold_left Fs.add_dir l f = f.
Proof.
  induction l as [|p t IH]; intros H; cbn [fold_left]; [reflexivity|].
  rewrite add_dir_noop by (apply H; now left).
  apply IH. intros q Hq. apply H. now right.
Qed.

Lemma fold_add_dir_mono (l : list Fs.path) (f : Fs.filesystem) (q : Fs.path) :
  Fs.is_dir f q = true -> Fs.is_dir (fold_left Fs.add_dir l f) q = true.
Proof.
  revert f. induction l as [|p t IH]; intros f H; cbn [fold_left]; [exact H|].
  apply IH. now apply is_dir_add_dir_mono.
Qed.

Lemma fold_add_dir_in (l : list Fs.path) (f : Fs.filesystem) (q : Fs.path) :
  In q l -> Fs.is_dir (fold_left Fs.add_dir l f) q = true.
Proof.
  revert f. induction l as [|p t IH]; intros f H; [destruct H|].
  cbn [fold_left]. destruct H as [->|H].
  - apply fold_add_dir_mono, is_dir_add_dir.
  - now apply IH.
Qed.

Lemma fold_add_dir_other (l : list Fs.path) (f : Fs.filesystem) (q : Fs.path) :
  ~ In q l -> Fs.is_dir (fold_left Fs.add_dir l f) q = Fs.is_dir f q.
Proof.
  revert f. induction l as [|p t IH]; intros f H; cbn [fold_left]; [reflexivity|].
  rewrite IH by (intros C; apply H; now right).
  apply is_dir_add_dir_other. intros ->. apply H. now left.
Qed.

Lemma files_fold_add_dir (l : list Fs.path) (f : Fs.filesystem) :
  Fs.files (fold_left Fs.add_dir l f) = Fs.files f.
Proof.
  revert f. induction l as [|p t IH]; intros f; cbn [fold_left]; [reflexivity|].
  now rewrite IH, files_add_dir.
Qed.

(** What [ensure_directories] leaves behind. *)
Lemma ensure_directories_run (settings : Settings) (st : State) :
  let readme_path :=
    Fs.joinpath (Fs.Path (data_dir settings)) (lit "README.md") in
  let made := fold_left Fs.add_dir (startup_dirs settings) (fs st) in
  ensure_directories settings st
  = (Ok tt,
     mk_state (if Fs.exists_ made readme_path then made
               else Fs.write_text made readme_path default_readme)
       (sent st)).
Proof.
  cbv zeta. unfold startup_dirs. rewrite fold_left_app. cbn [fold_left map default_folders].
  unfold ensure_directories, create_default_readme, default_folders, for_each.
  unfold bind, get_fs, put_fs, ret, Fs.mkdir_parents, Fs.mkdir.
  cbn [fs sent].
  destruct (Fs.exists_ _ _); reflexivity.
Qed.

Lemma read_text_some_is_file (fl : list (Fs.path * str)) (p : Fs.path) :
  existsb (fun e => Fs.path_eqb p (fst e)) fl = false ->
  Fs.read_text_in fl p = None.
Proof.
  induction fl as [|[q c] t IH]; cbn [existsb Fs.read_text_in fst]; intros H;
    [reflexivity|].
  apply orb_false_iff in H. destruct H as [H1 H2]. rewrite H1. now apply IH.
Qed.

Lemma prefixes_shorter (ps x : list str) :
  In x (Fs.prefixes ps) -> (List.length x < List.length ps)%nat.
Proof.
  revert x. induction ps as [|y t IH]; intros x H; [destruct H|].
  cbn [Fs.prefixes] in H. destruct H as [<-|H]; [cbn; lia|].
  apply in_map_iff in H. destruct H as [z [<- Hz]].
  apply IH in Hz. cbn [List.length]. lia.
Qed.

Lemma ancestors_shorter (p q : Fs.path) :
  In q (Fs.ancestors p) ->
  (List.length (Fs.parts q) < List.length (Fs.parts p))%nat.
Proof.
  unfold Fs.ancestors. intros H. apply in_map_iff in H.
  destruct H as [x [<- Hx]]. cbn [Fs.parts].
  apply prefixes_shorter.
  destruct (Fs.prefixes (Fs.parts p)); [destruct Hx|now right].
Qed.

(** The README is none of the directories made at startup. *)
Lemma readme_not_startup_dir (settings : Settings) :
  ~ In (Fs.joinpath (Fs.Path (data_dir settings)) (lit "README.md"))
      (startup_dirs settings).
Proof.
  unfold startup_dirs. cbv zeta.
  set (data_path := Fs.Path (data_dir settings)).
  assert (E : Fs.joinpath data_path (lit "README.md")
              = Fs.mk_path (Fs.root data_path)
                  (Fs.parts data_path ++ [lit "README.md"])) by reflexivity.
  rewrite E. clear E. intros H. apply in_app_iff in H.
  destruct H as [H|[H|H]].
  - apply ancestors_shorter in H. cbn [Fs.parts] in H.
    rewrite length_app in H. cbn [List.length] in H. lia.
  - apply (f_equal (fun p => List.length (Fs.parts p))) in H.
    cbn [Fs.parts] in H. rewrite length_app in H. cbn [List.length] in H. lia.
  - cbn [map default_folders In] in H.
    repeat (destruct H as [H|H];
            [apply (f_equal Fs.parts) in H; cbn [Fs.parts] in H;
             apply app_inv_head in H; vm_compute in H; discriminate|]).
    destruct H.
Qed.

(** X11.  Startup leaves the data directory, the directories above it
    and the four default folders in place and a README at its path; it
    sends nothing, removes no directory and changes the text of no file
    that was there. *)
Theorem ensure_directories_layout (settings : Settings) (st : State) :
  no_file_at (fs st) (startup_dirs settings) = true ->
  exists st',
    ensure_directories settings st = (Ok tt, st')
    /\ sent st' = sent st
    /\ (forall p, In p (startup_dirs settings) -> Fs.is_dir (fs st') p = true)
    /\ Fs.exists_ (fs st')
         (Fs.joinpath (Fs.Path (data_dir settings)) (lit "README.md")) = true
    /\ (forall q, Fs.is_dir (fs st) q = true -> Fs.is_dir (fs st') q = true)
    /\ (forall q c, Fs.read_text (fs st) q = Some c ->
                    Fs.read_text (fs st') q = Some c).
Proof.
  intros _. eexists. split; [apply ensure_directories_run|].
  cbv zeta. cbn [fs sent].
  set (readme_path := Fs.joinpath (Fs.Path (data_dir settings)) (lit "README.md")).
  set (made := fold_left Fs.add_dir (startup_dirs settings) (fs st)).
  assert (Hfiles : Fs.files made = Fs.files (fs st))
    by apply files_fold_add_dir.
  destruct (Fs.exists_ made readme_path) eqn:E.
  - repeat split.
    + intros p Hp. now apply fold_add_dir_in.
    + exact E.
    + intros q Hq. now apply fold_add_dir_mono.
    + intros q c Hq. unfold Fs.read_text. now rewrite Hfiles.
  - apply orb_false_iff in E. destruct E as [Ed Ef].
    repeat split.
    + intros p Hp. rewrite is_dir_write_text. now apply fold_add_dir_in.
    + unfold Fs.exists_. apply orb_true_iff. right. apply written_is_file.
    + intros q Hq. rewrite is_dir_write_text. now apply fold_add_dir_mono.
    + intros q c Hq. unfold Fs.read_text, Fs.write_text. cbn [Fs.files].
      rewrite read_write_other; [now rewrite Hfiles|].
      intros ->. unfold Fs.is_file in Ef. rewrite Hfiles in Ef.
      apply read_text_some_is_file in Ef.
      unfold Fs.read_text in Hq. congruence.
Qed.

Lemma ensure_directories_layout_witness :
  exists st',
    ensure_directories (sample_settings []) sample_state = (Ok tt, st')
    /\ sent st' = sent sample_state
    /\ (forall p, In p (startup_dirs (sample_settings [])) ->
                  Fs.is_dir (fs st') p = true)
    /\ Fs.exists_ (fs st')
         (Fs.joinpath (Fs.Path (data_dir (sample_settings []))) (lit "README.md"))
       = true
    /\ (forall q, Fs.is_dir (fs sample_state) q = true ->
                  Fs.is_dir (fs st') q = true)
    /\ (forall q c, Fs.read_text (fs sample_state) q = Some c ->
                    Fs.read_text (fs st') q = Some c).
Proof.
  apply (ensure_directories_layout (sample_settings []) sample_state).
  reflexivity.
Defined.

(** X12.  Startup is idempotent: run on the state a first run has left,
    it changes nothing. *)
Theorem ensure_directories_idempotent (settings : Settings) (st st1 : State) :
  no_file_at (fs st) (startup_dirs settings) = true ->
  ensure_directories settings st = (Ok tt, st1) ->
  ensure_directories settings st1 = (Ok tt, st1).
Proof.
  intros _ H. rewrite ensure_directories_run in H. cbv zeta in H.
  injection H as <-. rewrite ensure_directories_run. cbv zeta. cbn [fs sent].
  set (readme_path := Fs.joinpath (Fs.Path (data_dir settings)) (lit "README.md")).
  set (made := fold_left Fs.add_dir (startup_dirs settings) (fs st)).
  set (kept := if Fs.exists_ made readme_path then made
               else Fs.write_text made readme_path default_readme).
  assert (Hd : forall p, In p (startup_dirs settings) -> Fs.is_dir kept p = true).
  { intros p Hp. subst kept. destruct (Fs.exists_ made readme_path);
      [|rewrite is_dir_write_text]; now apply fold_add_dir_in. }
  assert (He : Fs.exists_ kept readme_path = true).
  { subst kept. destruct (Fs.exists_ made readme_path) eqn:E; [exact E|].
    unfold Fs.exists_. apply orb_true_iff. right. apply written_is_file. }
  rewrite (fold_add_dir_noop _ _ Hd). now rewrite He.
Qed.

Lemma ensure_directories_idempotent_witness :
  ensure_directories (sample_settings [])
    (snd (ensure_directories (sample_settings []) sample_state))
  = (Ok tt, snd (ensure_directories (sample_settings []) sample_state)).
Proof.
  apply (ensure_directories_idempotent (sample_settings []) sample_state);
    reflexivity.
Defined.

(** X13.  After startup [get_readme_content] does not fail, provided the
    README path was not a directory: it returns the text of the README
    that was there, and the default text where there was none. *)
Theorem get_readme_content_after_startup
    (settings : Settings) (st st' : State) :
  let readme_path :=
    Fs.joinpath (Fs.Path (data_dir settings)) (lit "README.md") in
  no_file_at (fs st) (startup_dirs settings) = true ->
  Fs.is_dir (fs st) readme_path = false ->
  ensure_directories settings st = (Ok tt, st') ->
  get_readme_content settings st'
  = (Ok match Fs.read_text (fs st) readme_path with
        | Some text => text
        | None => default_readme
        end, st').
Proof.
  intros readme_path _ Hd H. rewrite ensure_directories_run in H. cbv zeta in H.
  injection H as <-.
  fold readme_path.
  set (made := fold_left Fs.add_dir (startup_dirs settings) (fs st)).
  assert (Hfiles : Fs.files made = Fs.files (fs st))
    by apply files_fold_add_dir.
  assert (Hmd : Fs.is_dir made readme_path = false).
  { subst made. rewrite fold_add_dir_other; [exact Hd|].
    apply readme_not_startup_dir. }
  destruct (existsb (fun e => Fs.path_eqb readme_path (fst e)) (Fs.files (fs st)))
    eqn:Ef.
  - destruct (read_text_is_file (fs st) readme_path Ef) as [c Hc].
    assert (Hx : Fs.exists_ made readme_path = true).
    { unfold Fs.exists_, Fs.is_file. rewrite Hfiles, Ef. apply orb_true_r. }
    assert (Hm : Fs.read_text made readme_path = Some c).
    { unfold Fs.read_text. rewrite Hfiles. exact Hc. }
    rewrite Hx, Hc.
    unfold get_readme_content, bind, get_fs. cbn [fs sent]. fold readme_path.
    now rewrite Hx, Hm.
  - assert (Hr : Fs.read_text (fs st) readme_path = None)
      by (unfold Fs.read_text; now apply read_text_some_is_file).
    assert (Hx0 : Fs.exists_ made readme_path = false).
    { unfold Fs.exists_, Fs.is_file. rewrite Hfiles, Ef, Hmd. reflexivity. }
    assert (Hx : Fs.exists_ (Fs.write_text made readme_path default_readme)
                   readme_path = true).
    { unfold Fs.exists_. apply orb_true_iff. right. apply written_is_file. }
    rewrite Hx0, Hr.
    unfold get_readme_content, bind, get_fs. cbn [fs sent]. fold readme_path.
    now rewrite Hx, read_text_write_text.
Qed.

Lemma get_readme_content_after_startup_witness :
  get_readme_content (sample_settings [])
    (snd (ensure_directories (sample_settings []) sample_state))
  = (Ok match Fs.read_text (fs sample_state)
             (Fs.joinpath (Fs.Path (data_dir (sample_settings [])))
                (lit "README.md")) with
        | Some text => text
        | None => default_readme
        end,
     snd (ensure_directories (sample_settings []) sample_state)).
Proof.
  apply (get_readme_content_after_startup (sample_settings []) sample_state);
    reflexivity.
Defined.

End Startup.

(** ** Sorting *)
Section Sorting.

Variable A : Type.
Variable before : A -> A -> bool.

Lemma insert_sorted_perm (x : A) (l : list A) :
  Permutation (insert_sorted before x l) (x :: l).
Proof.
  induction l as [|y t IH]; cbn [insert_sorted]; [reflexivity|].
  destruct (before y x); [|reflexivity].
  rewrite IH. apply perm_swap.
Qed.

Lemma sort_by_perm (l : list A) : Permutation (sort_by before l) l.
Proof.
  induction l as [|x t IH]; cbn [sort_by fold_right]; [reflexivity|].
  fold (sort_by before t). rewrite insert_sorted_perm. now constructor.
Qed.

Hypothesis before_asym :
  forall x y, before x y = true -> before y x = false.
Hypothesis before_ntrans :
  forall x y z, before y x = false -> before z y = false -> before z x = false.

(** [a] may stand in front of [b]. *)
Let ordered (a b : A) : Prop := before b a = false.

Lemma insert_sorted_hd (x y : A) (l : list A) :
  HdRel ordered y l -> ordered y x -> HdRel ordered y (insert_sorted before x l).
Proof.
  intros H Hx. destruct l as [|z t]; cbn [insert_sorted]; [now constructor|].
  destruct (before z x); constructor; [now inversion H|exact Hx].
Qed.

Lemma insert_sorted_sorted (x : A) (l : list A) :
  Sorted ordered l -> Sorted ordered (insert_sorted before x l).
Proof.
  induction l as [|y t IH]; intros H; cbn [insert_sorted].
  - repeat constructor.
  - inversion H as [|? ? Ht Hd]; subst.
    destruct (before y x) eqn:E.
    + constructor; [now apply IH|].
      apply insert_sorted_hd; [exact Hd|]. now apply before_asym.
    + constructor; [exact H|]. constructor. exact E.
Qed.

Lemma sort_by_sorted (l : list A) : StronglySorted ordered (sort_by before l).
Proof.
  apply Sorted_StronglySorted.
  - intros a b c Hab Hbc. unfold ordered in *. now apply (before_ntrans a b c).
  - induction l as [|x t IH]; cbn [sort_by fold_right]; [constructor|].
    now apply insert_sorted_sorted.
Qed.

End Sorting.

Lemma strongly_sorted_weaken {A : Type} (R R' : A -> A -> Prop) (l : list A) :
  (forall a b, R a b -> R' a b) -> StronglySorted R l -> StronglySorted R' l.
Proof.
  intros H Hs. induction Hs as [|x l Hs IH Hall]; constructor; [exact IH|].
  eapply Forall_impl; [|exact Hall]. intros b. apply H.
Qed.

Section StringOrder.

Lemma str_ltb_asym (a b : str) : str_ltb a b = true -> str_ltb b a = false.
Proof.
  revert b. induction a as [|x a IH]; intros [|y b] H; cbn [str_ltb] in *;
    try reflexivity; try discriminate.
  destruct (x <? y) eqn:E1, (y <? x) eqn:E2; zbool; try lia;
    try reflexivity; try discriminate.
  now apply IH.
Qed.

Lemma str_ltb_ntrans (a b c : str) :
  str_ltb b a = false -> str_ltb c b = false -> str_ltb c a = false.
Proof.
  revert b c. induction a as [|x a IH]; intros [|y b] [|z c] H1 H2;
    cbn [str_ltb] in *; try reflexivity; try discriminate.
  destruct (y <? x) eqn:E1, (x <? y) eqn:E2, (z <? y) eqn:E3, (y <? z) eqn:E4,
    (z <? x) eqn:E5, (x <? z) eqn:E6; zbool; try lia;
    try reflexivity; try discriminate.
  now apply (IH b c).
Qed.

Lemma folder_before_asym (a b : FolderInfo) :
  folder_before a b = true -> folder_before b a = false.
Proof.
  unfold folder_before.
  destruct (Py.str_eqb (info_name a) (lit "inbox")),
    (Py.str_eqb (info_name b) (lit "inbox")); cbn [negb Bool.eqb];
    try discriminate; try reflexivity; apply str_ltb_asym.
Qed.

Lemma folder_before_ntrans (a b c : FolderInfo) :
  folder_before b a = false -> folder_before c b = false ->
  folder_before c a = false.
Proof.
  unfold folder_before.
  destruct (Py.str_eqb (info_name a) (lit "inbox")),
    (Py.str_eqb (info_name b) (lit "inbox")),
    (Py.str_eqb (info_name c) (lit "inbox")); cbn [negb Bool.eqb];
    try discriminate; try reflexivity; apply str_ltb_ntrans.
Qed.

End StringOrder.

(** ** The folder listing *)
Section Folders.


Lemma split_on_absent (sep : Z) (s : str) :
  Forall (fun c => c <> sep) s -> Fs.split_on sep s = [s].
Proof.
  induction 1 as [|c t Hc _ IH]; cbn [Fs.split_on]; [reflexivity|].
  apply Z.eqb_neq in Hc. now rewrite Hc, IH.
Qed.

(** A name without a slash, other than the empty one and the dot, is a
    path of one part. *)
Lemma Path_simple (s : str) :
  s <> [] -> s <> [46] -> Forall (fun c => c <> 47) s ->
  Fs.Path s = Fs.mk_path [] [s].
Proof.
  intros Hn Hd Hs. unfold Fs.Path. rewrite (split_on_absent _ _ Hs).
  cbn [filter]. unfold Fs.keep_part.
  assert (E1 : Py.str_eqb s [] = false).
  { destruct (Py.str_eqb s []) eqn:E; [|reflexivity].
    apply str_eqb_eq in E. contradiction. }
  assert (E2 : Py.str_eqb s [46] = false).
  { destruct (Py.str_eqb s [46]) eqn:E; [|reflexivity].
    apply str_eqb_eq in E. contradiction. }
  rewrite E1, E2. cbn [negb andb]. f_equal.
  destruct s as [|a t]; [contradiction|].
  inversion Hs as [|? ? Ha _]; subst. apply Z.eqb_neq in Ha.
  destruct t as [|b [|c t]]; now rewrite Ha.
Qed.

Lemma joinpath_simple (p : Fs.path) (s : str) :
  Fs.Path s = Fs.mk_path [] [s] ->
  Fs.joinpath p s = Fs.mk_path (Fs.root p) (Fs.parts p ++ [s]).
Proof. intros H. unfold Fs.joinpath. now rewrite H. Qed.

Lemma path_name_joined (r : str) (ps : list str) (s : str) :
  path_name (Fs.mk_path r (ps ++ [s])) = s.
Proof. unfold path_name. cbn [Fs.parts]. apply last_last. Qed.

Lemma path_parent_joined (p : Fs.path) (s : str) :
  path_parent (Fs.mk_path (Fs.root p) (Fs.parts p ++ [s])) = p.
Proof.
  unfold path_parent. cbn [Fs.root Fs.parts]. rewrite removelast_last.
  now destruct p.
Qed.

Lemma is_child_joined (p : Fs.path) (s : str) :
  is_child p (Fs.mk_path (Fs.root p) (Fs.parts p ++ [s])) = true.
Proof.
  unfold is_child. rewrite path_parent_joined.
  cbn [Fs.parts]. destruct (Fs.parts p ++ [s]) eqn:E.
  - now destruct (Fs.parts p).
  - apply path_eqb_refl.
Qed.

Lemma is_child_shorter (dir p : Fs.path) :
  (List.length (Fs.parts p) <= List.length (Fs.parts dir))%nat ->
  is_child dir p = false.
Proof.
  intros H. unfold is_child. destruct (Fs.parts p) as [|x t] eqn:E; [reflexivity|].
  apply path_eqb_neq. intros C.
  apply (f_equal (fun q => List.length (Fs.parts q))) in C.
  unfold path_parent in C. cbn [Fs.parts] in C.
  rewrite E, removelast_firstn_len, length_firstn in C.
  cbn [List.length] in *. lia.
Qed.

Lemma glob_md_add_dir (f : Fs.filesystem) (q dir : Fs.path) :
  is_child dir q = false -> glob_md (Fs.add_dir f q) dir = glob_md f dir.
Proof.
  intros H. unfold Fs.add_dir. destruct (Fs.is_dir f q); [reflexivity|].
  unfold glob_md, all_paths. cbn [Fs.dirs Fs.files].
  rewrite app_assoc, filter_app. cbn [filter]. rewrite H. cbn [andb].
  apply app_nil_r.
Qed.

Lemma glob_md_fold_add_dir (l : list Fs.path) (f : Fs.filesystem) (dir : Fs.path) :
  (forall q, In q l -> is_child dir q = false) ->
  glob_md (fold_left Fs.add_dir l f) dir = glob_md f dir.
Proof.
  revert f. induction l as [|p t IH]; intros f H; cbn [fold_left]; [reflexivity|].
  rewrite IH by (intros q Hq; apply H; now right).
  apply glob_md_add_dir. apply H. now left.
Qed.

Lemma glob_md_mkdir_parents (f : Fs.filesystem) (p : Fs.path) :
  glob_md (Fs.mkdir_parents f p) p = glob_md f p.
Proof.
  unfold Fs.mkdir_parents.
  rewrite glob_md_add_dir by (apply is_child_shorter; lia).
  apply glob_md_fold_add_dir. intros q Hq. apply is_child_shorter.
  apply ancestors_shorter in Hq. lia.
Qed.

Lemma is_dir_in_dirs (f : Fs.filesystem) (p : Fs.path) :
  Fs.parts p <> [] -> Fs.is_dir f p = true -> In p (Fs.dirs f).
Proof.
  intros Hn H. unfold Fs.is_dir in H. destruct (Fs.parts p); [contradiction|].
  apply existsb_exists in H. destruct H as [q [Hq E]].
  apply path_eqb_eq in E. now subst.
Qed.

(** X15.  A folder that [create_folder] has made is listed by
    [list_folders] when its name is a single path component that does not
    start with a dot: with the count 0, as nothing lies in it, and with
    an empty description, whatever description came with the request. *)
Theorem create_folder_then_listed
    (settings : Settings) (request : CreateFolderRequest) (st st' : State)
    (info : FolderInfo) :
  create_folder settings request st = (Ok info, st') ->
  info_name info <> [] ->
  Forall (fun c => c <> 47) (info_name info) ->
  Py.startswith (lit ".") (info_name info) = false ->
  glob_md (fs st)
    (Fs.joinpath (Fs.Path (data_dir settings)) (info_name info)) = [] ->
  exists folders,
    list_folders settings st' = (Ok folders, st')
    /\ In (mk_folder_info (info_name info) 0 []) folders.
Proof.
  intros H Hn Hs Hdot Hempty.
  rewrite create_folder_cases in H. cbv zeta in H.
  destruct (Fs.exists_ (fs st) _) eqn:E; [discriminate|].
  injection H as <- <-. cbn [info_name] in *.
  set (folder_name := map (fun c => if c =? 32 then 45 else c)
                        (map Py.lower_char (name request))) in *.
  set (data_path := Fs.Path (data_dir settings)) in *.
  assert (Hp : Fs.Path folder_name = Fs.mk_path [] [folder_name]).
  { apply Path_simple; [exact Hn| |exact Hs].
    intros C. rewrite C in Hdot. discriminate. }
  assert (Ht : Fs.joinpath data_path folder_name
               = Fs.mk_path (Fs.root data_path)
                   (Fs.parts data_path ++ [folder_name]))
    by now apply joinpath_simple.
  rewrite Ht in *.
  set (target := Fs.mk_path (Fs.root data_path)
                   (Fs.parts data_path ++ [folder_name])) in *.
  eexists. split; [reflexivity|]. cbn [fs].
  eapply Permutation_in; [apply Permutation_sym, sort_by_perm|].
  apply in_map_iff. exists target. split.
  - unfold target at 1. rewrite path_name_joined.
    rewrite glob_md_mkdir_parents, Hempty. reflexivity.
  - apply filter_In. split.
    + apply is_dir_in_dirs.
      * unfold target. cbn [Fs.parts]. now destruct (Fs.parts data_path).
      * unfold Fs.mkdir_parents. apply is_dir_add_dir.
    + fold data_path. unfold target at 1. rewrite is_child_joined.
      unfold target. rewrite path_name_joined. now rewrite Hdot.
Qed.

Lemma create_folder_then_listed_witness :
  exists info st' folders,
    create_folder (sample_settings [])
      (mk_create_folder_request (lit "My Ideas") (lit "things to try"))
      sample_state = (Ok info, st')
    /\ list_folders (sample_settings []) st' = (Ok folders, st')
    /\ In (mk_folder_info (lit "my-ideas") 0 []) folders.
Proof.
  destruct (create_folder (sample_settings [])
              (mk_create_folder_request (lit "My Ideas") (lit "things to try"))
              sample_state) as [[info|e] st'] eqn:E;
    [|vm_compute in E; discriminate].
  assert (En : info_name info = lit "my-ideas")
    by (vm_compute in E; injection E as <- _; reflexivity).
  destruct (create_folder_then_listed (sample_settings []) _ _ _ _ E)
    as [folders [H1 H2]].
  - rewrite En. discriminate.
  - rewrite En. vm_compute. repeat constructor; discriminate.
  - rewrite En. reflexivity.
  - rewrite En. vm_compute in E. injection E as _ <-. reflexivity.
  - exists info, st', folders. rewrite En in H2. auto.
Defined.

End Folders.

(** ** The entry listing *)
Section Entries.

Lemma in_firstn {A : Type} (n : nat) (l : list A) (x : A) :
  In x (firstn n l) -> In x l.
Proof.
  revert l. induction n as [|n IH]; intros [|y t] H; cbn [firstn] in H;
    try (destruct H; fail).
  destruct H as [H|H]; [now left|right; now apply IH].
Qed.

Lemma strongly_sorted_firstn {A : Type} (R : A -> A -> Prop) (n : nat)
    (l : list A) :
  StronglySorted R l -> StronglySorted R (firstn n l).
Proof.
  revert l. induction n as [|n IH]; intros l H; [constructor|].
  destruct H as [|x t Hs Hall]; cbn [firstn]; constructor; [now apply IH|].
  rewrite Forall_forall in *. intros y Hy. apply Hall. now apply in_firstn in Hy.
Qed.

(** A loop that keeps at most one thing for each element keeps the
    order. *)
Lemma strongly_sorted_flat_map {A B : Type} (R : A -> A -> Prop)
    (R' : B -> B -> Prop) (g : A -> list B) (l : list A) :
  (forall a, (List.length (g a) <= 1)%nat) ->
  (forall a b x y, R a b -> In x (g a) -> In y (g b) -> R' x y) ->
  StronglySorted R l -> StronglySorted R' (flat_map g l).
Proof.
  intros Hone Hrel Hs. induction Hs as [|a t Hs IH Hall]; [constructor|].
  cbn [flat_map]. specialize (Hone a).
  destruct (g a) as [|x [|x' r]] eqn:E; cbn [List.length] in Hone; [exact IH| |lia].
  cbn [app]. constructor; [exact IH|].
  apply Forall_forall. intros y Hy. apply in_flat_map in Hy.
  destruct Hy as [b [Hb Hy]]. rewrite Forall_forall in Hall.
  apply (Hrel a b); [now apply Hall|rewrite E; now left|exact Hy].
Qed.

Lemma length_flat_map_le {A B : Type} (g : A -> list B) (l : list A) :
  (forall a, (List.length (g a) <= 1)%nat) ->
  (List.length (flat_map g l) <= List.length l)%nat.
Proof.
  intros Hone. induction l as [|a t IH]; cbn [flat_map List.length]; [lia|].
  rewrite length_app. specialize (Hone a). lia.
Qed.

Lemma map_flat_map {A B C : Type} (h : B -> C) (g : A -> list B) (l : list A) :
  map h (flat_map g l) = flat_map (fun a => map h (g a)) l.
Proof.
  induction l as [|a t IH]; cbn [flat_map map]; [reflexivity|].
  now rewrite map_app, IH.
Qed.

Lemma length_take_limit {A : Type} (l : list A) (limit : Z) :
  0 <= limit -> Z.of_nat (List.length (take_limit l limit)) <= limit.
Proof.
  intros H. unfold take_limit, Py.clamp.
  destruct (limit <? 0) eqn:E; zbool; [lia|].
  rewrite length_firstn. lia.
Qed.

Lemma list_entries_files (settings : Settings) (times : FileTimes)
    (folder_ : option str) (limit : Z) (st : State) :
  list_entries settings times folder_ limit st
  = (Ok (flat_map
           (fun file_path =>
              match Fs.read_text (fs st) file_path with
              | Some content => [entry_of times file_path content]
              | None => []
              end)
           (take_limit
              (sort_by (fun a b => st_mtime times b <? st_mtime times a)
                 (entry_files settings (fs st) folder_))
              limit)), st).
Proof. reflexivity. Qed.

Lemma entry_files_md (settings : Settings) (f : Fs.filesystem)
    (folder_ : option str) (p : Fs.path) :
  In p (entry_files settings f folder_) ->
  In p (all_paths f) /\ endswith (path_name p) (lit ".md") = true.
Proof.
  unfold entry_files, glob_md, glob_all_md. cbv zeta.
  destruct folder_ as [[|c name_]|];
    try destruct (Fs.exists_ f _); intros H;
    try (destruct H; fail);
    apply filter_In in H; destruct H as [H1 H2];
    apply andb_true_iff in H2; destruct H2 as [_ H2]; now split.
Qed.

(** X16.  [list_entries] never fails and changes nothing.  What it
    returns is made, in this order, from files that are in the file
    system, have a name ending in [.md] and could be read; these files
    are in the order of their modification times, the newest first; and
    for a limit that is not negative there are at most [limit] of
    them. *)
Theorem list_entries_listing (settings : Settings) (times : FileTimes)
    (folder_ : option str) (limit : Z) (st : State) :
  exists shown : list (Fs.path * str),
    list_entries settings times folder_ limit st
    = (Ok (map (fun e => entry_of times (fst e) (snd e)) shown), st)
    /\ Forall (fun e =>
                 In (fst e) (all_paths (fs st))
                 /\ endswith (path_name (fst e)) (lit ".md") = true
                 /\ Fs.read_text (fs st) (fst e) = Some (snd e)) shown
    /\ StronglySorted
         (fun a b => st_mtime times (fst b) <= st_mtime times (fst a)) shown
    /\ (0 <= limit -> Z.of_nat (List.length shown) <= limit).
Proof.
  set (g := fun file_path =>
              match Fs.read_text (fs st) file_path with
              | Some content => [(file_path, content)]
              | None => []
              end).
  set (sorted := sort_by (fun a b => st_mtime times b <? st_mtime times a)
                   (entry_files settings (fs st) folder_)).
  assert (Hone : forall a, (List.length (g a) <= 1)%nat).
  { intros a. unfold g. destruct (Fs.read_text (fs st) a); cbn; lia. }
  assert (Hg : forall a e, In e (g a) ->
                 fst e = a /\ Fs.read_text (fs st) a = Some (snd e)).
  { intros a e. unfold g. destruct (Fs.read_text (fs st) a) eqn:E; intros H;
      [|destruct H]. destruct H as [<-|[]]. now split. }
  exists (flat_map g (take_limit sorted limit)). repeat split.
  - rewrite list_entries_files, map_flat_map. fold sorted. do 2 f_equal.
    apply flat_map_ext. intros a. unfold g.
    now destruct (Fs.read_text (fs st) a).
  - apply Forall_forall. intros e He. apply in_flat_map in He.
    destruct He as [a [Ha He]]. apply Hg in He. destruct He as [E1 E2].
    rewrite E1. apply in_firstn in Ha.
    apply (Permutation_in _ (sort_by_perm _ _ _)) in Ha.
    apply entry_files_md in Ha. tauto.
  - apply (strongly_sorted_flat_map
             (fun a b => st_mtime times b <= st_mtime times a)); [exact Hone| |].
    + intros a b x y Hab Hx Hy. apply Hg in Hx, Hy.
      destruct Hx as [-> _], Hy as [-> _]. exact Hab.
    + apply strongly_sorted_firstn.
      eapply strongly_sorted_weaken;
        [|apply (sort_by_sorted _
                   (fun a b => st_mtime times b <? st_mtime times a))].
      * intros a b H. cbv beta in H. zbool. lia.
      * intros x y H. zbool. apply Z.ltb_ge. lia.
      * intros x y z H1 H2. zbool. apply Z.ltb_ge. lia.
  - intros Hl. pose proof (length_flat_map_le g (take_limit sorted limit) Hone).
    pose proof (length_take_limit sorted limit Hl). lia.
Qed.

(** X17.  A negative limit is not refused and does not mean no limit:
    with [n] files to list, [limit = -k] leaves out the [k] oldest ones,
    as the limit [n - k] does, and lists nothing when [k] is [n] or
    more. *)
Theorem list_entries_negative_limit (settings : Settings) (times : FileTimes)
    (folder_ : option str) (limit : Z) (st : State) :
  limit < 0 ->
  list_entries settings times folder_ limit st
  = list_entries settings times folder_
      (Z.max 0
         (Z.of_nat (List.length (entry_files settings (fs st) folder_)) + limit))
      st.
Proof.
  intros H. rewrite !list_entries_files. do 3 f_equal.
  unfold take_limit, Py.clamp.
  set (sorted := sort_by _ _).
  assert (E : List.length sorted
              = List.length (entry_files settings (fs st) folder_))
    by (apply Permutation_length, sort_by_perm).
  rewrite <- E.
  destruct (limit <? 0) eqn:E1; zbool; [|lia].
  destruct (Z.max 0 (Z.of_nat (List.length sorted) + limit) <? 0) eqn:E2;
    zbool; [lia|].
  f_equal. lia.
Qed.

Lemma list_entries_negative_limit_witness :
  list_entries (sample_settings [])
    (mk_file_times (fun p => Z.of_nat (List.length (path_name p)))
       (fun _ => []))
    None (-1)
    (mk_state
       (Fs.write_text
          (Fs.write_text (fs sample_state)
             (Fs.Path (lit "/data/inbox/2024-01-15_10-30-00_a.md")) (lit "# A"))
          (Fs.Path (lit "/data/inbox/2024-01-16_10-30-00_b.md")) (lit "# B"))
       [])
  = list_entries (sample_settings [])
      (mk_file_times (fun p => Z.of_nat (List.length (path_name p)))
       (fun _ => []))
      None 1
      (mk_state
       (Fs.write_text
          (Fs.write_text (fs sample_state)
             (Fs.Path (lit "/data/inbox/2024-01-15_10-30-00_a.md")) (lit "# A"))
          (Fs.Path (lit "/data/inbox/2024-01-16_10-30-00_b.md")) (lit "# B"))
       []).
Proof.
  apply (list_entries_negative_limit (sample_settings [])
           (mk_file_times (fun p => Z.of_nat (List.length (path_name p)))
       (fun _ => []))
           None (-1)
           (mk_state
       (Fs.write_text
          (Fs.write_text (fs sample_state)
             (Fs.Path (lit "/data/inbox/2024-01-15_10-30-00_a.md")) (lit "# A"))
          (Fs.Path (lit "/data/inbox/2024-01-16_10-30-00_b.md")) (lit "# B"))
       [])).
  lia.
Defined.

End Entries.

(** ** A note, listed *)
Section Listed.

Lemma split_on_app (sep : Z) (a b : str) :
  Forall (fun c => c <> sep) a ->
  Fs.split_on sep (a ++ sep :: b) = a :: Fs.split_on sep b.
Proof.
  induction 1 as [|c t Hc _ IH]; cbn [app Fs.split_on].
  - now rewrite Z.eqb_refl.
  - apply Z.eqb_neq in Hc. now rewrite Hc, IH.
Qed.

Lemma slice_to_app (a b : str) : Py.slice_to (a ++ b) (Py.len a) = a.
Proof.
  rewrite slice_to_firstn by apply len_nonneg.
  unfold Py.len. rewrite Nat2Z.id.
  rewrite firstn_app, Nat.sub_diag, firstn_all. cbn [firstn]. apply app_nil_r.
Qed.

(** The stem of a name that ends in [.md]. *)
Lemma path_stem_md (dir : Fs.path) (stem : str) :
  stem <> [] ->
  Forall (fun c => c <> 47) stem ->
  let file_path := Fs.joinpath dir (stem ++ lit ".md") in
  file_path = Fs.mk_path (Fs.root dir) (Fs.parts dir ++ [stem ++ lit ".md"])
  /\ path_stem file_path = stem.
Proof.
  intros Hn Hs file_path.
  assert (Hp : file_path
               = Fs.mk_path (Fs.root dir) (Fs.parts dir ++ [stem ++ lit ".md"])).
  { apply joinpath_simple, Path_simple.
    - now destruct stem.
    - destruct stem as [|c [|d t]]; discriminate || contradiction.
    - apply Forall_app. split; [exact Hs|]. repeat constructor; discriminate. }
  split; [exact Hp|].
  unfold path_stem. rewrite Hp, path_name_joined. cbv zeta.
  change (lit ".") with [46]. change (lit ".md") with (46 :: [109; 100]).
  rewrite rfind_app_absent by (repeat constructor; discriminate).
  assert (H0 : 0 < Py.len stem).
  { destruct stem; [contradiction|]. unfold Py.len. cbn [List.length]. lia. }
  assert (H1 : Py.len (stem ++ 46 :: [109; 100]) = Py.len stem + 3).
  { unfold Py.len. rewrite length_app. cbn [List.length]. lia. }
  rewrite H1.
  destruct (0 <? Py.len stem) eqn:E1; zbool; [|lia].
  destruct (Py.len stem <? Py.len stem + 3 - 1) eqn:E2; zbool; [|lia].
  cbn [andb]. apply slice_to_app.
Qed.

(** What [list_entries] reads off the name of a file whose name is a
    date, a time and a slug joined by underscores. *)
Lemma entry_of_name (times : FileTimes) (dir : Fs.path)
    (date time slug_text content : str) :
  date <> [] ->
  Forall (fun c => c <> 95 /\ c <> 47) date ->
  Forall (fun c => c <> 95 /\ c <> 47) time ->
  Forall (fun c => c <> 47) slug_text ->
  let e := entry_of times
             (Fs.joinpath dir (date ++ 95 :: time ++ 95 :: slug_text ++ lit ".md"))
             content in
  entry_timestamp e = date ++ 84 :: Py.replace time [45] [58]
  /\ entry_id e = Py.slice_to (date ++ 95 :: time ++ 95 :: slug_text) 8
  /\ entry_folder e = path_name dir.
Proof.
  intros Hn Hd Ht Hs.
  set (stem := date ++ 95 :: time ++ 95 :: slug_text).
  assert (E : date ++ 95 :: time ++ 95 :: slug_text ++ lit ".md"
              = stem ++ lit ".md").
  { subst stem. rewrite <- app_assoc. cbn [app]. rewrite <- app_assoc.
    reflexivity. }
  rewrite E.
  destruct (path_stem_md dir stem) as [Hp Hstem].
  { subst stem. now destruct date. }
  { subst stem. apply Forall_app. split.
    - eapply Forall_impl; [|exact Hd]. cbv beta. tauto.
    - constructor; [discriminate|]. apply Forall_app. split.
      + eapply Forall_impl; [|exact Ht]. cbv beta. tauto.
      + constructor; [discriminate|exact Hs]. }
  cbv zeta in Hp, Hstem. cbv zeta. unfold entry_of.
  cbn [entry_timestamp entry_id entry_folder]. rewrite Hstem.
  split; [|split].
  - subst stem. rewrite split_on_app
      by (eapply Forall_impl; [|exact Hd]; cbv beta; tauto).
    rewrite split_on_app
      by (eapply Forall_impl; [|exact Ht]; cbv beta; tauto).
    reflexivity.
  - reflexivity.
  - rewrite Hp. now rewrite path_parent_joined.
Qed.



End Listed.

(** ** The text of a note, read back *)
Section ReadBack.

(** No occurrence of the separator starts in a run without a hyphen. *)
Lemma find_at_sep_plain_prefix (pre x : str) (i : Z) :
  Forall (fun c => c <> 45) pre ->
  Py.find_at (lit "---") (pre ++ x) i
  = Py.find_at (lit "---") x (i + Py.len pre).
Proof.
  intros H. revert i. unfold Py.len.
  induction H as [|c t Hc _ IH]; intros i.
  - cbn. now rewrite Z.add_0_r.
  - cbn [app Py.find_at]. change (lit "---") with [45; 45; 45].
    cbn [Py.startswith].
    assert (E : (45 =? c) = false) by (apply Z.eqb_neq; lia).
    rewrite E. cbn [andb]. change [45; 45; 45] with (lit "---").
    rewrite IH. f_equal. cbn [List.length]. lia.
Qed.

Lemma startswith_sep_app_other (s r : str) (c : Z) :
  c <> 45 ->
  Py.startswith (lit "---") (s ++ c :: r) = Py.startswith (lit "---") s.
Proof.
  intros Hc. change (lit "---") with [45; 45; 45].
  assert (E : (45 =? c) = false) by (apply Z.eqb_neq; lia).
  destruct s as [|x [|y [|z s]]]; cbn [app Py.startswith]; rewrite ?E;
    rewrite ?andb_false_r; reflexivity.
Qed.

(** No occurrence of the separator runs over a character that is not a
    hyphen. *)
Lemma find_at_sep_boundary (s r : str) (c i : Z) :
  c <> 45 ->
  Py.find_at (lit "---") s 0 = -1 ->
  Py.find_at (lit "---") (s ++ c :: r) i
  = Py.find_at (lit "---") r (i + Py.len s + 1).
Proof.
  intros Hc. revert i. unfold Py.len.
  induction s as [|x t IH]; intros i H.
  - cbn [app Py.find_at List.length].
    pose proof (startswith_sep_app_other [] r c Hc) as E. cbn [app] in E.
    rewrite E. change (Py.startswith (lit "---") []) with false. cbv iota.
    f_equal. lia.
  - cbn [Py.find_at] in H.
    destruct (Py.startswith (lit "---") (x :: t)) eqn:E; [discriminate|].
    rewrite find_at_shift in H.
    destruct (Py.find_at (lit "---") t 0 =? -1) eqn:E0;
      [|pose proof (find_at_spec (lit "---") t 0 ltac:(lia)); zbool; lia].
    zbool.
    change ((x :: t) ++ c :: r) with (x :: (t ++ c :: r)).
    cbn [Py.find_at].
    change (x :: t ++ c :: r) with ((x :: t) ++ c :: r).
    rewrite (startswith_sep_app_other (x :: t) r c Hc), E.
    rewrite IH by assumption. f_equal. cbn [List.length]. lia.
Qed.

Lemma find_sep_lstrip (s : str) :
  Py.find s (lit "---") = -1 -> Py.find (Py.lstrip s) (lit "---") = -1.
Proof.
  intros H. destruct (lstrip_split s) as [ws [E Hw]].
  unfold Py.find in *. rewrite E in H.
  rewrite find_at_sep_space_prefix in H by assumption.
  rewrite find_at_shift in H.
  destruct (Py.find_at (lit "---") (Py.lstrip s) 0 =? -1) eqn:E0;
    zbool; [assumption|].
  pose proof (find_at_spec (lit "---") (Py.lstrip s) 0 ltac:(lia)).
  pose proof (len_nonneg ws). lia.
Qed.

Lemma lstrip_nonblank_app (s r : str) :
  Py.lstrip s <> [] -> Py.lstrip (s ++ r) = Py.lstrip s ++ r.
Proof.
  induction s as [|c t IH]; intros H; [now elim H|].
  cbn [app Py.lstrip] in *. destruct (Py.isspace c); [now apply IH|reflexivity].
Qed.

Lemma lstrip_idem (s : str) : Py.lstrip (Py.lstrip s) = Py.lstrip s.
Proof.
  induction s as [|c t IH]; [reflexivity|].
  cbn [Py.lstrip]. destruct (Py.isspace c) eqn:E; [exact IH|].
  cbn [Py.lstrip]. now rewrite E.
Qed.

Lemma all_space_rev (ws : str) : all_space ws -> all_space (rev ws).
Proof. unfold all_space. apply Forall_rev. Qed.

Lemma rstrip_app_space (s ws : str) :
  all_space ws -> Py.rstrip (s ++ ws) = Py.rstrip s.
Proof.
  intros H. unfold Py.rstrip. rewrite rev_app_distr.
  now rewrite lstrip_app_space by now apply all_space_rev.
Qed.

Lemma rstrip_app_last (s : str) (c : Z) :
  Py.isspace c = false -> Py.rstrip (s ++ [c]) = s ++ [c].
Proof.
  intros H. unfold Py.rstrip. rewrite rev_app_distr. cbn [rev app Py.lstrip].
  rewrite H. cbn [rev]. now rewrite rev_involutive.
Qed.

Lemma slice_from_app (a b : str) : Py.slice_from (a ++ b) (Py.len a) = b.
Proof.
  rewrite slice_from_skipn by apply len_nonneg.
  unfold Py.len. rewrite Nat2Z.id.
  rewrite skipn_app, Nat.sub_diag, skipn_all. reflexivity.
Qed.

Lemma month_name_plain (m : Z) :
  Forall (fun c => c <> 45) (Datetime.month_name m).
Proof.
  unfold Datetime.month_name.
  destruct (Z.to_nat (m - 1)) as [|n]; [repeat constructor; discriminate|].
  do 11 (destruct n as [|n]; [repeat constructor; discriminate|]).
  cbn. now destruct n.
Qed.

(** The date line of a note holds no hyphen. *)
Lemma formatted_date_plain (dt : Datetime.datetime) :
  Forall (fun c => c <> 45)
    (Datetime.strftime dt (lit "%B %d, %Y at %I:%M %p")).
Proof.
  assert (E : Datetime.strftime dt (lit "%B %d, %Y at %I:%M %p")
              = Datetime.month_name (Datetime.month dt)
                ++ 32 :: Datetime.pad2 (Datetime.day dt)
                ++ 44 :: 32 :: Datetime.pad4 (Datetime.year dt)
                ++ 32 :: 97 :: 116 :: 32
                   :: Datetime.pad2 (Datetime.hour12 (Datetime.hour dt))
                ++ 58 :: Datetime.pad2 (Datetime.minute dt)
                ++ 32 :: (if Datetime.hour dt <? 12 then lit "AM" else lit "PM")
                ++ [])
    by reflexivity.
  rewrite E. clear E.
  assert (H2 : forall n, Forall (fun c => c <> 45) (Datetime.pad2 n))
    by (intros n; eapply Forall_impl; [|apply pad2_digits]; cbv beta; intros; lia).
  assert (H4 : forall n, Forall (fun c => c <> 45) (Datetime.pad4 n))
    by (intros n; eapply Forall_impl; [|apply pad4_digits]; cbv beta; intros; lia).
  repeat first
    [ apply Forall_nil
    | apply month_name_plain
    | apply H2 | apply H4
    | apply Forall_app; split
    | apply Forall_cons; [discriminate|] ].
  destruct (Datetime.hour dt <? 12); repeat constructor; discriminate.
Qed.

Lemma find_at_none_shift (s : str) (i : Z) :
  Py.find_at (lit "---") s 0 = -1 -> Py.find_at (lit "---") s i = -1.
Proof. intros H. rewrite find_at_shift, H. reflexivity. Qed.

Lemma no_sep_plain (s : str) :
  Forall (fun c => c <> 45) s -> Py.find_at (lit "---") s 0 = -1.
Proof.
  intros H. rewrite <- (app_nil_r s).
  now rewrite find_at_sep_plain_prefix.
Qed.

Lemma no_sep_plain_prefix (pre x : str) :
  Forall (fun c => c <> 45) pre ->
  Py.find_at (lit "---") x 0 = -1 ->
  Py.find_at (lit "---") (pre ++ x) 0 = -1.
Proof.
  intros H Hx. rewrite find_at_sep_plain_prefix by assumption.
  now apply find_at_none_shift.
Qed.

Lemma no_sep_join (s r : str) (c : Z) :
  c <> 45 ->
  Py.find_at (lit "---") s 0 = -1 ->
  Py.find_at (lit "---") r 0 = -1 ->
  Py.find_at (lit "---") (s ++ c :: r) 0 = -1.
Proof.
  intros Hc Hs Hr. rewrite find_at_sep_boundary by assumption.
  now apply find_at_none_shift.
Qed.

(** The first separator of a note is the one the template puts after the
    header, when the title and the folder hold none. *)
Lemma find_note_separator (T D F rest : str) :
  Py.find T (lit "---") = -1 ->
  Forall (fun c => c <> 45) D ->
  Py.find F (lit "---") = -1 ->
  let head :=
    (lit "# " ++ T)
    ++ 10 :: (10 :: lit "**Date:** " ++ D)
    ++ 10 :: (lit "**Folder:** " ++ F) ++ 10 :: [] in
  Py.find (head ++ 10 :: lit "---" ++ rest) (lit "---") = Py.len head + 1.
Proof.
  intros HT HD HF head. unfold Py.find in *.
  assert (Hh : Py.find_at (lit "---") head 0 = -1).
  { subst head. apply no_sep_join; [lia| |].
    - apply no_sep_plain_prefix; [repeat constructor; discriminate|exact HT].
    - apply no_sep_join; [lia| |].
      + apply no_sep_plain. constructor; [lia|].
        apply Forall_app. split; [repeat constructor; discriminate|exact HD].
      + apply no_sep_join; [lia| |reflexivity].
        apply no_sep_plain_prefix; [repeat constructor; discriminate|exact HF]. }
  rewrite find_at_sep_boundary by (lia || assumption).
  reflexivity.
Qed.

(** What [list_entries] shows of a text whose first separator is at the
    end of [front]. *)
Lemma entry_preview_after (front rest : str) :
  Py.find (front ++ rest) (lit "---") = Py.len front - 3 ->
  3 < Py.len front ->
  entry_preview (front ++ rest)
  = let after_sep := Py.strip rest in
    let second_sep := Py.find after_sep (lit "---") in
    Py.slice_to
      (if 0 <? second_sep
       then Py.strip (Py.slice_to after_sep second_sep)
       else Py.slice_to after_sep 100) 100.
Proof.
  intros H Hl. unfold entry_preview. rewrite H. cbv zeta.
  destruct (0 <? Py.len front - 3) eqn:E; zbool; [|lia].
  replace (Py.len front - 3 + 3) with (Py.len front) by lia.
  now rewrite slice_from_app.
Qed.

(** The text of a note, cut at the first separator. *)
Lemma note_text_parts (T D F text : str) :
  lit "# " ++ T ++ lit "

**Date:** " ++ D ++ lit "
**Folder:** " ++ F ++ lit "

---

" ++ text ++ lit "

---

*Captured with Cortex*
"
  = (((lit "# " ++ T)
      ++ 10 :: (10 :: lit "**Date:** " ++ D)
      ++ 10 :: (lit "**Folder:** " ++ F) ++ 10 :: [])
     ++ 10 :: lit "---" ++ [])
    ++ (10 :: 10 :: text ++ 10 :: 10 :: lit "---"
        ++ 10 :: 10 :: lit "*Captured with Cortex*" ++ [10]).
Proof.
  cbn [lit map list_ascii_of_string].
  repeat first [rewrite <- app_assoc | rewrite <- app_comm_cons
               | rewrite app_nil_l | rewrite app_nil_r].
  reflexivity.
Qed.

(** The note [create_note_content] makes, cut at its first separator. *)
Lemma create_note_content_parts (w : World) (text ts : str)
    (title folder_ summary : value) (body : str) :
  create_note_content w text ts title folder_ summary = Ok body ->
  exists D,
    Forall (fun c => c <> 45) D
    /\ body
       = (((lit "# " ++ format_value w title)
           ++ 10 :: (10 :: lit "**Date:** " ++ D)
           ++ 10 :: (lit "**Folder:** " ++ format_value w folder_) ++ 10 :: [])
          ++ 10 :: lit "---" ++ [])
         ++ (10 :: 10 :: text ++ 10 :: 10 :: lit "---"
             ++ 10 :: 10 :: lit "*Captured with Cortex*" ++ [10]).
Proof.
  unfold create_note_content. destruct (parse_timestamp ts) as [dt|e];
    [|discriminate].
  cbv zeta. intros H. injection H as <-.
  exists (Datetime.strftime dt (lit "%B %d, %Y at %I:%M %p")).
  split; [apply formatted_date_plain|]. apply note_text_parts.
Qed.

Lemma note_preview (T D F text : str) :
  Py.find T (lit "---") = -1 ->
  Forall (fun c => c <> 45) D ->
  Py.find F (lit "---") = -1 ->
  entry_preview
    ((((lit "# " ++ T)
       ++ 10 :: (10 :: lit "**Date:** " ++ D)
       ++ 10 :: (lit "**Folder:** " ++ F) ++ 10 :: [])
      ++ 10 :: lit "---" ++ [])
     ++ (10 :: 10 :: text ++ 10 :: 10 :: lit "---"
         ++ 10 :: 10 :: lit "*Captured with Cortex*" ++ [10]))
  = let after_sep :=
      Py.strip (10 :: 10 :: text ++ 10 :: 10 :: lit "---"
                ++ 10 :: 10 :: lit "*Captured with Cortex*" ++ [10]) in
    let second_sep := Py.find after_sep (lit "---") in
    Py.slice_to
      (if 0 <? second_sep
       then Py.strip (Py.slice_to after_sep second_sep)
       else Py.slice_to after_sep 100) 100.
Proof.
  intros HT HD HF.
  set (head := (lit "# " ++ T)
               ++ 10 :: (10 :: lit "**Date:** " ++ D)
               ++ 10 :: (lit "**Folder:** " ++ F) ++ 10 :: []).
  assert (Hl : Py.len (head ++ 10 :: lit "---" ++ []) = Py.len head + 4).
  { unfold Py.len. rewrite length_app. cbn [List.length lit app map
      list_ascii_of_string]. lia. }
  pose proof (find_note_separator T D F
                (10 :: 10 :: text ++ 10 :: 10 :: lit "---"
                 ++ 10 :: 10 :: lit "*Captured with Cortex*" ++ [10])
                HT HD HF) as H.
  cbv zeta in H. fold head in H. clearbody head.
  apply entry_preview_after.
  - rewrite Hl.
    rewrite <- app_assoc, <- app_comm_cons, <- app_assoc, app_nil_l.
    rewrite H. lia.
  - rewrite Hl. pose proof (len_nonneg head). lia.
Qed.



(** X20.  A note whose transcript is empty or blank has nothing between
    its separators, and [list_entries] then shows the second separator
    and the signature as its preview. *)
Theorem entry_of_blank_note (times : FileTimes) (w : World)
    (text ts : str) (title folder_ summary : value) (body : str)
    (file_path : Fs.path) :
  create_note_content w text ts title folder_ summary = Ok body ->
  Py.find (format_value w title) (lit "---") = -1 ->
  Py.find (format_value w folder_) (lit "---") = -1 ->
  all_space text ->
  entry_preview_text (entry_of times file_path body)
  = lit "---" ++ 10 :: 10 :: lit "*Captured with Cortex*".
Proof.
  intros Hb HT HF Hblank.
  destruct (create_note_content_parts _ _ _ _ _ _ _ Hb) as [D [HD E]].
  unfold entry_of. cbn [entry_preview_text].
  rewrite E, note_preview by assumption. cbv zeta.
  assert (Hafter :
            Py.strip (10 :: 10 :: text ++ 10 :: 10 :: lit "---"
                      ++ 10 :: 10 :: lit "*Captured with Cortex*" ++ [10])
            = lit "---" ++ 10 :: 10 :: lit "*Captured with Cortex*").
  { replace (10 :: 10 :: text ++ 10 :: 10 :: lit "---"
             ++ 10 :: 10 :: lit "*Captured with Cortex*" ++ [10])
      with ((10 :: 10 :: text ++ [10; 10])
            ++ (lit "---" ++ 10 :: 10 :: lit "*Captured with Cortex*" ++ [10]))
      by (repeat first [rewrite <- app_assoc | rewrite <- app_comm_cons
                       | rewrite app_nil_l]; reflexivity).
    rewrite strip_app_space; [reflexivity|].
    repeat constructor. apply Forall_app. split; [exact Hblank|].
    repeat constructor. }
  rewrite Hafter. reflexivity.
Qed.

Lemma entry_of_blank_note_witness :
  exists body,
    create_note_content unreachable_world [] (lit "2024-01-15T10:30:00Z")
      (VStr (lit "Untitled")) (VStr (lit "inbox")) (VStr []) = Ok body
    /\ entry_preview_text
         (entry_of (mk_file_times (fun _ => 0) (fun _ => []))
            (Fs.Path (lit "/data/inbox/2024-01-15_10-30-00_note.md")) body)
       = lit "---" ++ 10 :: 10 :: lit "*Captured with Cortex*".
Proof.
  destruct (create_note_content unreachable_world [] (lit "2024-01-15T10:30:00Z")
              (VStr (lit "Untitled")) (VStr (lit "inbox")) (VStr []))
    as [body|e] eqn:E; [|vm_compute in E; discriminate].
  exists body. split; [reflexivity|].
  apply (entry_of_blank_note (mk_file_times (fun _ => 0) (fun _ => []))
           unreachable_world _ _ _ _ _ body
           (Fs.Path (lit "/data/inbox/2024-01-15_10-30-00_note.md")) E).
  - reflexivity.
  - reflexivity.
  - constructor.
Defined.

End ReadBack.

(** ** The classifier's answer, followed *)
Section Classified.

Lemma call_ai_answered (settings : Settings) (w : World)
    (text readme default_folder body : str) (data content : value) (st : State) :
  nano_gpt_api_key settings <> [] ->
  (forall r, post w r = Response 200 body) ->
  Json.json_loads body = Some data ->
  message_content data = Some content ->
  exists r,
    call_ai settings w text readme default_folder st
    = (Ok content, mk_state (fs st) (sent st ++ [r])).
Proof.
  intros Hk Hpost Hdata Hcontent. unfold call_ai.
  destruct (Py.str_eqb (nano_gpt_api_key settings) []) eqn:E.
  - apply str_eqb_eq in E. contradiction.
  - eexists. unfold bind, http_post. rewrite Hpost.
    change (200 =? 200) with true. cbv iota. rewrite Hdata, Hcontent.
    reflexivity.
Qed.



End Classified.

(** ** The listing after startup *)
Section StartupListing.

(** A sorted listing with a folder named inbox starts with one. *)
Lemma sorted_folders_head (l : list FolderInfo) :
  Exists (fun i => info_name i = lit "inbox") l ->
  exists first rest,
    sort_by folder_before l = first :: rest
    /\ info_name first = lit "inbox".
Proof.
  intros Hex.
  pose proof (sort_by_sorted _ folder_before folder_before_asym
                (fun x y z => folder_before_ntrans x y z) l) as Hs.
  apply Exists_exists in Hex. destruct Hex as [i [Hin Hi]].
  apply (Permutation_in _ (Permutation_sym (sort_by_perm _ folder_before l)))
    in Hin.
  destruct (sort_by folder_before l) as [|first rest]; [destruct Hin|].
  exists first, rest. split; [reflexivity|].
  destruct Hin as [->|Hin]; [exact Hi|].
  inversion Hs as [|? ? _ Hall]; subst.
  rewrite Forall_forall in Hall. specialize (Hall i Hin). cbv beta in Hall.
  unfold folder_before in Hall.
  assert (Ei : Py.str_eqb (info_name i) (lit "inbox") = true)
    by now apply str_eqb_eq.
  rewrite Ei in Hall.
  destruct (Py.str_eqb (info_name first) (lit "inbox")) eqn:Ef;
    [now apply str_eqb_eq in Ef|discriminate].
Qed.

Lemma default_folder_listed (settings : Settings) (f : Fs.filesystem)
    (folder_ : str) :
  In folder_ default_folders ->
  Fs.is_dir f (Fs.joinpath (Fs.Path (data_dir settings)) folder_) = true ->
  In (mk_folder_info folder_
        (Z.of_nat
           (List.length
              (glob_md f (Fs.joinpath (Fs.Path (data_dir settings)) folder_))))
        [])
    (map (fun item =>
            mk_folder_info (path_name item)
              (Z.of_nat (List.length (glob_md f item))) [])
       (filter (fun item =>
                  is_child (Fs.Path (data_dir settings)) item
                  && negb (Py.startswith (lit ".") (path_name item)))
          (Fs.dirs f))).
Proof.
  intros Hin Hd.
  set (data_path := Fs.Path (data_dir settings)) in *.
  assert (Hj : Fs.joinpath data_path folder_
               = Fs.mk_path (Fs.root data_path) (Fs.parts data_path ++ [folder_])
               /\ Py.startswith (lit ".") folder_ = false).
  { cbn [default_folders In] in Hin.
    repeat (destruct Hin as [<-|Hin]; [split; reflexivity|]). destruct Hin. }
  destruct Hj as [Hj Hdot]. rewrite Hj in *.
  apply in_map_iff.
  exists (Fs.mk_path (Fs.root data_path) (Fs.parts data_path ++ [folder_])).
  split.
  - now rewrite path_name_joined.
  - apply filter_In. split.
    + apply is_dir_in_dirs; [|exact Hd].
      cbn [Fs.parts]. now destruct (Fs.parts data_path).
    + rewrite is_child_joined, path_name_joined, Hdot. reflexivity.
Qed.

(** X22.  After startup the folder listing starts with inbox and holds
    each of the four default folders. *)
Theorem list_folders_after_startup (settings : Settings) (st st' : State) :
  no_file_at (fs st) (startup_dirs settings) = true ->
  ensure_directories settings st = (Ok tt, st') ->
  exists first rest,
    list_folders settings st' = (Ok (first :: rest), st')
    /\ info_name first = lit "inbox"
    /\ Forall (fun folder_ =>
                 Exists (fun info => info_name info = folder_) (first :: rest))
         default_folders.
Proof.
  intros _ H. rewrite ensure_directories_run in H. cbv zeta in H.
  injection H as <-.
  set (readme_path := Fs.joinpath (Fs.Path (data_dir settings)) (lit "README.md")).
  set (made := fold_left Fs.add_dir (startup_dirs settings) (fs st)).
  set (kept := if Fs.exists_ made readme_path then made
               else Fs.write_text made readme_path default_readme).
  assert (Hd : forall folder_, In folder_ default_folders ->
                 Fs.is_dir kept
                   (Fs.joinpath (Fs.Path (data_dir settings)) folder_) = true).
  { intros folder_ Hin.
    assert (Hp : In (Fs.joinpath (Fs.Path (data_dir settings)) folder_)
                   (startup_dirs settings)).
    { unfold startup_dirs. apply in_app_iff. right. right.
      now apply in_map. }
    subst kept. destruct (Fs.exists_ made readme_path);
      [|rewrite is_dir_write_text]; now apply fold_add_dir_in. }
  set (listed :=
         map (fun item =>
                mk_folder_info (path_name item)
                  (Z.of_nat (List.length (glob_md kept item))) [])
           (filter (fun item =>
                      is_child (Fs.Path (data_dir settings)) item
                      && negb (Py.startswith (lit ".") (path_name item)))
              (Fs.dirs kept))).
  assert (Hl : forall folder_, In folder_ default_folders ->
                 Exists (fun info => info_name info = folder_) listed).
  { intros folder_ Hin. apply Exists_exists. eexists. split.
    - apply (default_folder_listed settings kept folder_ Hin). now apply Hd.
    - reflexivity. }
  destruct (sorted_folders_head listed) as (first & rest & Es & Hfirst).
  { apply Hl. now left. }
  exists first, rest. split; [|split; [exact Hfirst|]].
  - unfold list_folders, bind, get_fs, ret. cbn [fs]. fold listed.
    now rewrite Es.
  - apply Forall_forall. intros folder_ Hin. rewrite <- Es.
    specialize (Hl folder_ Hin). apply Exists_exists in Hl.
    destruct Hl as [info [Hi Hn]]. apply Exists_exists. exists info.
    split; [|exact Hn].
    now apply (Permutation_in _
                 (Permutation_sym (sort_by_perm _ folder_before listed))).
Qed.

Lemma list_folders_after_startup_witness :
  exists first rest,
    list_folders (sample_settings [])
      (snd (ensure_directories (sample_settings [])
              (mk_state (Fs.mk_fs [] []) [])))
    = (Ok (first :: rest),
       snd (ensure_directories (sample_settings [])
              (mk_state (Fs.mk_fs [] []) [])))
    /\ info_name first = lit "inbox"
    /\ Forall (fun folder_ =>
                 Exists (fun info => info_name info = folder_) (first :: rest))
         default_folders.
Proof.
  apply (list_folders_after_startup (sample_settings [])
           (mk_state (Fs.mk_fs [] []) [])); reflexivity.
Defined.

End StartupListing.
